(** * rpicam_scope: the microscope controller and its control panel

    A shallow embedding of [src/microscope/microscope_control.py] (class
    [Microscope]) and of the capture path of [src/microscope/controlGUI.py]
    (class [ControlGUI]), with the properties of the specification stated
    and settled on it.

    Python values are modelled as follows.
    - [str] is [string]; a character is a code point below 256.
    - [int] is [Z].
    - [float] is an IEEE 754 binary64 number, [spec_float] with
      [prec = 53] and [emax = 1024].
    - [None] is the [None] of [option], or a constructor of its own where
      a variable holds values of several types.
    - A raised exception is a value [exn]: class name and message.
    - The child processes, the console and the dialogs are a trace of
      [event]s. *)

From Stdlib Require Import ZArith String Ascii List Bool Lia.
From Stdlib Require Import SpecFloat DecimalString DecimalPos.
Import ListNotations.

Local Open Scope string_scope.
Local Open Scope list_scope.

(** ** Python strings *)
Module PyStr.

(** [sub in s]. *)
Fixpoint contains (sub s : string) : bool :=
  prefix sub s ||
  match s with
  | EmptyString => false
  | String _ s' => contains sub s'
  end.

(** [s.replace(old, new)] for a non-empty [old]: the occurrences are taken
    from the left and do not overlap.  [skip] counts the characters of a
    matched occurrence still to be dropped. *)
Fixpoint replace_from (old new : string) (skip : nat) (s : string) : string :=
  match s with
  | EmptyString => EmptyString
  | String c s' =>
      match skip with
      | S k => replace_from old new k s'
      | O =>
          if prefix old s
          then new ++ replace_from old new (String.length old - 1) s'
          else String c (replace_from old new 0 s')
      end
  end.

(** With an empty [old], Python puts [new] before every character and at
    the end. *)
Fixpoint intersperse (new s : string) : string :=
  match s with
  | EmptyString => new
  | String c s' => new ++ String c (intersperse new s')
  end.

Definition replace (old new s : string) : string :=
  match old with
  | EmptyString => intersperse new s
  | _ => replace_from old new 0 s
  end.

(** [s.split(sep)] for a separator of one character; the result is never
    empty. *)
Fixpoint split (sep : ascii) (s : string) : list string :=
  match s with
  | EmptyString => [EmptyString]
  | String c s' =>
      if Ascii.eqb c sep then EmptyString :: split sep s'
      else match split sep s' with
           | field :: rest => String c field :: rest
           | [] => [String c EmptyString]
           end
  end.

(** [str.isspace] on one character (code points below 256). *)
Definition isspace (c : ascii) : bool :=
  let n := nat_of_ascii c in
  (((9 <=? n) && (n <=? 13)) || ((28 <=? n) && (n <=? 32))
   || (n =? 133) || (n =? 160))%nat.

Fixpoint lstrip (s : string) : string :=
  match s with
  | EmptyString => EmptyString
  | String c s' => if isspace c then lstrip s' else s
  end.

Fixpoint rstrip (s : string) : string :=
  match s with
  | EmptyString => EmptyString
  | String c s' =>
      match rstrip s' with
      | EmptyString => if isspace c then EmptyString else String c EmptyString
      | r => String c r
      end
  end.

(** [s.strip()]. *)
Definition strip (s : string) : string := rstrip (lstrip s).

Definition startswith (p s : string) : bool := prefix p s.

Definition not_colon (c : ascii) : bool := negb (Ascii.eqb c ":").

(** Neither white space nor a sign. *)
Definition plain (c : ascii) : bool :=
  negb (isspace c) && negb (Ascii.eqb c "-") && negb (Ascii.eqb c "+").

(** Whether every character of [s] satisfies [P]. *)
Fixpoint all_chars (P : ascii -> bool) (s : string) : bool :=
  match s with
  | EmptyString => true
  | String c s' => P c && all_chars P s'
  end.

Fixpoint endswith_char (c : ascii) (s : string) : bool :=
  match s with
  | EmptyString => false
  | String d EmptyString => Ascii.eqb d c
  | String _ s' => endswith_char c s'
  end.

(** [os.path.join(a, b)] of [posixpath]; [os.path.join(a)] is [a]. *)
Definition path_join (a b : string) : string :=
  if startswith "/" b then b
  else if (String.eqb a "" || endswith_char "/" a)%bool then a ++ b
  else a ++ "/" ++ b.

End PyStr.

(** ** Python numbers: [int], [float] and their conversions *)
Module PyNum.

Local Open Scope Z_scope.

Definition digit_of (c : ascii) : option Z :=
  let n := Z.of_nat (nat_of_ascii c) in
  if (48 <=? n) && (n <=? 57) then Some (n - 48) else None.

(** A run of decimal digits in which single underscores may stand between
    two digits (the grammar of [int] and [float] literals in strings).
    Returns the value of the digits read onto [acc] and their number added
    to [n]; [after_digit] says whether the previous character was a
    digit. *)
Fixpoint digitpart (acc : Z) (n : nat) (after_digit : bool) (s : string)
  : option (Z * nat) :=
  match s with
  | EmptyString => if after_digit then Some (acc, n) else None
  | String c s' =>
      match digit_of c with
      | Some d => digitpart (acc * 10 + d) (S n) true s'
      | None =>
          if Ascii.eqb c "_" && after_digit
          then digitpart acc n false s'
          else None
      end
  end.

(** The white space that [int] and [float] skip at the two ends of a
    text (code points below 256): the six characters of C's [isspace],
    and the two separators above 127, which the conversion of the text
    turns into spaces.  The characters 28 to 31, which [str.strip]
    removes, are not among them. *)
Definition isspace (c : ascii) : bool :=
  let n := nat_of_ascii c in
  (((9 <=? n) && (n <=? 13)) || (n =? 32) || (n =? 133) || (n =? 160))%nat.

Fixpoint lstrip (s : string) : string :=
  match s with
  | EmptyString => EmptyString
  | String c s' => if isspace c then lstrip s' else s
  end.

Fixpoint rstrip (s : string) : string :=
  match s with
  | EmptyString => EmptyString
  | String c s' =>
      match rstrip s' with
      | EmptyString => if isspace c then EmptyString else String c EmptyString
      | r => String c r
      end
  end.

(** The text without the white space that a number may stand in. *)
Definition strip (s : string) : string := rstrip (lstrip s).

(** An optional sign in front of [s]: [true] for a minus sign. *)
Definition take_sign (s : string) : bool * string :=
  match s with
  | String c s' =>
      if Ascii.eqb c "-" then (true, s')
      else if Ascii.eqb c "+" then (false, s')
      else (false, s)
  | EmptyString => (false, s)
  end.

(** [int(s)] in base ten; [None] stands for [ValueError]. *)
Definition int (s : string) : option Z :=
  let (neg, body) := take_sign (strip s) in
  match digitpart 0 0 false body with
  | Some (v, _) => Some (if neg then - v else v)
  | None => None
  end.

(** [str(z)] for an [int]. *)
Definition str_int (z : Z) : string :=
  DecimalString.NilZero.string_of_int (Z.to_int z).

Fixpoint zeros (n : nat) : string :=
  match n with
  | O => EmptyString
  | S k => String "0" (zeros k)
  end.

(** [format(z, '02')]: sign first, then zeros up to two characters. *)
Definition format_02 (z : Z) : string :=
  let body := str_int (Z.abs z) in
  if z <? 0 then "-" ++ zeros (1 - String.length body) ++ body
  else zeros (2 - String.length body) ++ body.

(** *** binary64 *)

Definition float := spec_float.
Definition prec : Z := 53.
Definition emax : Z := 1024.

(** The binary64 number nearest to [(-1)^neg * m * 10^e], ties to even:
    what the correctly rounded [float(s)] of CPython returns for a decimal
    string with digits [m] and decimal exponent [e]. *)
Definition float_of_decimal (neg : bool) (m : Z) (e : Z) : float :=
  match m with
  | Zpos p =>
      if 0 <=? e
      then binary_normalize prec emax
             (if neg then - (m * 10 ^ e) else m * 10 ^ e) 0 neg
      else SFdiv prec emax (S754_finite neg p 0)
             (S754_finite false (Z.to_pos (10 ^ (- e))) 0)
  | _ => S754_zero neg
  end.

Definition lower (c : ascii) : ascii :=
  let n := nat_of_ascii c in
  if ((65 <=? n) && (n <=? 90))%nat then ascii_of_nat (n + 32) else c.

Fixpoint lower_string (s : string) : string :=
  match s with
  | EmptyString => EmptyString
  | String c s' => String (lower c) (lower_string s')
  end.

(** [s] cut at the first character satisfying [p]: the part before it, and
    the part after it when there is one. *)
Fixpoint cut_at (p : ascii -> bool) (s : string) : string * option string :=
  match s with
  | EmptyString => (EmptyString, None)
  | String c s' =>
      if p c then (EmptyString, Some s')
      else let (a, b) := cut_at p s' in (String c a, b)
  end.

(** A [digitpart] that may be empty. *)
Definition digits_opt (s : string) : option (Z * nat) :=
  match s with
  | EmptyString => Some (0, O)
  | _ => digitpart 0 0 false s
  end.

(** The mantissa of a decimal float string: digits, optionally a point and
    more digits, with a digit on at least one side.  Returns the digits as
    an integer and the number of them after the point. *)
Definition mantissa (s : string) : option (Z * nat) :=
  match cut_at (fun c => Ascii.eqb c ".") s with
  | (ip, None) => match digitpart 0 0 false ip with
                  | Some (v, _) => Some (v, O)
                  | None => None
                  end
  | (ip, Some fp) =>
      match ip, fp with
      | EmptyString, EmptyString => None
      | _, _ =>
          match digits_opt ip with
          | Some (vi, _) =>
              match fp with
              | EmptyString => Some (vi, O)
              | _ => match digitpart vi 0 false fp with
                     | Some (v, nf) => Some (v, nf)
                     | None => None
                     end
              end
          | None => None
          end
      end
  end.

Definition exponent (s : string) : option Z :=
  let (neg, body) := take_sign s in
  match digitpart 0 0 false body with
  | Some (v, _) => Some (if neg then - v else v)
  | None => None
  end.

(** [float(s)] for a string; [None] stands for [ValueError]. *)
Definition float_of_str (s : string) : option float :=
  let (neg, body) := take_sign (strip s) in
  let low := lower_string body in
  if String.eqb low "inf" || String.eqb low "infinity"
  then Some (S754_infinity neg)
  else if String.eqb low "nan" then Some S754_nan
  else
    match cut_at (fun c => Ascii.eqb c "e" || Ascii.eqb c "E") body with
    | (mp, None) =>
        match mantissa mp with
        | Some (m, nf) => Some (float_of_decimal neg m (- Z.of_nat nf))
        | None => None
        end
    | (mp, Some ep) =>
        match mantissa mp, exponent ep with
        | Some (m, nf), Some e =>
            Some (float_of_decimal neg m (e - Z.of_nat nf))
        | _, _ => None
        end
    end.

(** A float literal of the source text. *)
Definition literal (s : string) : float :=
  match float_of_str s with
  | Some f => f
  | None => S754_nan
  end.

(** [a > b] and [a <= b] on floats; both are [False] on a NaN. *)
Definition gt (a b : float) : bool := SFltb b a.

(** *** [str(f)] for a float

    CPython prints the shortest decimal string that reads back as the same
    binary64 number, and among the shortest the one nearest to it. *)

Definition same_float (a b : float) : bool :=
  match a, b with
  | S754_zero s, S754_zero t => Bool.eqb s t
  | S754_infinity s, S754_infinity t => Bool.eqb s t
  | S754_nan, S754_nan => true
  | S754_finite s m e, S754_finite t n x =>
      Bool.eqb s t && Pos.eqb m n && (e =? x)
  | _, _ => false
  end.

(** The least [j >= 1] with [num * 10^j >= den], for [0 < num < den]. *)
Fixpoint leading_zeros (fuel : nat) (num den : Z) (j : Z) : Z :=
  match fuel with
  | O => j
  | S k => if den <=? num * 10 ^ j then j
           else leading_zeros k num den (j + 1)
  end.

(** The decimal point position of [num / den > 0]: the [k] with
    [10^(k-1) <= num / den < 10^k]. *)
Definition decpt_of (num den : Z) : Z :=
  if den <=? num then Z.of_nat (String.length (str_int (num / den)))
  else 1 - leading_zeros (S (Z.to_nat (Z.log2 den))) num den 1.

(** [num / den] cut to an integer number of units [10^x]: the quotient and
    how the remainder compares with half a unit. *)
Definition scaled (num den x : Z) : Z * comparison :=
  let n := if 0 <=? x then num else num * 10 ^ (- x) in
  let d := if 0 <=? x then den * 10 ^ x else den in
  (n / d, (2 * (n mod d) ?= d)).

(** The digits [D] and exponent [x] of the printed value [D * 10^x], tried
    with [p], [p + 1], ... significant digits. *)
Fixpoint shortest (fuel : nat) (f : float) (neg : bool) (num den k : Z)
  (p : Z) : Z * Z :=
  let x := k - p in
  let (lo, half) := scaled num den x in
  let hi := lo + 1 in
  let lo_ok := same_float (float_of_decimal neg lo x) f in
  let hi_ok := same_float (float_of_decimal neg hi x) f in
  let nearest :=
    match half with
    | Lt => lo
    | Gt => hi
    | Eq => if Z.even lo then lo else hi
    end in
  match fuel with
  | O => (nearest, x)
  | S fuel' =>
      if lo_ok && hi_ok then (nearest, x)
      else if lo_ok then (lo, x)
      else if hi_ok then (hi, x)
      else shortest fuel' f neg num den k (p + 1)
  end.

(** Trailing zeros moved from the digits into the exponent. *)
Fixpoint drop_zeros (fuel : nat) (d x : Z) : Z * Z :=
  match fuel with
  | O => (d, x)
  | S k => if (d mod 10 =? 0) && negb (d =? 0)
           then drop_zeros k (d / 10) (x + 1) else (d, x)
  end.

Fixpoint take (n : nat) (s : string) : string :=
  match n, s with
  | S k, String c s' => String c (take k s')
  | _, _ => EmptyString
  end.

Fixpoint drop (n : nat) (s : string) : string :=
  match n, s with
  | S k, String _ s' => drop k s'
  | _, _ => s
  end.

(** The layout of [repr]: positional when [-4 < decpt <= 16], with an
    exponent of at least two digits otherwise. *)
Definition layout (digits : string) (decpt : Z) : string :=
  let n := Z.of_nat (String.length digits) in
  if (-4 <? decpt) && (decpt <=? 16) then
    if decpt <=? 0 then "0." ++ zeros (Z.to_nat (- decpt)) ++ digits
    else if n <=? decpt
         then digits ++ zeros (Z.to_nat (decpt - n)) ++ ".0"
         else take (Z.to_nat decpt) digits ++ "."
              ++ drop (Z.to_nat decpt) digits
  else
    let e := decpt - 1 in
    let es := str_int (Z.abs e) in
    take 1 digits
    ++ (if 1 <? n then "." ++ drop 1 digits else "")
    ++ "e" ++ (if e <? 0 then "-" else "+")
    ++ zeros (2 - String.length es) ++ es.

Definition str_float (f : float) : string :=
  match f with
  | S754_nan => "nan"
  | S754_infinity s => if s then "-inf" else "inf"
  | S754_zero s => if s then "-0.0" else "0.0"
  | S754_finite s m e =>
      let num := if 0 <=? e then Zpos m * 2 ^ e else Zpos m in
      let den := if 0 <=? e then 1 else 2 ^ (- e) in
      let k := decpt_of num den in
      let (d0, x0) := shortest 16 f s num den k 1 in
      let (d, x) := drop_zeros (String.length (str_int d0)) d0 x0 in
      let digits := str_int d in
      (if s then "-" else "")
      ++ layout digits (Z.of_nat (String.length digits) + x)
  end.

End PyNum.

(** ** Exceptions, child processes and the trace *)

(** A raised exception: the name of its class and [str(e)]. *)
Record exn := Exn { exn_class : string; exn_msg : string }.

(** [isinstance(e, cls)] for the classes that occur here: [OSError] is the
    base of [FileNotFoundError], and [Exception] is a base of every class
    the program meets. *)
Definition isinstance (e : exn) (cls : string) : bool :=
  String.eqb (exn_class e) cls
  || String.eqb cls "Exception"
  || (String.eqb cls "OSError" && String.eqb (exn_class e) "FileNotFoundError").

(** What the program does to the outside, in the order it does it. *)
Inductive event :=
| Popen (pid : nat) (args : list string)
    (** [subprocess.Popen(args)]: child [pid] started, not awaited *)
| Run (args : list string)
    (** [subprocess.run(args)]: a child started and awaited until its exit *)
| Terminate (pid : nat)     (** [Popen.terminate()] *)
| Wait (pid : nat)          (** [Popen.wait()]: blocks until [pid] exited *)
| Print (line : string)     (** [print(line)] *)
| MessageBox (kind title text : string).
    (** [QMessageBox.warning] and [QMessageBox.critical] *)

(** The result of reading a file. *)
Inductive read_result :=
| ReadOk (content : string)
| ReadError (e : exn).

(** The host as the program sees it: which programs can be started, the
    next process id, the content of [/proc/device-tree/model] and the home
    directory. *)
Record OS := {
  executable : string -> bool;
  next_pid : nat;
  device_tree_model : read_result;
  home : string
}.

Definition with_next_pid (os : OS) (n : nat) : OS :=
  {| executable := executable os; next_pid := n;
     device_tree_model := device_tree_model os; home := home os |}.

Inductive res (A : Type) :=
| Ret (a : A)
| Raise (e : exn).
Arguments Ret {A} a.
Arguments Raise {A} e.

(** The outcome of running a piece of code on an object of type [St]: the
    value or exception, the host and the object afterwards, and the events
    in order.  An exception keeps the changes made before it. *)
Record Out (St A : Type) := MkOut {
  result : res A;
  os_after : OS;
  self_after : St;
  events : list event
}.
Arguments MkOut {St A}.
Arguments result {St A}.
Arguments os_after {St A}.
Arguments self_after {St A}.
Arguments events {St A}.

Definition M (St A : Type) : Type := OS -> St -> Out St A.

Definition ret {St A} (a : A) : M St A :=
  fun os self => MkOut (Ret a) os self [].

Definition raise {St A} (e : exn) : M St A :=
  fun os self => MkOut (Raise e) os self [].

Definition bind {St A B} (c : M St A) (k : A -> M St B) : M St B :=
  fun os self =>
    match c os self with
    | MkOut (Ret a) os1 self1 ev1 =>
        match k a os1 self1 with
        | MkOut r os2 self2 ev2 => MkOut r os2 self2 (ev1 ++ ev2)
        end
    | MkOut (Raise e) os1 self1 ev1 => MkOut (Raise e) os1 self1 ev1
    end.

Declare Scope py_scope.
Delimit Scope py_scope with py.
Notation "x <- c ;; k" := (bind c (fun x => k))
  (at level 100, c at next level, right associativity) : py_scope.
Notation "c ;; k" := (bind c (fun _ => k))
  (at level 100, right associativity) : py_scope.
Local Open Scope py_scope.

Definition get_self {St} : M St St := fun os self => MkOut (Ret self) os self [].
Definition put_self {St} (s : St) : M St unit :=
  fun os _ => MkOut (Ret tt) os s [].
Definition get_os {St} : M St OS := fun os self => MkOut (Ret os) os self [].
Definition emit {St} (e : event) : M St unit :=
  fun os self => MkOut (Ret tt) os self [e].

(** The first clause of [clauses] whose class the exception is an instance
    of. *)
Fixpoint find_clause {St A} (e : exn)
  (clauses : list (string * (exn -> M St A))) : option (exn -> M St A) :=
  match clauses with
  | [] => None
  | (cls, h) :: rest =>
      if isinstance e cls then Some h else find_clause e rest
  end.

(** [try: c  except cls1 as e: h1 e  except cls2 as e: h2 e ...]: the
    handler of the first matching clause runs in the state the exception
    left; an exception of the handler is not handled by the other
    clauses. *)
Definition try_except {St A} (c : M St A)
  (clauses : list (string * (exn -> M St A))) : M St A :=
  fun os self =>
    match c os self with
    | MkOut (Ret a) os1 self1 ev1 => MkOut (Ret a) os1 self1 ev1
    | MkOut (Raise e) os1 self1 ev1 =>
        match find_clause e clauses with
        | Some h =>
            match h e os1 self1 with
            | MkOut r os2 self2 ev2 => MkOut r os2 self2 (ev1 ++ ev2)
            end
        | None => MkOut (Raise e) os1 self1 ev1
        end
    end.

(** A method of an attribute object, run on the object that holds it. *)
Definition on_attr {St T A} (getter : St -> T) (setter : St -> T -> St)
  (c : M T A) : M St A :=
  fun os self =>
    match c os (getter self) with
    | MkOut r os1 attr1 ev1 => MkOut r os1 (setter self attr1) ev1
    end.

Definition print {St} (line : string) : M St unit := emit (Print line).

(** A computation without effects, as a step of a method. *)
Definition of_res {St A} (r : res A) : M St A :=
  fun os self => MkOut r os self [].

Definition TypeError (msg : string) : exn := Exn "TypeError" msg.
Definition ValueError (msg : string) : exn := Exn "ValueError" msg.
Definition NameError (msg : string) : exn := Exn "NameError" msg.
Definition IndexError (msg : string) : exn := Exn "IndexError" msg.
Definition FileNotFoundError (msg : string) : exn :=
  Exn "FileNotFoundError" msg.

Definition no_such_file (prog : string) : exn :=
  FileNotFoundError ("[Errno 2] No such file or directory: '" ++ prog ++ "'").

(** [subprocess.run(command)] with the default [check=False]: the exit
    status of the child is not looked at.  [None] is not a sequence of
    arguments; a program that cannot be started raises.  The child is taken
    to exit: [Run] stands for the whole call. *)
Definition subprocess_run {St} (command : option (list string)) : M St unit :=
  match command with
  | None => raise (TypeError "'NoneType' object is not iterable")
  | Some [] => raise (IndexError "list index out of range")
  | Some (prog :: args) =>
      os <- get_os ;;
      if executable os prog then emit (Run (prog :: args))
      else raise (no_such_file prog)
  end.

(** [subprocess.Popen(command)]: the handle of the started child. *)
Definition subprocess_Popen {St} (command : list string) : M St nat :=
  match command with
  | [] => raise (IndexError "list index out of range")
  | prog :: args =>
      fun os self =>
        if executable os prog
        then MkOut (Ret (next_pid os)) (with_next_pid os (S (next_pid os)))
                   self [Popen (next_pid os) (prog :: args)]
        else MkOut (Raise (no_such_file prog)) os self []
  end.

(** [l[i]] on a list. *)
Definition index {St} (l : list string) (i : nat) : M St string :=
  match nth_error l i with
  | Some x => ret x
  | None => raise (IndexError "list index out of range")
  end.

(** ** [class Microscope] of [microscope_control.py] *)
Module Microscope.

Local Open Scope string_scope.

(** One entry of [self.valid_resolutions]. *)
Record res_details := {
  resolution : string;
  max_fps : PyNum.float;
  aspect : string
}.

Definition fps_120_05 : PyNum.float :=
  Eval vm_compute in PyNum.literal "120.05".
Definition fps_50_03 : PyNum.float :=
  Eval vm_compute in PyNum.literal "50.03".
Definition fps_40_01 : PyNum.float :=
  Eval vm_compute in PyNum.literal "40.01".
Definition fps_10_00 : PyNum.float :=
  Eval vm_compute in PyNum.literal "10.00".

(** [self.valid_resolutions], set in [__init__] and never changed. *)
Definition valid_resolutions : list (string * res_details) :=
  [ ("1", {| resolution := "1332x990"; max_fps := fps_120_05;
             aspect := "4:3" |});
    ("2", {| resolution := "2028x1080"; max_fps := fps_50_03;
             aspect := "16:9" |});
    ("3", {| resolution := "2028x1520"; max_fps := fps_40_01;
             aspect := "4:3" |});
    ("4", {| resolution := "4056x3040"; max_fps := fps_10_00;
             aspect := "4:3" |}) ].

(** [d.get(key)]: [None] when the key is absent. *)
Fixpoint dict_get {V : Type} (d : list (string * V)) (key : string)
  : option V :=
  match d with
  | [] => None
  | (k, v) :: rest => if String.eqb k key then Some v else dict_get rest key
  end.

Definition not_subscriptable : exn :=
  TypeError "'NoneType' object is not subscriptable".

(** [res_details[...]]: subscripting [None] raises. *)
Definition getitem {St} (d : option res_details) : M St res_details :=
  match d with
  | Some r => ret r
  | None => raise not_subscriptable
  end.

(** The attributes of a [Microscope]; [preview_process] holds the handle
    of the preview child or [None]. *)
Record t := {
  pi_model : string;
  desktop_path : string;
  preview_process : option nat
}.

Definition set_preview_process (m : t) (p : option nat) : t :=
  {| pi_model := pi_model m; desktop_path := desktop_path m;
     preview_process := p |}.

(** A value the [framerate] variable of [record_video] can hold. *)
Inductive framerate_value :=
| FrNone
| FrStr (s : string)
| FrFloat (f : PyNum.float).

(** [float(framerate)]. *)
Definition to_float (v : framerate_value) : res PyNum.float :=
  match v with
  | FrFloat f => Ret f
  | FrStr s =>
      match PyNum.float_of_str s with
      | Some f => Ret f
      | None =>
          Raise (ValueError ("could not convert string to float: '"
                             ++ s ++ "'"))
      end
  | FrNone =>
      Raise (TypeError ("float() argument must be a string or a real "
                        ++ "number, not 'NoneType'"))
  end.

(** [str(framerate)]. *)
Definition to_str (v : framerate_value) : string :=
  match v with
  | FrNone => "None"
  | FrStr s => s
  | FrFloat f => PyNum.str_float f
  end.

(** [open('/proc/device-tree/model', 'r')] and [file.read()]. *)
Definition read_model_file {St} : M St string :=
  os <- get_os ;;
  match device_tree_model os with
  | ReadOk content => ret content
  | ReadError e => raise e
  end.

(** Only [FileNotFoundError] is handled. *)
Definition get_pi_model {St} : M St string :=
  try_except
    (model <- read_model_file ;;
     ret (PyStr.strip model))
    [ ("FileNotFoundError",
       fun _ => print "Failed to detect Raspberry Pi model." ;;
                ret "Unknown") ].

(** [__init__]: the new object. *)
Definition init : M unit t :=
  model <- get_pi_model ;;
  print model ;;
  os <- get_os ;;
  ret {| pi_model := model;
         desktop_path := PyStr.path_join (home os) "Desktop";
         preview_process := None |}.

Definition start_preview (res_key : string) : M t unit :=
  let res_details := dict_get valid_resolutions res_key in
  d <- getitem res_details ;;
  width <- index (PyStr.split "x" (resolution d)) 0 ;;
  d' <- getitem res_details ;;
  height <- index (PyStr.split "x" (resolution d')) 1 ;;
  let command :=
    ["rpicam-hello"; "--timeout"; "0"; "--width"; width; "--height"; height] in
  pid <- subprocess_Popen command ;;
  self <- get_self ;;
  put_self (set_preview_process self (Some pid)) ;;
  print "Starting indefinite camera preview...".

(** The default argument of [start_preview]. *)
Definition start_preview_default : M t unit := start_preview "0".

Definition stop_preview : M t unit :=
  self <- get_self ;;
  match preview_process self with
  | Some pid =>
      emit (Terminate pid) ;;
      emit (Wait pid) ;;
      self <- get_self ;;
      put_self (set_preview_process self None) ;;
      print "Camera preview stopped."
  | None => ret tt
  end.

Definition capture_image (resolution_key filename : string) : M t unit :=
  let res_details := dict_get valid_resolutions resolution_key in
  let output_path := filename ++ ".jpg" in
  d <- getitem res_details ;;
  width <- index (PyStr.split "x" (resolution d)) 0 ;;
  d' <- getitem res_details ;;
  height <- index (PyStr.split "x" (resolution d')) 1 ;;
  let command :=
    ["rpicam-still"; "-o"; output_path; "--width"; width; "--height"; height] in
  subprocess_run (Some command) ;;
  print ("Image captured and saved to " ++ output_path).

(** The last statement prints [save_folder], a name bound nowhere in the
    module. *)
Definition capture_timelapse (resolution_key : string) (interval duration : Z)
  (filename : string) : M t unit :=
  let res_details := dict_get valid_resolutions resolution_key in
  let output_path := filename ++ "_%04d.jpg" in
  d <- getitem res_details ;;
  width <- index (PyStr.split "x" (resolution d)) 0 ;;
  d' <- getitem res_details ;;
  height <- index (PyStr.split "x" (resolution d')) 1 ;;
  let command :=
    ["rpicam-still";
     "-t"; PyNum.str_int (duration * 1000);
     "--timelapse"; PyNum.str_int (interval * 1000);
     "-o"; output_path;
     "--width"; width; "--height"; height] in
  subprocess_run (Some command) ;;
  raise (NameError "name 'save_folder' is not defined").

Definition get_video_extension : M t string :=
  self <- get_self ;;
  if negb (PyStr.contains "Raspberry Pi 5" (pi_model self))
  then ret ".h264"
  else ret ".mp4".

(** No branch returns when the model is neither a Pi 4 nor a Pi 5: the
    result is then [None]. *)
Definition get_video_command (resolution : string)
  (framerate : framerate_value) (duration : Z) (output_path : string)
  : M t (option (list string)) :=
  self <- get_self ;;
  if PyStr.contains "Raspberry Pi 4" (pi_model self) then
    let timestamp_path :=
      PyStr.path_join (desktop_path self) "timestamps.txt" in
    width <- index (PyStr.split "x" resolution) 0 ;;
    height <- index (PyStr.split "x" resolution) 1 ;;
    ret (Some ["rpicam-vid";
               "--framerate"; to_str framerate;
               "--width"; width;
               "--height"; height;
               "--save-pts"; timestamp_path;
               "-o"; output_path;
               "-t"; PyNum.str_int duration ++ "s"])
  else if PyStr.contains "Raspberry Pi 5" (pi_model self) then
    width <- index (PyStr.split "x" resolution) 0 ;;
    height <- index (PyStr.split "x" resolution) 1 ;;
    ret (Some ["rpicam-vid";
               "-t"; PyNum.str_int duration ++ "s";
               "-o"; output_path;
               "--width"; width;
               "--height"; height;
               "--framerate"; to_str framerate])
  else ret None.

(** [subprocess.Popen]: the merge is started and not awaited. *)
Definition convert_to_mkv (input_h264_path output_mkv_path
  timestamps_path : string) : M t unit :=
  let mkvmerge_command :=
    ["mkvmerge"; "-o"; output_mkv_path;
     "--timecodes"; "0:" ++ timestamps_path;
     input_h264_path] in
  _ <- subprocess_Popen mkvmerge_command ;;
  print ("Converted to MKV and saved to " ++ output_mkv_path).

(** Lines 124-125 of [record_video]: the framerate that is used.
    [float(framerate)] is not evaluated when [framerate] is [None]. *)
Definition clamp_framerate (framerate : framerate_value)
  (max_fps : PyNum.float) : res framerate_value :=
  match framerate with
  | FrNone => Ret (FrFloat max_fps)
  | _ =>
      match to_float framerate with
      | Ret f =>
          if PyNum.gt f max_fps then Ret (FrFloat max_fps) else Ret framerate
      | Raise e => Raise e
      end
  end.

Definition record_video (resolution_key : string)
  (framerate : framerate_value) (duration : Z) (filename : string)
  : M t unit :=
  let res_details := dict_get valid_resolutions resolution_key in
  d <- getitem res_details ;;
  let max_fps := max_fps d in
  framerate <- of_res (clamp_framerate framerate max_fps) ;;
  extension <- get_video_extension ;;
  let output_path := filename ++ extension in
  print ("Using " ++ to_str framerate ++ " FPS for the resolution "
         ++ resolution_key ++ ". Video stored in " ++ output_path) ;;
  d' <- getitem res_details ;;
  command <- get_video_command (resolution d') framerate duration
               output_path ;;
  subprocess_run command ;;
  self <- get_self ;;
  if PyStr.contains "Raspberry Pi 4" (pi_model self) then
    let input_path := output_path in
    let output_path := PyStr.replace ".h264" ".mkv" input_path in
    let timestamps_path :=
      PyStr.path_join (desktop_path self) "timestamps.txt" in
    convert_to_mkv input_path output_path timestamps_path
  else
    print ("Video recorded and saved to " ++ output_path).

End Microscope.

(** ** [class ControlGUI] of [controlGUI.py]: the state of the form and the
    handlers of its buttons *)
Module ControlGUI.

Local Open Scope string_scope.
Local Open Scope Z_scope.

(** The attributes the handlers read and write.  A combo box or line edit
    is its current text, a spin box its value, the preview button its
    label. *)
Record t := {
  microscope : Microscope.t;
  save_folder : string;
  preview_running : bool;
  preview_button : string;
  mode_combo : string;
  resolution_combo : string;
  filename_edit : string;
  framerate_edit : string;
  interval_spin : Z;
  duration_hours_spin : Z;
  duration_minutes_spin : Z;
  duration_seconds_spin : Z
}.

Definition set_microscope (g : t) (m : Microscope.t) : t :=
  {| microscope := m; save_folder := save_folder g;
     preview_running := preview_running g;
     preview_button := preview_button g; mode_combo := mode_combo g;
     resolution_combo := resolution_combo g;
     filename_edit := filename_edit g; framerate_edit := framerate_edit g;
     interval_spin := interval_spin g;
     duration_hours_spin := duration_hours_spin g;
     duration_minutes_spin := duration_minutes_spin g;
     duration_seconds_spin := duration_seconds_spin g |}.

(** [self.preview_running = b] and [self.preview_button.setText(label)]. *)
Definition set_preview_state (g : t) (b : bool) (label : string) : t :=
  {| microscope := microscope g; save_folder := save_folder g;
     preview_running := b;
     preview_button := label; mode_combo := mode_combo g;
     resolution_combo := resolution_combo g;
     filename_edit := filename_edit g; framerate_edit := framerate_edit g;
     interval_spin := interval_spin g;
     duration_hours_spin := duration_hours_spin g;
     duration_minutes_spin := duration_minutes_spin g;
     duration_seconds_spin := duration_seconds_spin g |}.

(** A call [self.microscope.method(...)]. *)
Definition on_microscope {A} (c : M Microscope.t A) : M t A :=
  on_attr microscope set_microscope c.

(** [map(int, parts)] unpacked into three names: the fields are converted
    from the left and the first failure is the result. *)
Definition parse_duration (duration_text : string) : option Z :=
  match PyStr.split ":" duration_text with
  | [h; m; s] =>
      match PyNum.int h with
      | Some hours =>
          match PyNum.int m with
          | Some minutes =>
              match PyNum.int s with
              | Some seconds => Some (hours * 3600 + minutes * 60 + seconds)
              | None => None
              end
          | None => None
          end
      | None => None
      end
  | _ => None
  end.

Definition set_preview : M t unit :=
  self <- get_self ;;
  res_key <- index (PyStr.split ":" (resolution_combo self)) 0 ;;
  on_microscope (Microscope.start_preview res_key) ;;
  self <- get_self ;;
  put_self (set_preview_state self true "Stop Preview [P]").

Definition toggle_preview : M t unit :=
  self <- get_self ;;
  if preview_running self then
    on_microscope Microscope.stop_preview ;;
    self <- get_self ;;
    put_self (set_preview_state self false "Start Preview [P]")
  else set_preview.

Definition resolution_changed : M t unit :=
  self <- get_self ;;
  if preview_running self then
    on_microscope Microscope.stop_preview ;;
    set_preview
  else ret tt.

(** The text [capture] builds from the three duration spin boxes. *)
Definition duration_str (g : t) : string :=
  PyNum.format_02 (duration_hours_spin g) ++ ":"
  ++ PyNum.format_02 (duration_minutes_spin g) ++ ":"
  ++ PyNum.format_02 (duration_seconds_spin g).

Definition newline : string := String (ascii_of_nat 10) EmptyString.

(** The two [except] clauses of [capture]. *)
Definition capture_clauses : list (string * (exn -> M t unit)) :=
  [ ("ValueError",
     fun e => emit (MessageBox "warning" "Input Error" (exn_msg e)));
    ("Exception",
     fun e => emit (MessageBox "critical" "Error"
                      ("An unexpected error occurred: " ++ newline ++ " "
                       ++ exn_msg e))) ].

(** The [try] block of [capture], with the text of the duration as an
    argument. *)
Definition capture_try (duration_text : string) : M t unit :=
  on_microscope Microscope.stop_preview ;;
  self <- get_self ;;
  put_self (set_preview_state self false "Start Preview [P]") ;;
  self <- get_self ;;
  let mode := mode_combo self in
  resolution <- index (PyStr.split ":" (resolution_combo self)) 0 ;;
  let filename := filename_edit self in
  let framerate :=
    if String.eqb (framerate_edit self) "" then Microscope.FrNone
    else Microscope.FrStr (framerate_edit self) in
  match parse_duration duration_text with
  | None =>
      raise (ValueError "Invalid duration format. Use hours:minutes:seconds.")
  | Some duration =>
      let full_filename := PyStr.path_join (save_folder self) filename in
      if String.eqb mode "video" then
        on_microscope
          (Microscope.record_video resolution framerate duration full_filename)
      else if String.eqb mode "timelapse" then
        let interval := interval_spin self in
        on_microscope
          (Microscope.capture_timelapse resolution interval duration
             full_filename)
      else
        on_microscope (Microscope.capture_image resolution full_filename)
  end.

(** [capture] from the text of the duration on. *)
Definition capture_with (duration_text : string) : M t unit :=
  try_except (capture_try duration_text) capture_clauses.

(** [capture]: the duration text is built from the spin boxes, which no
    statement before it changes. *)
Definition capture : M t unit :=
  self <- get_self ;;
  capture_with (duration_str self).

End ControlGUI.

(** ** Properties of traces *)

(** The events that start a child process. *)
Definition is_launch (e : event) : bool :=
  match e with
  | Popen _ _ | Run _ => true
  | _ => false
  end.

Definition launches (tr : list event) : list event := filter is_launch tr.

(** Whether the timestamp merge tool was started. *)
Definition is_merge (e : event) : bool :=
  match e with
  | Popen _ (prog :: _) => String.eqb prog "mkvmerge"
  | _ => false
  end.

Definition merges (tr : list event) : bool := existsb is_merge tr.

(** Whether the child [pid] is waited for. *)
Definition awaits (pid : nat) (tr : list event) : bool :=
  existsb (fun e => match e with
                    | Wait p => Nat.eqb p pid
                    | _ => false
                    end) tr.

(** A preview and a capture overlap when a capture tool is run while a
    preview child is alive: started by [Popen] of [rpicam-hello] (or alive
    at the start, [previews]) and not yet waited for. *)
Fixpoint no_overlap (previews : list nat) (tr : list event) : bool :=
  match tr with
  | [] => true
  | Popen pid (prog :: _) :: tr' =>
      if String.eqb prog "rpicam-hello"
      then no_overlap (pid :: previews) tr'
      else no_overlap previews tr'
  | Wait pid :: tr' => no_overlap (remove Nat.eq_dec pid previews) tr'
  | Run _ :: tr' =>
      match previews with
      | [] => no_overlap previews tr'
      | _ :: _ => false
      end
  | _ :: tr' => no_overlap previews tr'
  end.

(** The events of a capture: everything but the start, the termination
    and the await of a preview. *)
Definition capture_event (e : event) : bool :=
  match e with
  | Popen _ (prog :: _) => negb (String.eqb prog "rpicam-hello")
  | Popen _ [] => false
  | Terminate _ | Wait _ => false
  | Run _ | Print _ | MessageBox _ _ _ => true
  end.

(** The video extension the model string selects. *)
Definition extension_of (model : string) : string :=
  if PyStr.contains "Raspberry Pi 5" model then ".mp4"%string
  else ".h264"%string.

(** What stopping the preview emits in a state. *)
Definition stop_events (m : Microscope.t) : list event :=
  match Microscope.preview_process m with
  | Some pid =>
      [Terminate pid; Wait pid; Print "Camera preview stopped."%string]
  | None => []
  end.

(** A piece of code run on the object [s] is quiet when, on every host,
    it leaves [s] as it is, emits only events that satisfy [P], and
    returns only values that satisfy [Q]. *)
Definition quiet {St A : Type} (s : St) (P : event -> bool) (Q : A -> Prop)
  (c : M St A) : Prop :=
  forall os,
    self_after (c os s) = s /\
    forallb P (events (c os s)) = true /\
    forall a, result (c os s) = Ret a -> Q a.

(** The model string holds one of the two markers. *)
Definition has_marker (m : Microscope.t) : bool :=
  PyStr.contains "Raspberry Pi 4" (Microscope.pi_model m)
  || PyStr.contains "Raspberry Pi 5" (Microscope.pi_model m).

(** The selectors of the four presets. *)
Definition presets : list string := ["1"; "2"; "3"; "4"]%string.

(** ** Hosts and objects of the worked cases *)

Local Open Scope string_scope.

(** A host where every tool can be started and the model file is
    missing. *)
Definition host_without_model : OS :=
  {| executable := fun _ => true;
     next_pid := 100;
     device_tree_model :=
       ReadError (FileNotFoundError
         "[Errno 2] No such file or directory: '/proc/device-tree/model'");
     home := "/home/pi" |}.

(** A host with the model file of a Pi 4. *)
Definition host_pi4 : OS :=
  {| executable := fun _ => true;
     next_pid := 100;
     device_tree_model := ReadOk "Raspberry Pi 4 Model B Rev 1.4";
     home := "/home/pi" |}.

Definition scope_of (model : string) (preview : option nat) : Microscope.t :=
  {| Microscope.pi_model := model;
     Microscope.desktop_path := "/home/pi/Desktop";
     Microscope.preview_process := preview |}.

Definition scope_unknown : Microscope.t := scope_of "Unknown" None.
Definition scope_pi4 : Microscope.t :=
  scope_of "Raspberry Pi 4 Model B Rev 1.4" None.
Definition scope_pi5 : Microscope.t :=
  scope_of "Raspberry Pi 5 Model B Rev 1.0" None.

(** A model string that holds both markers. *)
Definition scope_both : Microscope.t :=
  scope_of "Raspberry Pi 5 with Raspberry Pi 4 camera board" None.

(** The form in video mode on a Pi 4, preview [42] running. *)
Definition form_previewing : ControlGUI.t :=
  {| ControlGUI.microscope :=
       scope_of "Raspberry Pi 4 Model B Rev 1.4" (Some 42);
     ControlGUI.save_folder := "/tmp";
     ControlGUI.preview_running := true;
     ControlGUI.preview_button := "Stop Preview [P]";
     ControlGUI.mode_combo := "video";
     ControlGUI.resolution_combo := "1: 1332x990 - Max 120 FPS";
     ControlGUI.filename_edit := "base";
     ControlGUI.framerate_edit := "";
     ControlGUI.interval_spin := 1;
     ControlGUI.duration_hours_spin := 0;
     ControlGUI.duration_minutes_spin := 0;
     ControlGUI.duration_seconds_spin := 10 |}.

(** ** [repr] of a text *)
Module PyRepr.

Local Open Scope string_scope.

Definition double_quote : ascii := ascii_of_nat 34.

Definition has_char (c : ascii) (s : string) : bool :=
  existsb (Ascii.eqb c) (list_ascii_of_string s).

Definition hex_digit (n : nat) : ascii :=
  nth n (list_ascii_of_string "0123456789abcdef") "0"%char.

(** The escape [\xNN] of the code point of [c]. *)
Definition hex_escape (c : ascii) : string :=
  let n := nat_of_ascii c in
  String "\" (String "x" (String (hex_digit (n / 16))
                            (String (hex_digit (n mod 16)) EmptyString))).

(** The code points below 256 that [repr] shows as they are. *)
Definition printable (c : ascii) : bool :=
  let n := nat_of_ascii c in
  (((32 <=? n) && (n <=? 126)) || ((161 <=? n) && negb (n =? 173)))%nat.

Definition repr_char (quote c : ascii) : string :=
  let n := nat_of_ascii c in
  if (Ascii.eqb c quote || Ascii.eqb c "\")%bool then
    String "\" (String c EmptyString)
  else if (n =? 9)%nat then "\t"
  else if (n =? 10)%nat then "\n"
  else if (n =? 13)%nat then "\r"
  else if printable c then String c EmptyString
  else hex_escape c.

Fixpoint repr_chars (quote : ascii) (s : string) : string :=
  match s with
  | EmptyString => EmptyString
  | String c s' => repr_char quote c ++ repr_chars quote s'
  end.

(** [repr(s)] for a text of code points below 256: between single
    quotes, or between double quotes when the text holds a single quote
    and no double quote. *)
Definition repr (s : string) : string :=
  let quote :=
    if (has_char "'" s && negb (has_char double_quote s))%bool
    then double_quote else "'"%char in
  String quote (repr_chars quote s ++ String quote EmptyString).

End PyRepr.

(** ** [class ControlGUI] of [gui_qt.py]: the earlier form

    [gui_qt.py] imports [Microscope] from a module [microscope_control]
    and calls four of its methods.  The form is given over any class
    with these methods, with its own type of objects. *)
Module GuiQt.

Local Open Scope string_scope.
Local Open Scope py_scope.

(** The methods of [Microscope] that the form calls; [record_video] is
    called with the framerate as a text and the duration as an [int]. *)
Class MicroscopeClass (Scope : Type) := {
  start_preview : string -> M Scope unit;
  stop_preview : M Scope unit;
  record_video : string -> string -> Z -> string -> M Scope unit;
  capture_image : string -> string -> M Scope unit
}.

Record t (Scope : Type) := {
  microscope : Scope;
  preview_running : bool;
  preview_button : string;
  mode_combo : string;
  resolution_combo : string;
  filename_edit : string;
  framerate_edit : string;
  duration_edit : string
}.
Arguments microscope {Scope} _.
Arguments preview_running {Scope} _.
Arguments preview_button {Scope} _.
Arguments mode_combo {Scope} _.
Arguments resolution_combo {Scope} _.
Arguments filename_edit {Scope} _.
Arguments framerate_edit {Scope} _.
Arguments duration_edit {Scope} _.

Section Form.

Context {Scope : Type} `{MicroscopeClass Scope}.

Definition set_microscope (g : t Scope) (m : Scope) : t Scope :=
  {| microscope := m;
     preview_running := preview_running g;
     preview_button := preview_button g; mode_combo := mode_combo g;
     resolution_combo := resolution_combo g;
     filename_edit := filename_edit g; framerate_edit := framerate_edit g;
     duration_edit := duration_edit g |}.

Definition set_preview_state (g : t Scope) (b : bool) (label : string)
  : t Scope :=
  {| microscope := microscope g;
     preview_running := b;
     preview_button := label; mode_combo := mode_combo g;
     resolution_combo := resolution_combo g;
     filename_edit := filename_edit g; framerate_edit := framerate_edit g;
     duration_edit := duration_edit g |}.

Definition on_microscope {A} (c : M Scope A) : M (t Scope) A :=
  on_attr microscope set_microscope c.

(** [int(text)] as a step that can raise.  The message shows at most
    the first 200 characters of [repr(text)]. *)
Definition to_int (text : string) : M (t Scope) Z :=
  match PyNum.int text with
  | Some z => ret z
  | None =>
      raise (ValueError ("invalid literal for int() with base 10: "
                         ++ substring 0 200 (PyRepr.repr text)))
  end.

Definition set_preview : M (t Scope) unit :=
  self <- get_self ;;
  res_key <- index (PyStr.split ":" (resolution_combo self)) 0 ;;
  on_microscope (start_preview res_key) ;;
  self <- get_self ;;
  put_self (set_preview_state self true "Stop Preview [P]").

Definition toggle_preview : M (t Scope) unit :=
  self <- get_self ;;
  if preview_running self then
    on_microscope stop_preview ;;
    self <- get_self ;;
    put_self (set_preview_state self false "Start Preview [P]")
  else set_preview.

Definition resolution_changed : M (t Scope) unit :=
  self <- get_self ;;
  if preview_running self then
    on_microscope stop_preview ;;
    set_preview
  else ret tt.

Definition capture : M (t Scope) unit :=
  on_microscope stop_preview ;;
  self <- get_self ;;
  put_self (set_preview_state self false "Start Preview [P]") ;;
  self <- get_self ;;
  let mode := mode_combo self in
  resolution <- index (PyStr.split ":" (resolution_combo self)) 0 ;;
  let filename := filename_edit self in
  let framerate :=
    if String.eqb (framerate_edit self) "" then "default"
    else framerate_edit self in
  duration <-
    (if String.eqb (duration_edit self) "" then ret 10%Z
     else to_int (duration_edit self)) ;;
  (if String.eqb mode "video" then
     on_microscope (record_video resolution framerate duration filename)
   else
     on_microscope (capture_image resolution filename)) ;;
  on_microscope stop_preview.

End Form.

End GuiQt.

(** The class [Microscope] of [microscope/microscope_control.py] as the
    class that [gui_qt.py] imports. *)
#[export] Instance Microscope_class : GuiQt.MicroscopeClass Microscope.t :=
  {| GuiQt.start_preview := Microscope.start_preview;
     GuiQt.stop_preview := Microscope.stop_preview;
     GuiQt.record_video :=
       fun key framerate duration filename =>
         Microscope.record_video key (Microscope.FrStr framerate) duration
           filename;
     GuiQt.capture_image := Microscope.capture_image |}.

(** ** More properties of traces and states *)

(** Whether a termination signal is sent to the child [pid]. *)
Definition terminated (pid : nat) (tr : list event) : bool :=
  existsb (fun e => match e with
                    | Terminate p => Nat.eqb p pid
                    | _ => false
                    end) tr.

(** The events of the capture tools and the console: no dialog, and no
    child but the capture and the merge. *)
Definition tool_event (e : event) : bool :=
  match e with
  | Print _ | Run _ => true
  | Popen _ (prog :: _) => String.eqb prog "mkvmerge"
  | _ => false
  end.

(** No preview is started while another one is held: [held] is the
    preview child that was started and not yet waited for. *)
Fixpoint single_preview (held : option nat) (tr : list event) : bool :=
  match tr with
  | [] => true
  | Popen pid (prog :: _) :: tr' =>
      if String.eqb prog "rpicam-hello" then
        match held with
        | Some _ => false
        | None => single_preview (Some pid) tr'
        end
      else single_preview held tr'
  | Wait pid :: tr' =>
      match held with
      | Some p => if Nat.eqb p pid then single_preview None tr'
                  else single_preview held tr'
      | None => single_preview held tr'
      end
  | _ :: tr' => single_preview held tr'
  end.

(** The form knows of every preview the microscope holds: a handle is
    held only while [preview_running] is set. *)
Definition handle_known (g : ControlGUI.t) : Prop :=
  Microscope.preview_process (ControlGUI.microscope g) <> None ->
  ControlGUI.preview_running g = true.

(** The form after its preview was stopped. *)
Definition stopped (g : ControlGUI.t) : ControlGUI.t :=
  ControlGUI.set_preview_state
    (ControlGUI.set_microscope g
       (Microscope.set_preview_process (ControlGUI.microscope g) None))
    false "Start Preview [P]".

(** The three handlers of the form that touch the preview. *)
Inductive handler := Toggle | ResolutionChanged | Capture.

Definition handle (h : handler) : M ControlGUI.t unit :=
  match h with
  | Toggle => ControlGUI.toggle_preview
  | ResolutionChanged => ControlGUI.resolution_changed
  | Capture => ControlGUI.capture
  end.

(** A host on which no program can be started. *)
Definition host_without_tools : OS :=
  {| executable := fun _ => false;
     next_pid := 100;
     device_tree_model := ReadOk "Raspberry Pi 4 Model B Rev 1.4";
     home := "/home/pi" |}.

(** The form in image mode on a Pi 4, no preview. *)
Definition form_idle : ControlGUI.t :=
  {| ControlGUI.microscope := scope_of "Raspberry Pi 4 Model B Rev 1.4" None;
     ControlGUI.save_folder := "/home/pi/Desktop";
     ControlGUI.preview_running := false;
     ControlGUI.preview_button := "Start Preview [P]";
     ControlGUI.mode_combo := "image";
     ControlGUI.resolution_combo := "2: 2028x1080 - Max 50 FPS";
     ControlGUI.filename_edit := "shot";
     ControlGUI.framerate_edit := "";
     ControlGUI.interval_spin := 1;
     ControlGUI.duration_hours_spin := 0;
     ControlGUI.duration_minutes_spin := 0;
     ControlGUI.duration_seconds_spin := 10 |}.

(** The earlier form on a Pi 4 with preview [42] running and the
    selector ["1"]. *)
Definition qt_form_with (mode framerate duration : string)
  : GuiQt.t Microscope.t :=
  {| GuiQt.microscope := scope_of "Raspberry Pi 4 Model B Rev 1.4" (Some 42);
     GuiQt.preview_running := true;
     GuiQt.preview_button := "Stop Preview [P]";
     GuiQt.mode_combo := mode;
     GuiQt.resolution_combo := "1: 1332x990 - Max 120 FPS";
     GuiQt.filename_edit := "clip";
     GuiQt.framerate_edit := framerate;
     GuiQt.duration_edit := duration |}.

(** The selector the handlers take from the resolution combo box: the
    text before its first colon. *)
Definition selector (g : ControlGUI.t) : string :=
  hd EmptyString (PyStr.split ":" (ControlGUI.resolution_combo g)).

(** The preview child held after a trace, [held] being held before it. *)
Fixpoint held_after (held : option nat) (tr : list event) : option nat :=
  match tr with
  | [] => held
  | Popen pid (prog :: _) :: tr' =>
      if String.eqb prog "rpicam-hello" then held_after (Some pid) tr'
      else held_after held tr'
  | Wait pid :: tr' =>
      match held with
      | Some p => if Nat.eqb p pid then held_after None tr'
                  else held_after held tr'
      | None => held_after held tr'
      end
  | _ :: tr' => held_after held tr'
  end.

(** What the user does to the form: a change of the content of its
    widgets, or one of the three handlers. *)
Inductive step :=
| Edit (change : ControlGUI.t -> ControlGUI.t)
| Press (h : handler).

(** An edit changes the widgets only, not the microscope nor the preview
    flag. *)
Definition widget_edit (s : step) : Prop :=
  match s with
  | Edit change =>
      forall g,
        ControlGUI.microscope (change g) = ControlGUI.microscope g /\
        ControlGUI.preview_running (change g) = ControlGUI.preview_running g
  | Press _ => True
  end.

(** A session: the steps one after the other, as the event loop runs
    the handlers.  An exception that leaves a handler ends the program,
    or is reported and the loop goes on ([resume]), as the binding of
    the tool kit decides. *)
Fixpoint session (resume : bool) (steps : list step) (os : OS)
  (g : ControlGUI.t) : OS * ControlGUI.t * list event :=
  match steps with
  | [] => (os, g, [])
  | Edit change :: rest => session resume rest os (change g)
  | Press h :: rest =>
      let o := handle h os g in
      let go_on :=
        match result o with
        | Ret _ => true
        | Raise _ => resume
        end in
      if go_on then
        match session resume rest (os_after o) (self_after o) with
        | (os', g', tr) => (os', g', (events o ++ tr)%list)
        end
      else (os_after o, self_after o, events o)
  end.

(** [ControlGUI.__init__]: the microscope is built, the model is read a
    second time for the label, and the widgets get their first content. *)
Definition ControlGUI_init : M unit ControlGUI.t :=
  m <- Microscope.init ;;
  os <- get_os ;;
  let save_folder := PyStr.path_join (home os) "Desktop" in
  _ <- Microscope.get_pi_model ;;
  ret {| ControlGUI.microscope := m;
         ControlGUI.save_folder := save_folder;
         ControlGUI.preview_running := false;
         ControlGUI.preview_button := "Start Preview [P]";
         ControlGUI.mode_combo := "image";
         ControlGUI.resolution_combo := "1: 1332x990 - Max 120 FPS";
         ControlGUI.filename_edit := "";
         ControlGUI.framerate_edit := "";
         ControlGUI.interval_spin := 1;
         ControlGUI.duration_hours_spin := 0;
         ControlGUI.duration_minutes_spin := 0;
         ControlGUI.duration_seconds_spin := 10 |}.

(** [browse_folder], [folder] being what the directory dialog returns:
    the empty text when it is cancelled. *)
Definition browse_folder (folder : string) (g : ControlGUI.t)
  : ControlGUI.t :=
  if String.eqb folder "" then g
  else
    {| ControlGUI.microscope := ControlGUI.microscope g;
       ControlGUI.save_folder := folder;
       ControlGUI.preview_running := ControlGUI.preview_running g;
       ControlGUI.preview_button := ControlGUI.preview_button g;
       ControlGUI.mode_combo := ControlGUI.mode_combo g;
       ControlGUI.resolution_combo := ControlGUI.resolution_combo g;
       ControlGUI.filename_edit := ControlGUI.filename_edit g;
       ControlGUI.framerate_edit := ControlGUI.framerate_edit g;
       ControlGUI.interval_spin := ControlGUI.interval_spin g;
       ControlGUI.duration_hours_spin := ControlGUI.duration_hours_spin g;
       ControlGUI.duration_minutes_spin := ControlGUI.duration_minutes_spin g;
       ControlGUI.duration_seconds_spin := ControlGUI.duration_seconds_spin g |}.

(** The seconds the three duration spin boxes stand for. *)
Definition duration_of (g : ControlGUI.t) : Z :=
  (ControlGUI.duration_hours_spin g * 3600
   + ControlGUI.duration_minutes_spin g * 60
   + ControlGUI.duration_seconds_spin g)%Z.

(** The method of the microscope that [capture] calls for the mode of
    the form, with its arguments. *)
Definition capture_call (g : ControlGUI.t) : M Microscope.t unit :=
  let full_filename :=
    PyStr.path_join (ControlGUI.save_folder g) (ControlGUI.filename_edit g) in
  let framerate :=
    if String.eqb (ControlGUI.framerate_edit g) "" then Microscope.FrNone
    else Microscope.FrStr (ControlGUI.framerate_edit g) in
  if String.eqb (ControlGUI.mode_combo g) "video" then
    Microscope.record_video (selector g) framerate (duration_of g)
      full_filename
  else if String.eqb (ControlGUI.mode_combo g) "timelapse" then
    Microscope.capture_timelapse (selector g) (ControlGUI.interval_spin g)
      (duration_of g) full_filename
  else Microscope.capture_image (selector g) full_filename.

(** The dialog the two [except] clauses of [capture] show for a result. *)
Definition dialog_of {A} (r : res A) : list event :=
  match r with
  | Ret _ => []
  | Raise e =>
      if isinstance e "ValueError" then
        [MessageBox "warning" "Input Error" (exn_msg e)]
      else
        [MessageBox "critical" "Error"
           ("An unexpected error occurred: " ++ ControlGUI.newline ++ " "
            ++ exn_msg e)]
  end.

Definition is_dialog (e : event) : bool :=
  match e with
  | MessageBox _ _ _ => true
  | _ => false
  end.

(** The characters that [repr] of a text shows as they are, the text
    between single quotes: the printable ones but the single quote and
    the backslash. *)
Definition shown_as_is (c : ascii) : bool :=
  let n := nat_of_ascii c in
  (32 <=? n)%nat && (n <=? 126)%nat
  && negb (Nat.eqb n 39) && negb (Nat.eqb n 92).

(** Every exception that [c] raises satisfies [E]. *)
Definition raises_only {St A : Type} (E : exn -> Prop) (c : M St A) : Prop :=
  forall os s e, result (c os s) = Raise e -> E e.

(** A form on a Pi 4 with preview [42] running and the selector ["2"]. *)
Definition form_with (mode filename framerate : string) : ControlGUI.t :=
  {| ControlGUI.microscope :=
       scope_of "Raspberry Pi 4 Model B Rev 1.4" (Some 42);
     ControlGUI.save_folder := "/home/pi/Desktop";
     ControlGUI.preview_running := true;
     ControlGUI.preview_button := "Stop Preview [P]";
     ControlGUI.mode_combo := mode;
     ControlGUI.resolution_combo := "2: 2028x1080 - Max 50 FPS";
     ControlGUI.filename_edit := filename;
     ControlGUI.framerate_edit := framerate;
     ControlGUI.interval_spin := 5;
     ControlGUI.duration_hours_spin := 0;
     ControlGUI.duration_minutes_spin := 1;
     ControlGUI.duration_seconds_spin := 0 |}.

(** * Facts about the embedding *)

Local Open Scope string_scope.

Section StringFacts.

Lemma split_not_nil sep s : PyStr.split sep s <> [].
Proof.
  destruct s as [|c s]; cbn; [discriminate|].
  destruct (Ascii.eqb c sep); [discriminate|].
  destruct (PyStr.split sep s); discriminate.
Qed.

Lemma split_cons sep s : exists field rest, PyStr.split sep s = field :: rest.
Proof.
  destruct (PyStr.split sep s) as [|f r] eqn:E.
  - now apply split_not_nil in E.
  - now exists f, r.
Qed.

Lemma all_chars_weaken (P Q : ascii -> bool) s :
  (forall c, P c = true -> Q c = true) ->
  PyStr.all_chars P s = true -> PyStr.all_chars Q s = true.
Proof.
  intros HPQ; induction s as [|c s IH]; cbn; [reflexivity|].
  rewrite !andb_true_iff; intros [Hc Hs]; auto.
Qed.

Lemma all_chars_lstrip P s :
  (forall c, PyNum.isspace c = true -> P c = true) ->
  PyStr.all_chars P (PyNum.lstrip s) = true -> PyStr.all_chars P s = true.
Proof.
  intros HP; induction s as [|c s IH]; cbn; [reflexivity|].
  destruct (PyNum.isspace c) eqn:E.
  - intros H. rewrite (HP _ E), (IH H). reflexivity.
  - cbn. tauto.
Qed.

Lemma all_chars_rstrip P s :
  (forall c, PyNum.isspace c = true -> P c = true) ->
  PyStr.all_chars P (PyNum.rstrip s) = true -> PyStr.all_chars P s = true.
Proof.
  intros HP; induction s as [|c s IH]; cbn; [reflexivity|].
  destruct (PyNum.rstrip s) as [|d r] eqn:E.
  - destruct (PyNum.isspace c) eqn:Ec; cbn.
    + intros _. rewrite (HP _ Ec), IH; reflexivity.
    + rewrite !andb_true_iff. intros [Hc _]. split; [exact Hc|]. now apply IH.
  - cbn. rewrite !andb_true_iff. intros [Hc Hr]. split; [exact Hc|].
    apply IH. cbn. now rewrite andb_true_iff.
Qed.

Lemma split_without_sep sep s :
  PyStr.all_chars (fun c => negb (Ascii.eqb c sep)) s = true ->
  PyStr.split sep s = [s].
Proof.
  induction s as [|c s IH]; cbn; [reflexivity|].
  rewrite andb_true_iff, negb_true_iff. intros [Hc Hs].
  now rewrite Hc, (IH Hs).
Qed.

Lemma split_app sep a b :
  PyStr.all_chars (fun c => negb (Ascii.eqb c sep)) a = true ->
  PyStr.split sep (a ++ String sep b) = a :: PyStr.split sep b.
Proof.
  induction a as [|c a IH]; cbn.
  - now rewrite Ascii.eqb_refl.
  - rewrite andb_true_iff, negb_true_iff. intros [Hc Ha].
    now rewrite Hc, (IH Ha).
Qed.

(** The suffix [.h264] added to a name that does not hold it begins the
    only occurrence of [.h264]: no occurrence straddles the junction. *)
Lemma prefix_h264_app c s :
  prefix ".h264" (String c s) = false ->
  prefix ".h264" (String c (s ++ ".h264")) = false.
Proof.
  destruct s as [|c1 [|c2 [|c3 [|c4 r]]]]; cbn [prefix append];
    repeat match goal with
      | |- context [ascii_dec ?a ?b] =>
          destruct (ascii_dec a b); subst; try discriminate;
          try reflexivity; try tauto
      end.
  destruct r; cbn; discriminate.
Qed.

Lemma replace_h264_suffix fn :
  PyStr.contains ".h264" fn = false ->
  PyStr.replace ".h264" ".mkv" (fn ++ ".h264") = fn ++ ".mkv".
Proof.
  unfold PyStr.replace.
  induction fn as [|c fn IH]; [reflexivity|].
  cbn [PyStr.contains]. rewrite orb_false_iff. intros [Hp Hc].
  change (String c fn ++ ".h264") with (String c (fn ++ ".h264")).
  cbn [PyStr.replace_from].
  rewrite (prefix_h264_app _ _ Hp), (IH Hc). reflexivity.
Qed.

End StringFacts.

Section NumberFacts.

Local Open Scope Z_scope.

Lemma digit_not_colon c d : PyNum.digit_of c = Some d -> PyStr.not_colon c = true.
Proof.
  unfold PyStr.not_colon. destruct (Ascii.eqb c ":") eqn:E; [|reflexivity].
  apply Ascii.eqb_eq in E; subst c. vm_compute. discriminate.
Qed.

Lemma space_not_colon c : PyNum.isspace c = true -> PyStr.not_colon c = true.
Proof.
  unfold PyStr.not_colon. destruct (Ascii.eqb c ":") eqn:E; [|reflexivity].
  apply Ascii.eqb_eq in E; subst c. vm_compute. discriminate.
Qed.

Lemma digitpart_no_colon s : forall acc n b r,
  PyNum.digitpart acc n b s = Some r ->
  PyStr.all_chars PyStr.not_colon s = true.
Proof.
  induction s as [|c s IH]; intros acc n b r; cbn; [reflexivity|].
  destruct (PyNum.digit_of c) as [d|] eqn:D.
  - intros H. rewrite (digit_not_colon _ _ D). exact (IH _ _ _ _ H).
  - destruct (Ascii.eqb c "_") eqn:U; cbn; [|discriminate].
    destruct b; [|discriminate]. intros H.
    apply Ascii.eqb_eq in U; subst c. exact (IH _ _ _ _ H).
Qed.

Lemma take_sign_no_colon s :
  PyStr.all_chars PyStr.not_colon (snd (PyNum.take_sign s)) = true ->
  PyStr.all_chars PyStr.not_colon s = true.
Proof.
  destruct s as [|c s]; cbn; [reflexivity|].
  destruct (Ascii.eqb c "-") eqn:E1.
  - apply Ascii.eqb_eq in E1; subst c. cbn. tauto.
  - destruct (Ascii.eqb c "+") eqn:E2; cbn; [|tauto].
    apply Ascii.eqb_eq in E2; subst c. cbn. tauto.
Qed.

(** A string that [int] accepts holds no colon. *)
Lemma int_no_colon s v :
  PyNum.int s = Some v -> PyStr.all_chars PyStr.not_colon s = true.
Proof.
  unfold PyNum.int, PyNum.strip. intros H.
  apply all_chars_lstrip; [exact space_not_colon|].
  apply all_chars_rstrip; [exact space_not_colon|].
  apply take_sign_no_colon.
  destruct (PyNum.take_sign (PyNum.rstrip (PyNum.lstrip s))) as [neg body].
  cbn [snd].
  destruct (PyNum.digitpart 0 0 false body) as [[v' k]|] eqn:D;
    [|discriminate].
  exact (digitpart_no_colon _ _ _ _ _ D).
Qed.

(** The white space of the numbers is white space of [str.strip]. *)
Lemma isspace_number c : PyNum.isspace c = true -> PyStr.isspace c = true.
Proof.
  destruct c as [[] [] [] [] [] [] [] []]; vm_compute; intros H;
    (reflexivity || discriminate H).
Qed.

Lemma plain_not_space c : PyStr.plain c = true -> PyNum.isspace c = false.
Proof.
  unfold PyStr.plain. pose proof (isspace_number c) as H.
  destruct (PyNum.isspace c); [|reflexivity].
  now rewrite (H eq_refl).
Qed.

Lemma lstrip_plain s :
  PyStr.all_chars PyStr.plain s = true -> PyNum.lstrip s = s.
Proof.
  destruct s as [|c s]; cbn; [reflexivity|].
  rewrite andb_true_iff. intros [Hc _].
  now rewrite (plain_not_space _ Hc).
Qed.

Lemma rstrip_plain s :
  PyStr.all_chars PyStr.plain s = true -> PyNum.rstrip s = s.
Proof.
  induction s as [|c s IH]; cbn; [reflexivity|].
  rewrite andb_true_iff. intros [Hc Hs]. rewrite (IH Hs).
  destruct s; [|reflexivity].
  now rewrite (plain_not_space _ Hc).
Qed.

Lemma take_sign_plain s :
  PyStr.all_chars PyStr.plain s = true -> PyNum.take_sign s = (false, s).
Proof.
  destruct s as [|c s]; cbn; [reflexivity|].
  unfold PyStr.plain.
  destruct (Ascii.eqb c "-"); [now rewrite andb_false_r|].
  destruct (Ascii.eqb c "+"); [now rewrite andb_false_r|reflexivity].
Qed.

Lemma digits_plain d :
  PyStr.all_chars PyStr.plain (DecimalString.NilEmpty.string_of_uint d)
  = true.
Proof. induction d; cbn; [reflexivity|..]; exact IHd. Qed.

(** Reading the digits of [d] after the digits of a positive [acc]. *)
Lemma digitpart_acc d : forall acc n,
  exists k,
    PyNum.digitpart (Zpos acc) n true
      (DecimalString.NilEmpty.string_of_uint d)
    = Some (Zpos (Pos.of_uint_acc d acc), k).
Proof.
  induction d; intros acc n; cbn [DecimalString.NilEmpty.string_of_uint];
    [now exists n|..];
    cbn [PyNum.digitpart];
    match goal with
    | |- context [PyNum.digit_of ?c] =>
        let v := eval vm_compute in (PyNum.digit_of c) in
        change (PyNum.digit_of c) with v
    end;
    cbv iota beta; cbn [Pos.of_uint_acc];
    match goal with
    | |- context [PyNum.digitpart ?v _ _ _] =>
        match goal with
        | |- context [Pos.of_uint_acc _ ?p] =>
            replace v with (Zpos p) by lia
        end
    end;
    apply IHd.
Qed.

(** Reading the digits of [d] from zero: leading zeros do not count. *)
Lemma digitpart_zero d : forall n b,
  b = true \/ d <> Decimal.Nil ->
  exists k,
    PyNum.digitpart 0 n b (DecimalString.NilEmpty.string_of_uint d)
    = Some (Z.of_N (Pos.of_uint d), k).
Proof.
  induction d; intros n b Hb;
    cbn [DecimalString.NilEmpty.string_of_uint];
    [destruct Hb as [->|Hb]; [now exists n|now contradiction Hb]|..];
    cbn [PyNum.digitpart];
    match goal with
    | |- context [PyNum.digit_of ?c] =>
        let v := eval vm_compute in (PyNum.digit_of c) in
        change (PyNum.digit_of c) with v
    end;
    cbv iota beta; cbn [Pos.of_uint Z.of_N];
    [apply IHd; now left|..];
    match goal with
    | |- context [PyNum.digitpart ?v _ _ _] =>
        match goal with
        | |- context [Pos.of_uint_acc _ ?p] =>
            replace v with (Zpos p) by lia
        end
    end;
    apply digitpart_acc.
Qed.

(** The digits [d], with or without a minus sign, read as the number they
    denote. *)
Lemma int_of_digits (neg : bool) d :
  d <> Decimal.Nil ->
  PyNum.int ((if neg then "-" else "")
             ++ DecimalString.NilEmpty.string_of_uint d)
  = Some (if neg then - Z.of_N (Pos.of_uint d) else Z.of_N (Pos.of_uint d)).
Proof.
  intros Hnil. unfold PyNum.int, PyNum.strip.
  pose proof (digits_plain d) as Hplain.
  destruct (digitpart_zero d 0 false (or_intror Hnil)) as [k Hk].
  destruct neg; cbn [append].
  - cbn [PyNum.lstrip]. change (PyNum.isspace "-") with false. cbv iota.
    assert (Hr : PyNum.rstrip
                   (String "-" (DecimalString.NilEmpty.string_of_uint d))
                 = String "-" (DecimalString.NilEmpty.string_of_uint d)).
    { cbn [PyNum.rstrip]. rewrite (rstrip_plain _ Hplain).
      destruct (DecimalString.NilEmpty.string_of_uint d) eqn:E;
        [|reflexivity].
      destruct d; try discriminate E. now contradiction Hnil. }
    rewrite Hr. cbn [PyNum.take_sign]. change (Ascii.eqb "-" "-") with true.
    cbv iota. rewrite Hk. reflexivity.
  - rewrite (lstrip_plain _ Hplain), (rstrip_plain _ Hplain),
      (take_sign_plain _ Hplain), Hk. reflexivity.
Qed.

(** The digits that [str] prints for a number that is not negative. *)
Lemma str_int_digits z :
  0 <= z ->
  exists d,
    d <> Decimal.Nil /\
    PyNum.str_int z = DecimalString.NilEmpty.string_of_uint d /\
    Z.of_N (Pos.of_uint d) = z.
Proof.
  intros Hz. unfold PyNum.str_int. destruct z as [|p|p]; [| |lia].
  - exists (Decimal.D0 Decimal.Nil). repeat split. discriminate.
  - exists (Pos.to_uint p).
    pose proof (DecimalPos.Unsigned.to_uint_nonnil p) as Hnil.
    split; [exact Hnil|]. split.
    + cbn [Z.to_int DecimalString.NilZero.string_of_int].
      unfold DecimalString.NilZero.string_of_uint.
      destruct (Pos.to_uint p); [now contradiction Hnil|..]; reflexivity.
    + now rewrite DecimalPos.Unsigned.of_to.
Qed.

(** Zeros in front of the digits. *)
Lemma zeros_digits k d :
  exists d',
    (d <> Decimal.Nil -> d' <> Decimal.Nil) /\
    PyNum.zeros k ++ DecimalString.NilEmpty.string_of_uint d
    = DecimalString.NilEmpty.string_of_uint d' /\
    Pos.of_uint d' = Pos.of_uint d.
Proof.
  induction k as [|k (d' & Hn & Hs & Hv)].
  - exists d. auto.
  - exists (Decimal.D0 d'). split; [discriminate|].
    split; [|exact Hv]. cbn [PyNum.zeros append]. now rewrite Hs.
Qed.

(** [int(str(z)) == z]: the printed decimal reads back as the number. *)
Lemma int_str_int z : PyNum.int (PyNum.str_int z) = Some z.
Proof.
  destruct (Z.abs_spec z) as [[Hz Ha]|[Hz Ha]].
  - destruct (str_int_digits z Hz) as (d & Hn & Hs & Hv).
    rewrite Hs. pose proof (int_of_digits false d Hn) as Hi.
    cbn [append] in Hi. now rewrite Hi, Hv.
  - destruct z as [|p|p]; try lia.
    unfold PyNum.str_int.
    cbn [Z.to_int DecimalString.NilZero.string_of_int].
    destruct (str_int_digits (Zpos p)) as (d & Hn & Hs & Hv); [lia|].
    unfold PyNum.str_int in Hs.
    cbn [Z.to_int DecimalString.NilZero.string_of_int] in Hs.
    pose proof (int_of_digits true d Hn) as Hi. cbn [append] in Hi.
    cbv iota in Hi. rewrite Hs, Hi, Hv. reflexivity.
Qed.

(** A spin box value printed on two digits reads back as the value. *)
Lemma int_format_02 z : PyNum.int (PyNum.format_02 z) = Some z.
Proof.
  unfold PyNum.format_02.
  destruct (str_int_digits (Z.abs z) (Z.abs_nonneg z)) as (d & Hn & Hs & Hv).
  rewrite Hs.
  destruct (z <? 0) eqn:Hneg.
  - destruct (zeros_digits
                (1 - String.length (DecimalString.NilEmpty.string_of_uint d))
                d) as (d' & Hn' & Hs' & Hv').
    rewrite Hs'. pose proof (int_of_digits true d' (Hn' Hn)) as Hi.
    cbv iota in Hi. rewrite Hi, Hv', Hv.
    f_equal. apply Z.ltb_lt in Hneg. lia.
  - destruct (zeros_digits
                (2 - String.length (DecimalString.NilEmpty.string_of_uint d))
                d) as (d' & Hn' & Hs' & Hv').
    rewrite Hs'. pose proof (int_of_digits false d' (Hn' Hn)) as Hi.
    cbn [append] in Hi. rewrite Hi, Hv', Hv.
    f_equal. apply Z.ltb_ge in Hneg. lia.
Qed.



End NumberFacts.

(** ** Running the methods *)

Arguments PyStr.contains : simpl never.
Arguments PyStr.replace : simpl never.
Arguments PyStr.path_join : simpl never.
Arguments PyStr.split : simpl never.
Arguments PyNum.str_int : simpl never.
Arguments PyNum.str_float : simpl never.
Arguments String.append : simpl never.
Arguments Microscope.dict_get : simpl never.
Arguments Microscope.clamp_framerate : simpl never.
Arguments Microscope.to_str : simpl never.
Arguments ControlGUI.parse_duration : simpl never.

Ltac unfold_monad :=
  unfold bind, try_except, on_attr, get_self, put_self, get_os, ret, raise,
    print, emit, of_res, Microscope.getitem, subprocess_run,
    subprocess_Popen, index in *.

(** Evaluate the code as far as the hypotheses decide its tests. *)
Ltac run :=
  unfold_monad;
  repeat first
    [ progress cbn
    | match goal with
      | H : ?l = _ |- context [?l] => rewrite H
      end ].

Section Presets.

Lemma preset_cases key :
  In key presets -> key = "1" \/ key = "2" \/ key = "3" \/ key = "4".
Proof. cbn. intuition. Qed.

Lemma preset_lookup key :
  In key presets ->
  exists d w h,
    Microscope.dict_get Microscope.valid_resolutions key = Some d /\
    PyStr.split "x" (Microscope.resolution d) = [w; h].
Proof.
  intros H. apply preset_cases in H.
  destruct H as [-> | [-> | [-> | ->]]];
    eexists; eexists; eexists; split; vm_compute; reflexivity.
Qed.

Lemma not_preset_lookup key :
  ~ In key presets ->
  Microscope.dict_get Microscope.valid_resolutions key = None.
Proof.
  intros H. unfold Microscope.dict_get, Microscope.valid_resolutions.
  repeat match goal with
  | |- context [String.eqb ?a key] =>
      destruct (String.eqb_spec a key) as [<-|?];
      [exfalso; apply H; cbn; tauto|]
  end.
  reflexivity.
Qed.

Lemma lookup_preset key d :
  Microscope.dict_get Microscope.valid_resolutions key = Some d ->
  In key presets.
Proof.
  intros H. destruct (in_dec string_dec key presets) as [I|I]; [exact I|].
  rewrite (not_preset_lookup _ I) in H. discriminate.
Qed.

End Presets.

Section ModelDetection.

Context {St : Type} (os : OS) (s : St).

(** A missing model file gives the sentinel. *)
Lemma get_pi_model_missing_file msg :
  device_tree_model os = ReadError (FileNotFoundError msg) ->
  Microscope.get_pi_model os s
  = MkOut (Ret "Unknown") os s
      [Print "Failed to detect Raspberry Pi model."].
Proof.
  intros H. unfold Microscope.get_pi_model, Microscope.read_model_file.
  run. reflexivity.
Qed.

(** Any other failure of the read is raised to the caller. *)
Lemma get_pi_model_other_error e :
  device_tree_model os = ReadError e ->
  isinstance e "FileNotFoundError" = false ->
  Microscope.get_pi_model os s = MkOut (Raise e) os s [].
Proof.
  intros H Hi. unfold Microscope.get_pi_model, Microscope.read_model_file.
  run. reflexivity.
Qed.

Lemma get_pi_model_read model :
  device_tree_model os = ReadOk model ->
  Microscope.get_pi_model os s = MkOut (Ret (PyStr.strip model)) os s [].
Proof.
  intros H. unfold Microscope.get_pi_model, Microscope.read_model_file.
  run. reflexivity.
Qed.

End ModelDetection.

Section MicroscopeRuns.

Variables (os : OS) (m : Microscope.t).

(** The still image of selector ["2"] into [/tmp/shot]. *)
Example capture_image_shot :
  Microscope.capture_image "2" "/tmp/shot" host_pi4 scope_pi4
  = MkOut (Ret tt) host_pi4 scope_pi4
      [Run ["rpicam-still"; "-o"; "/tmp/shot.jpg";
            "--width"; "2028"; "--height"; "1080"];
       Print "Image captured and saved to /tmp/shot.jpg"].
Proof. vm_compute. reflexivity. Qed.

Lemma get_video_extension_run :
  Microscope.get_video_extension os m
  = MkOut (Ret (extension_of (Microscope.pi_model m))) os m [].
Proof.
  unfold Microscope.get_video_extension, extension_of. run.
  destruct (PyStr.contains "Raspberry Pi 5" (Microscope.pi_model m));
    reflexivity.
Qed.

Lemma stop_preview_idle :
  Microscope.preview_process m = None ->
  Microscope.stop_preview os m = MkOut (Ret tt) os m [].
Proof. intros H. unfold Microscope.stop_preview. run. reflexivity. Qed.

Lemma stop_preview_running pid :
  Microscope.preview_process m = Some pid ->
  Microscope.stop_preview os m
  = MkOut (Ret tt) os (Microscope.set_preview_process m None)
      [Terminate pid; Wait pid; Print "Camera preview stopped."].
Proof. intros H. unfold Microscope.stop_preview. run. reflexivity. Qed.

Lemma start_preview_run key d w h :
  Microscope.dict_get Microscope.valid_resolutions key = Some d ->
  PyStr.split "x" (Microscope.resolution d) = [w; h] ->
  executable os "rpicam-hello" = true ->
  Microscope.start_preview key os m
  = MkOut (Ret tt) (with_next_pid os (S (next_pid os)))
      (Microscope.set_preview_process m (Some (next_pid os)))
      [Popen (next_pid os)
         ["rpicam-hello"; "--timeout"; "0"; "--width"; w; "--height"; h];
       Print "Starting indefinite camera preview..."].
Proof.
  intros Hd Hs Hx. unfold Microscope.start_preview. run. reflexivity.
Qed.

(** The command line of the timelapse. *)
Lemma capture_timelapse_run key d w h interval duration filename :
  Microscope.dict_get Microscope.valid_resolutions key = Some d ->
  PyStr.split "x" (Microscope.resolution d) = [w; h] ->
  executable os "rpicam-still" = true ->
  Microscope.capture_timelapse key interval duration filename os m
  = MkOut (Raise (NameError "name 'save_folder' is not defined")) os m
      [Run ["rpicam-still";
            "-t"; PyNum.str_int (duration * 1000);
            "--timelapse"; PyNum.str_int (interval * 1000);
            "-o"; filename ++ "_%04d.jpg";
            "--width"; w; "--height"; h]].
Proof.
  intros Hd Hs Hx. unfold Microscope.capture_timelapse. run. reflexivity.
Qed.

(** A video capture on a model with the marker of the Pi 4. *)
Lemma record_video_pi4 key d w h fr fr' dur fn :
  PyStr.contains "Raspberry Pi 4" (Microscope.pi_model m) = true ->
  Microscope.dict_get Microscope.valid_resolutions key = Some d ->
  PyStr.split "x" (Microscope.resolution d) = [w; h] ->
  Microscope.clamp_framerate fr (Microscope.max_fps d) = Ret fr' ->
  executable os "rpicam-vid" = true ->
  executable os "mkvmerge" = true ->
  let ts := PyStr.path_join (Microscope.desktop_path m) "timestamps.txt" in
  let video := fn ++ extension_of (Microscope.pi_model m) in
  let mkv := PyStr.replace ".h264" ".mkv" video in
  Microscope.record_video key fr dur fn os m
  = MkOut (Ret tt) (with_next_pid os (S (next_pid os))) m
      [Print ("Using " ++ Microscope.to_str fr' ++ " FPS for the resolution "
              ++ key ++ ". Video stored in " ++ video);
       Run ["rpicam-vid"; "--framerate"; Microscope.to_str fr';
            "--width"; w; "--height"; h; "--save-pts"; ts;
            "-o"; video; "-t"; PyNum.str_int dur ++ "s"];
       Popen (next_pid os)
         ["mkvmerge"; "-o"; mkv; "--timecodes"; "0:" ++ ts; video];
       Print ("Converted to MKV and saved to " ++ mkv)].
Proof.
  intros P4 Hd Hs Hc Hv Hm ts video mkv. subst ts video mkv.
  unfold Microscope.record_video, Microscope.get_video_command,
    Microscope.get_video_extension, Microscope.convert_to_mkv, extension_of.
  destruct (PyStr.contains "Raspberry Pi 5" (Microscope.pi_model m)) eqn:P5;
    run; reflexivity.
Qed.



End MicroscopeRuns.

Section Quiet.

Context {St : Type} (s : St) (P : event -> bool).

Lemma quiet_ret {A} (Q : A -> Prop) a : Q a -> quiet s P Q (ret a).
Proof.
  intros H os. cbn. repeat split. intros b [= <-]. exact H.
Qed.

Lemma quiet_raise {A} (Q : A -> Prop) e : quiet s P Q (raise e).
Proof. intros os. cbn. repeat split. discriminate. Qed.

Lemma quiet_of_res {A} (Q : A -> Prop) r :
  (forall a, r = Ret a -> Q a) -> quiet s P Q (of_res r).
Proof. intros H os. cbn. repeat split. exact H. Qed.

Lemma quiet_get_self (Q : St -> Prop) : Q s -> quiet s P Q get_self.
Proof. intros H os. cbn. repeat split. intros b [= <-]. exact H. Qed.

Lemma quiet_emit (Q : unit -> Prop) e :
  P e = true -> Q tt -> quiet s P Q (emit e).
Proof.
  intros He H os. cbn. rewrite He. repeat split. now intros [] _.
Qed.

Lemma quiet_bind {A B} (Q : A -> Prop) (R : B -> Prop) c k :
  quiet s P Q c -> (forall a, Q a -> quiet s P R (k a)) ->
  quiet s P R (bind c k).
Proof.
  intros Hc Hk os. unfold bind.
  destruct (Hc os) as (Hs & He & Hr).
  destruct (c os s) as [[a|e] os1 s1 ev1]; cbn in *; subst s1.
  - destruct (Hk a (Hr a eq_refl) os1) as (Hs' & He' & Hr').
    destruct (k a os1 s) as [r os2 s2 ev2]; cbn in *.
    rewrite forallb_app, He, He'. auto.
  - repeat split; [exact He|discriminate].
Qed.

Lemma quiet_index (Q : string -> Prop) l i :
  (forall x, nth_error l i = Some x -> Q x) -> quiet s P Q (index l i).
Proof.
  intros H. unfold index. destruct (nth_error l i).
  - apply quiet_ret. now apply H.
  - apply quiet_raise.
Qed.

Lemma quiet_getitem (Q : Microscope.res_details -> Prop) d :
  (forall r, d = Some r -> Q r) -> quiet s P Q (Microscope.getitem d).
Proof.
  intros H. unfold Microscope.getitem. destruct d.
  - apply quiet_ret. now apply H.
  - apply quiet_raise.
Qed.

Lemma quiet_subprocess_run (Q : unit -> Prop) command :
  (forall cmd, command = Some cmd -> P (Run cmd) = true /\ Q tt) ->
  quiet s P Q (subprocess_run command).
Proof.
  intros H. unfold subprocess_run.
  destruct command as [[|prog args]|];
    [apply quiet_raise| |apply quiet_raise].
  destruct (H _ eq_refl) as [HP HQ].
  intros os. unfold bind, get_os, emit, raise.
  destruct (executable os prog); cbn; [rewrite HP|];
    repeat split; try discriminate. now intros [] _.
Qed.

Lemma quiet_subprocess_Popen (Q : nat -> Prop) command :
  (forall pid, P (Popen pid command) = true /\ Q pid) ->
  quiet s P Q (subprocess_Popen command).
Proof.
  intros H. unfold subprocess_Popen.
  destruct command as [|prog args]; [apply quiet_raise|].
  intros os. destruct (executable os prog); cbn.
  - destruct (H (next_pid os)) as [HP HQ]. rewrite HP.
    repeat split. now intros a [= <-].
  - repeat split. discriminate.
Qed.

End Quiet.

Section CaptureFrames.

Variables (m : Microscope.t) (P : event -> bool).
Hypothesis P_print : forall line, P (Print line) = true.

Let any {A} : A -> Prop := fun _ => True.

Lemma quiet_print (Q : unit -> Prop) line :
  Q tt -> quiet m P Q (print line).
Proof. apply quiet_emit, P_print. Qed.

(** [record_video] runs a command only on a model with a marker, starts
    the merge only with the marker of the Pi 4, and returns only on a
    model with a marker. *)
Lemma record_video_quiet (Q : unit -> Prop) key fr dur fn :
  (has_marker m = true -> (forall cmd, P (Run cmd) = true) /\ Q tt) ->
  (PyStr.contains "Raspberry Pi 4" (Microscope.pi_model m) = true ->
   forall pid args, P (Popen pid ("mkvmerge" :: args)) = true) ->
  quiet m P Q (Microscope.record_video key fr dur fn).
Proof.
  intros Hrun Hmerge. unfold Microscope.record_video.
  eapply quiet_bind with (Q := any); [now apply quiet_getitem|intros d _].
  eapply quiet_bind with (Q := any); [now apply quiet_of_res|intros fr' _].
  eapply quiet_bind with (Q := any).
  { unfold Microscope.get_video_extension.
    eapply quiet_bind with (Q := eq m); [now apply quiet_get_self|].
    intros ? <-. destruct (negb _); now apply quiet_ret. }
  intros ext _.
  eapply quiet_bind with (Q := any); [now apply quiet_print|intros _ _].
  eapply quiet_bind with (Q := any); [now apply quiet_getitem|intros d' _].
  eapply quiet_bind
    with (Q := fun c => forall cmd, c = Some cmd -> has_marker m = true).
  { unfold Microscope.get_video_command, has_marker.
    eapply quiet_bind with (Q := eq m); [now apply quiet_get_self|].
    intros ? <-.
    destruct (PyStr.contains "Raspberry Pi 4" (Microscope.pi_model m));
      [|destruct (PyStr.contains "Raspberry Pi 5" (Microscope.pi_model m))];
      try (eapply quiet_bind with (Q := any);
           [now apply quiet_index|intros w _];
           eapply quiet_bind with (Q := any);
           [now apply quiet_index|intros h _]);
      apply quiet_ret; intros cmd; try reflexivity; discriminate. }
  intros command Hcommand.
  eapply quiet_bind with (Q := fun _ => has_marker m = true).
  { apply quiet_subprocess_run. intros cmd ->.
    pose proof (Hcommand _ eq_refl) as Hm. split; [now apply Hrun|exact Hm]. }
  intros _ Hm.
  eapply quiet_bind with (Q := eq m); [now apply quiet_get_self|].
  intros ? <-.
  destruct (PyStr.contains "Raspberry Pi 4" (Microscope.pi_model m)) eqn:P4.
  - unfold Microscope.convert_to_mkv.
    eapply quiet_bind with (Q := any).
    + apply quiet_subprocess_Popen. intros pid. split; [|exact I].
      now apply Hmerge.
    + intros _ _. apply quiet_print. now apply Hrun.
  - apply quiet_print. now apply Hrun.
Qed.

Hypothesis P_run : forall cmd, P (Run cmd) = true.

Lemma capture_image_quiet key fn :
  quiet m P any (Microscope.capture_image key fn).
Proof.
  unfold Microscope.capture_image.
  eapply quiet_bind with (Q := any); [now apply quiet_getitem|intros d _].
  eapply quiet_bind with (Q := any); [now apply quiet_index|intros w _].
  eapply quiet_bind with (Q := any); [now apply quiet_getitem|intros d' _].
  eapply quiet_bind with (Q := any); [now apply quiet_index|intros h _].
  eapply quiet_bind with (Q := any).
  - apply quiet_subprocess_run. intros cmd _. now split.
  - intros _ _. now apply quiet_print.
Qed.

(** [capture_timelapse] returns on no path. *)
Lemma capture_timelapse_quiet key interval dur fn :
  quiet m P (fun _ => False)
    (Microscope.capture_timelapse key interval dur fn).
Proof.
  unfold Microscope.capture_timelapse.
  eapply quiet_bind with (Q := any); [now apply quiet_getitem|intros d _].
  eapply quiet_bind with (Q := any); [now apply quiet_index|intros w _].
  eapply quiet_bind with (Q := any); [now apply quiet_getitem|intros d' _].
  eapply quiet_bind with (Q := any); [now apply quiet_index|intros h _].
  eapply quiet_bind with (Q := any).
  - apply quiet_subprocess_run. intros cmd _. now split.
  - intros _ _. apply quiet_raise.
Qed.

End CaptureFrames.

Section CaptureFacts.

Variables (os : OS) (m : Microscope.t).

Lemma capture_event_print line : capture_event (Print line) = true.
Proof. reflexivity. Qed.

Lemma capture_event_run cmd : capture_event (Run cmd) = true.
Proof. reflexivity. Qed.

(** The capture methods leave the attributes as they are and start no
    preview: on every path, also a failing one. *)
Lemma record_video_frame key fr dur fn :
  let o := Microscope.record_video key fr dur fn os m in
  self_after o = m /\ forallb capture_event (events o) = true.
Proof.
  destruct (record_video_quiet m capture_event capture_event_print
              (fun _ => True) key fr dur fn) with (os := os)
    as (Hs & He & _); auto using capture_event_run.
Qed.

Lemma capture_image_frame key fn :
  let o := Microscope.capture_image key fn os m in
  self_after o = m /\ forallb capture_event (events o) = true.
Proof.
  destruct (capture_image_quiet m capture_event capture_event_print
              capture_event_run key fn os) as (Hs & He & _); auto.
Qed.

Lemma capture_timelapse_frame key interval dur fn :
  let o := Microscope.capture_timelapse key interval dur fn os m in
  self_after o = m /\ forallb capture_event (events o) = true.
Proof.
  destruct (capture_timelapse_quiet m capture_event
              capture_event_run key interval dur fn os) as (Hs & He & _).
  auto.
Qed.

Lemma capture_timelapse_raises key interval dur fn :
  exists e,
    result (Microscope.capture_timelapse key interval dur fn os m) = Raise e.
Proof.
  destruct (capture_timelapse_quiet m capture_event
              capture_event_run key interval dur fn os) as (_ & _ & Hr).
  destruct (result _) as [a|e]; [destruct (Hr a eq_refl)|now exists e].
Qed.


(** Without the marker of the Pi 4 the merge tool is not started. *)
Lemma record_video_no_merge key fr dur fn :
  PyStr.contains "Raspberry Pi 4" (Microscope.pi_model m) = false ->
  merges (events (Microscope.record_video key fr dur fn os m)) = false.
Proof.
  intros P4.
  destruct (record_video_quiet m (fun e => negb (is_merge e))
              (fun _ => eq_refl) (fun _ => True) key fr dur fn)
    with (os := os) as (_ & He & _).
  - intros _. split; [reflexivity|exact I].
  - rewrite P4. discriminate.
  - unfold merges.
    induction (events (Microscope.record_video key fr dur fn os m))
      as [|e tr IH]; [reflexivity|].
    cbn in *. apply andb_true_iff in He as [He1 He2].
    apply negb_true_iff in He1. rewrite He1. auto.
Qed.

End CaptureFacts.

(** ** Running the handlers of the form *)

Arguments find_clause : simpl never.
Arguments Microscope.stop_preview : simpl never.
Arguments Microscope.start_preview : simpl never.
Arguments Microscope.record_video : simpl never.
Arguments Microscope.capture_image : simpl never.
Arguments Microscope.capture_timelapse : simpl never.

Section CaptureHandler.

Lemma isinstance_Exception e : isinstance e "Exception" = true.
Proof.
  unfold isinstance. cbn. now rewrite orb_true_r.
Qed.

(** Every exception of the [try] block finds a clause, and the clause
    shows a dialog. *)
Lemma capture_clause e :
  exists h kind title text,
    find_clause e ControlGUI.capture_clauses = Some h /\
    h e = emit (MessageBox kind title text).
Proof.
  unfold ControlGUI.capture_clauses, find_clause.
  rewrite isinstance_Exception.
  destruct (isinstance e "ValueError"); eexists; eexists; eexists; eexists;
    split; reflexivity.
Qed.

Lemma stop_preview_total os m :
  Microscope.stop_preview os m
  = MkOut (Ret tt) os (Microscope.set_preview_process m None)
      (stop_events m).
Proof.
  unfold stop_events.
  destruct (Microscope.preview_process m) as [pid|] eqn:E.
  - now apply stop_preview_running.
  - rewrite (stop_preview_idle _ _ E). destruct m; cbn in *. now subst.
Qed.

Variables (os : OS) (g : ControlGUI.t).

Lemma capture_with_shape txt :
  exists g' os' rest,
    ControlGUI.capture_with txt os g
    = MkOut (Ret tt) os' g'
        (stop_events (ControlGUI.microscope g) ++ rest)%list /\
    forallb capture_event rest = true /\
    ControlGUI.preview_running g' = false /\
    Microscope.preview_process (ControlGUI.microscope g') = None.
Proof.
  pose proof (stop_preview_total os (ControlGUI.microscope g)) as Hstop.
  destruct (split_cons ":" (ControlGUI.resolution_combo g)) as (key & tl & Hk).
  unfold ControlGUI.capture_with, ControlGUI.capture_try.
  unfold ControlGUI.on_microscope.
  run.
  destruct (ControlGUI.parse_duration txt) as [duration|].
  2:{ run. eexists _, _, _. split; [rewrite app_nil_r; reflexivity|].
      repeat split; reflexivity. }
  destruct (ControlGUI.mode_combo g =? "video");
    [|destruct (ControlGUI.mode_combo g =? "timelapse")]; run;
    match goal with
    | |- context [Microscope.record_video ?k ?f ?d ?n ?o ?mm] =>
        destruct (record_video_frame o mm k f d n) as [Hs He];
        destruct (Microscope.record_video k f d n o mm) as [r o' s' e']
    | |- context [Microscope.capture_timelapse ?k ?i ?d ?n ?o ?mm] =>
        destruct (capture_timelapse_frame o mm k i d n) as [Hs He];
        destruct (Microscope.capture_timelapse k i d n o mm) as [r o' s' e']
    | |- context [Microscope.capture_image ?k ?n ?o ?mm] =>
        destruct (capture_image_frame o mm k n) as [Hs He];
        destruct (Microscope.capture_image k n o mm) as [r o' s' e']
    end;
    cbn in Hs, He; subst s'; destruct r as [[]|e];
    try (destruct (capture_clause e) as (h & kind & title & text & Hf & Hh));
    run; eexists _, _, _;
    (split; [rewrite <- ?app_assoc; reflexivity|]);
    rewrite ?forallb_app, ?He; repeat split; reflexivity.
Qed.

End CaptureHandler.

(** * The properties of the specification *)

Section DeviceProfile.

(** C1: when the model file is missing the model is the sentinel
    ["Unknown"], but a video capture is not attempted on it:
    [get_video_command] has no branch for such a model and returns [None],
    [subprocess.run(None)] raises [TypeError], and no child is started. *)
Theorem unknown_model_video_capture_raises :
  exists m,
    result (Microscope.init host_without_model tt) = Ret m /\
    Microscope.pi_model m = "Unknown" /\
    let o := Microscope.record_video "1" Microscope.FrNone 10
               "/home/pi/Desktop/clip" host_without_model m in
    result o = Raise (TypeError "'NoneType' object is not iterable") /\
    launches (events o) = [].
Proof.
  eexists. split; [vm_compute; reflexivity|].
  split; vm_compute; auto.
Qed.

(** C2, as stated, fails on a model string that holds both markers: the
    extension is [.mp4], not [.h264], and the merge tool is started. *)
Lemma both_markers_mp4_and_merge :
  let model := Microscope.pi_model scope_both in
  let o := Microscope.record_video "1" Microscope.FrNone 10
             "/home/pi/Desktop/clip" host_pi4 scope_both in
  PyStr.contains "Raspberry Pi 5" model = true /\
  PyStr.contains "Raspberry Pi 4" model = true /\
  result (Microscope.get_video_extension host_pi4 scope_both) = Ret ".mp4" /\
  ".mp4" <> ".h264" /\
  merges (events o) = true.
Proof. vm_compute. repeat split; discriminate. Qed.

(** C2, amended: for a model string that does not hold both markers.  With
    the marker of the Pi 5 the extension is [.mp4] and no merge is
    started; with the marker of the Pi 4 the extension is [.h264] and,
    when the capture runs, the merge tool is started right after it;
    with neither the extension is [.h264] and no merge is started. *)
Theorem device_profile_by_marker os m key fr dur fn :
  let model := Microscope.pi_model m in
  let o := Microscope.record_video key fr dur fn os m in
  let ext := result (Microscope.get_video_extension os m) in
  PyStr.contains "Raspberry Pi 4" model
    && PyStr.contains "Raspberry Pi 5" model = false ->
  (PyStr.contains "Raspberry Pi 5" model = true ->
     ext = Ret ".mp4" /\ merges (events o) = false) /\
  (PyStr.contains "Raspberry Pi 4" model = true ->
     ext = Ret ".h264" /\
     forall d fr',
       Microscope.dict_get Microscope.valid_resolutions key = Some d ->
       Microscope.clamp_framerate fr (Microscope.max_fps d) = Ret fr' ->
       executable os "rpicam-vid" = true ->
       executable os "mkvmerge" = true ->
       merges (events o) = true /\
       exists line video pid merge line',
         events o = [Print line; Run ("rpicam-vid" :: video);
                     Popen pid ("mkvmerge" :: merge); Print line']) /\
  (PyStr.contains "Raspberry Pi 4" model = false ->
   PyStr.contains "Raspberry Pi 5" model = false ->
     ext = Ret ".h264" /\ merges (events o) = false).
Proof.
  intros model o ext Hboth. subst model o ext.
  rewrite get_video_extension_run. unfold extension_of. cbn [result].
  destruct (PyStr.contains "Raspberry Pi 4" (Microscope.pi_model m)) eqn:P4;
  destruct (PyStr.contains "Raspberry Pi 5" (Microscope.pi_model m)) eqn:P5;
    try discriminate Hboth.
  - split; [discriminate|]. split; [|discriminate].
    intros _. split; [reflexivity|]. intros d fr' Hd Hc Hv Hm.
    destruct (preset_lookup key (lookup_preset _ _ Hd))
      as (d' & w & h & Hd' & Hs).
    rewrite Hd in Hd'. injection Hd' as <-.
    rewrite (record_video_pi4 os m key d w h fr fr' dur fn
               P4 Hd Hs Hc Hv Hm).
    cbn [events]. split; [reflexivity|].
    eexists _, _, _, _, _. reflexivity.
  - split; [|split; discriminate].
    intros _. split; [reflexivity|]. now apply record_video_no_merge.
  - split; [discriminate|]. split; [discriminate|].
    intros _ _. split; [reflexivity|]. now apply record_video_no_merge.
Qed.

(** The three cases of C2 on a Pi 5, a Pi 4 and an unknown model. *)
Lemma device_profile_by_marker_witness :
  (result (Microscope.get_video_extension host_pi4 scope_pi5) = Ret ".mp4" /\
   merges (events (Microscope.record_video "1" Microscope.FrNone 10
                     "/home/pi/Desktop/clip" host_pi4 scope_pi5)) = false) /\
  (result (Microscope.get_video_extension host_pi4 scope_pi4) = Ret ".h264" /\
   merges (events (Microscope.record_video "1" Microscope.FrNone 10
                     "/home/pi/Desktop/clip" host_pi4 scope_pi4)) = true) /\
  (result (Microscope.get_video_extension host_pi4 scope_unknown)
   = Ret ".h264" /\
   merges (events (Microscope.record_video "1" Microscope.FrNone 10
                     "/home/pi/Desktop/clip" host_pi4 scope_unknown)) = false).
Proof.
  split; [|split].
  - apply (device_profile_by_marker host_pi4 scope_pi5 "1" Microscope.FrNone
             10 "/home/pi/Desktop/clip"); reflexivity.
  - destruct (device_profile_by_marker host_pi4 scope_pi4 "1"
                Microscope.FrNone 10 "/home/pi/Desktop/clip")
      as (_ & H & _); [reflexivity|].
    destruct (H eq_refl) as (He & Hm). split; [exact He|].
    exact (proj1 (Hm {| Microscope.resolution := "1332x990";
                        Microscope.max_fps := Microscope.fps_120_05;
                        Microscope.aspect := "4:3" |}
                    (Microscope.FrFloat Microscope.fps_120_05)
                    eq_refl eq_refl eq_refl eq_refl)).
  - apply (device_profile_by_marker host_pi4 scope_unknown "1"
             Microscope.FrNone 10 "/home/pi/Desktop/clip"); reflexivity.
Defined.

End DeviceProfile.

Section Framerate.




End Framerate.

Section Resolutions.

(** C4, as stated, fails: an image capture with the selector ["5"] raises
    a [TypeError], not an error of a class [UnknownResolution]. *)
Lemma unknown_selector_raises_TypeError :
  exists e,
    result (Microscope.capture_image "5" "/tmp/shot" host_pi4 scope_pi4)
    = Raise e /\
    exn_class e = "TypeError" /\
    exn_class e <> "UnknownResolution".
Proof.
  eexists. split; [vm_compute; reflexivity|].
  split; [reflexivity|discriminate].
Qed.

(** C4, amended: the four selectors give exactly the configured width,
    height and [max_fps]; with any other selector each operation raises
    the [TypeError] of subscripting [None], before any child is started
    and without a change of the state. *)
Theorem resolution_lookup key os m :
  map (fun k =>
         option_map (fun d => (PyStr.split "x" (Microscope.resolution d),
                               Microscope.max_fps d))
           (Microscope.dict_get Microscope.valid_resolutions k))
      presets
  = [ Some (["1332"; "990"], PyNum.literal "120.05");
      Some (["2028"; "1080"], PyNum.literal "50.03");
      Some (["2028"; "1520"], PyNum.literal "40.01");
      Some (["4056"; "3040"], PyNum.literal "10.00") ] /\
  (~ In key presets ->
   let failed := MkOut (Raise Microscope.not_subscriptable) os m [] in
   Microscope.start_preview key os m = failed /\
   (forall filename,
      Microscope.capture_image key filename os m = failed) /\
   (forall interval duration filename,
      Microscope.capture_timelapse key interval duration filename os m
      = failed) /\
   (forall framerate duration filename,
      Microscope.record_video key framerate duration filename os m
      = failed)).
Proof.
  split; [vm_compute; reflexivity|].
  intros Hk. apply not_preset_lookup in Hk. cbn zeta.
  unfold Microscope.start_preview, Microscope.capture_image,
    Microscope.capture_timelapse, Microscope.record_video.
  repeat split; intros; run; reflexivity.
Qed.

(** The selector ["5"], and the default ["0"] of [start_preview]. *)
Lemma resolution_lookup_witness :
  Microscope.record_video "5" Microscope.FrNone 10 "/tmp/clip"
    host_pi4 scope_pi4
  = MkOut (Raise Microscope.not_subscriptable) host_pi4 scope_pi4 [] /\
  Microscope.start_preview_default host_pi4 scope_pi4
  = MkOut (Raise Microscope.not_subscriptable) host_pi4 scope_pi4 [].
Proof.
  split.
  - apply (resolution_lookup "5" host_pi4 scope_pi4).
    cbn. intros [H|[H|[H|[H|[]]]]]; discriminate H.
  - apply (resolution_lookup "0" host_pi4 scope_pi4).
    cbn. intros [H|[H|[H|[H|[]]]]]; discriminate H.
Defined.

End Resolutions.

Section Duration.

Local Open Scope Z_scope.



(** Three fields that [int] accepts. *)
Lemma parse_duration_fields h m s hours minutes seconds :
  PyNum.int h = Some hours ->
  PyNum.int m = Some minutes ->
  PyNum.int s = Some seconds ->
  ControlGUI.parse_duration (h ++ ":" ++ m ++ ":" ++ s)
  = Some (hours * 3600 + minutes * 60 + seconds).
Proof.
  intros Hh Hm Hs. unfold ControlGUI.parse_duration.
  change (h ++ ":" ++ m ++ ":" ++ s)
    with (h ++ String ":" (m ++ String ":" s)).
  rewrite (split_app ":" h _ (int_no_colon _ _ Hh)).
  rewrite (split_app ":" m _ (int_no_colon _ _ Hm)).
  rewrite (split_without_sep ":" s (int_no_colon _ _ Hs)).
  now rewrite Hh, Hm, Hs.
Qed.

(** The text that [capture] builds from the spin boxes is always read
    back: the form itself never produces an invalid duration. *)
Lemma capture_reads_duration g :
  ControlGUI.parse_duration (ControlGUI.duration_str g)
  = Some (ControlGUI.duration_hours_spin g * 3600
          + ControlGUI.duration_minutes_spin g * 60
          + ControlGUI.duration_seconds_spin g).
Proof.
  unfold ControlGUI.duration_str.
  apply parse_duration_fields; apply int_format_02.
Qed.



End Duration.

Section PreviewAndCapture.

Lemma no_overlap_capture tr :
  forallb capture_event tr = true -> no_overlap [] tr = true.
Proof.
  induction tr as [|e tr IH]; [reflexivity|].
  cbn [forallb]. rewrite andb_true_iff. intros [He Htr].
  destruct e as [pid [|prog args]|cmd|pid|pid|line|kind title text];
    cbn in *; try discriminate; auto.
  apply negb_true_iff in He. rewrite He. auto.
Qed.

(** C6: a capture started while the preview [pid] runs first terminates
    the preview and waits for it; every capture tool is started after
    that, no preview is started or alive while one runs, and afterwards
    the controller is idle: no preview handle, [preview_running] false. *)
Theorem capture_stops_preview_first os g pid :
  Microscope.preview_process (ControlGUI.microscope g) = Some pid ->
  let o := ControlGUI.capture os g in
  exists rest,
    events o
    = ([Terminate pid; Wait pid; Print "Camera preview stopped."]
       ++ rest)%list /\
    forallb capture_event rest = true /\
    no_overlap [pid] (events o) = true /\
    result o = Ret tt /\
    ControlGUI.preview_running (self_after o) = false /\
    Microscope.preview_process (ControlGUI.microscope (self_after o)) = None.
Proof.
  intros Hp o. subst o.
  destruct (capture_with_shape os g (ControlGUI.duration_str g))
    as (g' & os' & rest & Hc & Hrest & Hrun & Hproc).
  assert (Hcap : ControlGUI.capture os g
                 = ControlGUI.capture_with (ControlGUI.duration_str g) os g).
  { unfold ControlGUI.capture, bind, get_self.
    destruct (ControlGUI.capture_with _ os g). cbn. reflexivity. }
  rewrite Hcap, Hc. cbn [events result self_after].
  unfold stop_events. rewrite Hp.
  exists rest. repeat split; auto.
  cbn [app no_overlap remove].
  destruct (Nat.eq_dec pid pid) as [_|Hne]; [|now contradiction Hne].
  now apply no_overlap_capture.
Qed.

(** The form in video mode on a Pi 4 with preview 42 running: the preview
    is stopped, then [rpicam-vid] runs, then the merge is started. *)
Lemma capture_stops_preview_first_witness :
  exists rest,
    events (ControlGUI.capture host_pi4 form_previewing)
    = ([Terminate 42; Wait 42; Print "Camera preview stopped."]
       ++ rest)%list /\
    forallb capture_event rest = true /\
    no_overlap [42] (events (ControlGUI.capture host_pi4 form_previewing))
    = true /\
    result (ControlGUI.capture host_pi4 form_previewing) = Ret tt /\
    ControlGUI.preview_running
      (self_after (ControlGUI.capture host_pi4 form_previewing)) = false /\
    Microscope.preview_process
      (ControlGUI.microscope
         (self_after (ControlGUI.capture host_pi4 form_previewing))) = None.
Proof.
  apply (capture_stops_preview_first host_pi4 form_previewing 42).
  reflexivity.
Defined.

(** C7: a preview that was started is cleared by [stop_preview];
    [stop_preview] without a preview changes nothing, emits nothing and
    raises nothing; so does a second [stop_preview] in a row. *)
Theorem stop_preview_returns_to_idle os m key :
  (In key presets ->
   executable os "rpicam-hello" = true ->
   let started := Microscope.start_preview key os m in
   let stopped :=
     Microscope.stop_preview (os_after started) (self_after started) in
   result started = Ret tt /\
   Microscope.preview_process (self_after started) = Some (next_pid os) /\
   stopped
   = MkOut (Ret tt) (os_after started)
       (Microscope.set_preview_process m None)
       [Terminate (next_pid os); Wait (next_pid os);
        Print "Camera preview stopped."]) /\
  (Microscope.preview_process m = None ->
   Microscope.stop_preview os m = MkOut (Ret tt) os m []) /\
  (let once := Microscope.stop_preview os m in
   result once = Ret tt /\
   Microscope.preview_process (self_after once) = None /\
   Microscope.stop_preview (os_after once) (self_after once)
   = MkOut (Ret tt) (os_after once) (self_after once) []).
Proof.
  split; [|split].
  - intros Hk Hx.
    destruct (preset_lookup key Hk) as (d & w & h & Hd & Hs).
    cbn zeta. rewrite (start_preview_run os m key d w h Hd Hs Hx).
    cbn [result self_after os_after].
    split; [reflexivity|]. split; [reflexivity|].
    now rewrite (stop_preview_running _ _ (next_pid os)).
  - apply stop_preview_idle.
  - cbn zeta. rewrite (stop_preview_total os m).
    cbn [result self_after os_after].
    split; [reflexivity|]. split; [reflexivity|].
    now apply stop_preview_idle.
Qed.

(** Selector ["2"] from the idle state on a Pi 4. *)
Lemma stop_preview_returns_to_idle_witness :
  Microscope.preview_process
    (self_after (Microscope.start_preview "2" host_pi4 scope_pi4))
  = Some 100 /\
  Microscope.preview_process
    (self_after
       (Microscope.stop_preview
          (os_after (Microscope.start_preview "2" host_pi4 scope_pi4))
          (self_after (Microscope.start_preview "2" host_pi4 scope_pi4))))
  = None /\
  Microscope.stop_preview host_pi4 scope_pi4
  = MkOut (Ret tt) host_pi4 scope_pi4 [].
Proof.
  destruct (stop_preview_returns_to_idle host_pi4 scope_pi4 "2")
    as (Hstart & Hidle & _).
  destruct Hstart as (_ & Hp & Hstop); [cbn; tauto|reflexivity|].
  split; [exact Hp|]. split.
  - rewrite Hstop. reflexivity.
  - apply Hidle. reflexivity.
Defined.

End PreviewAndCapture.

Section Timelapse.

Local Open Scope Z_scope.

(** C8: the timelapse runs the still-capture tool with [-t] the duration
    and [--timelapse] the interval, each multiplied by 1000 and printed in
    decimal, and with the output path [filename + "_%04d.jpg"]. *)
Theorem timelapse_command os m key interval duration filename :
  In key presets ->
  executable os "rpicam-still" = true ->
  exists width height,
    events (Microscope.capture_timelapse key interval duration filename os m)
    = [Run ["rpicam-still";
            "-t"; PyNum.str_int (duration * 1000);
            "--timelapse"; PyNum.str_int (interval * 1000);
            "-o"; filename ++ "_%04d.jpg";
            "--width"; width; "--height"; height]] /\
    PyNum.int (PyNum.str_int (duration * 1000)) = Some (duration * 1000) /\
    PyNum.int (PyNum.str_int (interval * 1000)) = Some (interval * 1000).
Proof.
  intros Hk Hx.
  destruct (preset_lookup key Hk) as (d & w & h & Hd & Hs).
  exists w, h.
  rewrite (capture_timelapse_run os m key d w h interval duration filename
             Hd Hs Hx).
  repeat split; apply int_str_int.
Qed.

(** Selector ["2"], one frame every 5 s for 60 s. *)
Lemma timelapse_command_witness :
  exists width height,
    events (Microscope.capture_timelapse "2" 5 60 "/tmp/lapse"
              host_pi4 scope_pi4)
    = [Run ["rpicam-still";
            "-t"; PyNum.str_int (60 * 1000);
            "--timelapse"; PyNum.str_int (5 * 1000);
            "-o"; "/tmp/lapse" ++ "_%04d.jpg";
            "--width"; width; "--height"; height]] /\
    PyNum.int (PyNum.str_int (60 * 1000)) = Some (60 * 1000) /\
    PyNum.int (PyNum.str_int (5 * 1000)) = Some (5 * 1000).
Proof.
  apply (timelapse_command host_pi4 scope_pi4 "2" 5 60 "/tmp/lapse").
  - cbn. tauto.
  - reflexivity.
Defined.

(** C10: [capture_timelapse] returns normally on no input; with a
    configured selector and a still-capture tool that runs, it raises
    [NameError] for [save_folder] after the tool has exited. *)
Theorem timelapse_raises_NameError os m key interval duration filename :
  let o := Microscope.capture_timelapse key interval duration filename os m in
  (exists e, result o = Raise e) /\
  (In key presets ->
   executable os "rpicam-still" = true ->
   exists command,
     o = MkOut (Raise (NameError "name 'save_folder' is not defined")) os m
           [Run ("rpicam-still" :: command)]).
Proof.
  cbn zeta. split; [apply capture_timelapse_raises|].
  intros Hk Hx.
  destruct (preset_lookup key Hk) as (d & w & h & Hd & Hs).
  rewrite (capture_timelapse_run os m key d w h interval duration filename
             Hd Hs Hx).
  eexists. reflexivity.
Qed.

(** Selector ["2"] on a host where the tool runs. *)
Lemma timelapse_raises_NameError_witness :
  exists command,
    Microscope.capture_timelapse "2" 5 60 "/tmp/lapse" host_pi4 scope_pi4
    = MkOut (Raise (NameError "name 'save_folder' is not defined"))
        host_pi4 scope_pi4 [Run ("rpicam-still" :: command)].
Proof.
  apply (timelapse_raises_NameError host_pi4 scope_pi4 "2" 5 60 "/tmp/lapse").
  - cbn. tauto.
  - reflexivity.
Defined.

(** In the form, the failure of the timelapse is shown as an unexpected
    error after the tool has run. *)
Example capture_timelapse_dialog :
  let form :=
    ControlGUI.set_microscope
      {| ControlGUI.microscope := scope_pi4;
         ControlGUI.save_folder := "/tmp";
         ControlGUI.preview_running := false;
         ControlGUI.preview_button := "Start Preview [P]";
         ControlGUI.mode_combo := "timelapse";
         ControlGUI.resolution_combo := "2: 2028x1080 - Max 50 FPS";
         ControlGUI.filename_edit := "lapse";
         ControlGUI.framerate_edit := "";
         ControlGUI.interval_spin := 5;
         ControlGUI.duration_hours_spin := 0;
         ControlGUI.duration_minutes_spin := 1;
         ControlGUI.duration_seconds_spin := 0 |} scope_pi4 in
  events (ControlGUI.capture host_pi4 form)
  = [Run ["rpicam-still"; "-t"; "60000"; "--timelapse"; "5000";
          "-o"; "/tmp/lapse_%04d.jpg"; "--width"; "2028"; "--height"; "1080"];
     MessageBox "critical" "Error"
       ("An unexpected error occurred: " ++ ControlGUI.newline
        ++ " name 'save_folder' is not defined")].
Proof. vm_compute. reflexivity. Qed.

End Timelapse.

Section Merge.

(** C9, as stated, fails on a model string that holds both markers: the
    video is recorded as [.mp4], and the merge tool is started with that
    [.mp4] file as its input and as its output. *)
Lemma both_markers_merge_mp4_onto_itself :
  let o := Microscope.record_video "1" Microscope.FrNone 10 "/tmp/clip"
             host_pi4 scope_both in
  PyStr.contains "Raspberry Pi 4" (Microscope.pi_model scope_both) = true /\
  result o = Ret tt /\
  (exists line capture,
     events o
     = [Print line; Run ("rpicam-vid" :: capture);
        Popen 100 ["mkvmerge"; "-o"; "/tmp/clip.mp4"; "--timecodes";
                   "0:/home/pi/Desktop/timestamps.txt"; "/tmp/clip.mp4"];
        Print "Converted to MKV and saved to /tmp/clip.mp4"]) /\
  "/tmp/clip.mp4" <> "/tmp/clip.mkv" /\
  "/tmp/clip.mp4" <> "/tmp/clip.h264".
Proof.
  vm_compute. split; [reflexivity|]. split; [reflexivity|].
  split; [eexists _, _; reflexivity|]. split; discriminate.
Qed.

(** C9, amended: on a model with the marker of the Pi 4, once the video
    capture has run, the merge tool is started with exactly the
    arguments [-o <mkv> --timecodes 0:<timestamps> <video>], where
    [<video>] is the file just recorded and [<mkv>] is its name with
    [.h264] replaced by [.mkv]; when the model string does not also hold
    the marker of the Pi 5, [<video>] ends in [.h264] and [<mkv>] is the
    base name with [.mkv].  The merge is started with [Popen] and never
    waited for; [record_video] returns at once; and the capture and the
    merge are the only children, so nothing removes the [.h264] file. *)
Theorem merge_is_started_and_not_awaited os m key d fr fr' dur fn :
  PyStr.contains "Raspberry Pi 4" (Microscope.pi_model m) = true ->
  Microscope.dict_get Microscope.valid_resolutions key = Some d ->
  Microscope.clamp_framerate fr (Microscope.max_fps d) = Ret fr' ->
  executable os "rpicam-vid" = true ->
  executable os "mkvmerge" = true ->
  let o := Microscope.record_video key fr dur fn os m in
  let ts := PyStr.path_join (Microscope.desktop_path m) "timestamps.txt" in
  let video := fn ++ extension_of (Microscope.pi_model m) in
  let mkv := PyStr.replace ".h264" ".mkv" video in
  let merge :=
    Popen (next_pid os)
      ["mkvmerge"; "-o"; mkv; "--timecodes"; "0:" ++ ts; video] in
  result o = Ret tt /\
  (exists line capture,
     events o = [Print line; Run ("rpicam-vid" :: capture); merge;
                 Print ("Converted to MKV and saved to " ++ mkv)] /\
     launches (events o) = [Run ("rpicam-vid" :: capture); merge]) /\
  awaits (next_pid os) (events o) = false /\
  (PyStr.contains "Raspberry Pi 5" (Microscope.pi_model m) = false ->
   video = fn ++ ".h264" /\
   (PyStr.contains ".h264" fn = false -> mkv = fn ++ ".mkv")).
Proof.
  intros P4 Hd Hc Hv Hm o ts video mkv merge. subst o merge mkv video ts.
  destruct (preset_lookup key (lookup_preset _ _ Hd))
    as (d' & w & h & Hd' & Hs).
  rewrite Hd in Hd'. injection Hd' as <-.
  rewrite (record_video_pi4 os m key d w h fr fr' dur fn P4 Hd Hs Hc Hv Hm).
  cbn [result events].
  split; [reflexivity|]. split; [|split].
  - eexists _, _. split; reflexivity.
  - reflexivity.
  - intros P5. unfold extension_of. rewrite P5.
    split; [reflexivity|]. apply replace_h264_suffix.
Qed.

(** Selector ["1"] on a Pi 4, ten seconds into [/tmp/clip]. *)
Lemma merge_is_started_and_not_awaited_witness :
  let o := Microscope.record_video "1" Microscope.FrNone 10 "/tmp/clip"
             host_pi4 scope_pi4 in
  result o = Ret tt /\
  (exists line capture,
     events o
     = [Print line; Run ("rpicam-vid" :: capture);
        Popen 100 ["mkvmerge"; "-o"; "/tmp/clip.mkv"; "--timecodes";
                   "0:/home/pi/Desktop/timestamps.txt"; "/tmp/clip.h264"];
        Print "Converted to MKV and saved to /tmp/clip.mkv"] /\
     launches (events o)
     = [Run ("rpicam-vid" :: capture);
        Popen 100 ["mkvmerge"; "-o"; "/tmp/clip.mkv"; "--timecodes";
                   "0:/home/pi/Desktop/timestamps.txt"; "/tmp/clip.h264"]]) /\
  awaits 100 (events o) = false.
Proof.
  pose (d := {| Microscope.resolution := "1332x990";
                Microscope.max_fps := Microscope.fps_120_05;
                Microscope.aspect := "4:3" |}).
  destruct (merge_is_started_and_not_awaited host_pi4 scope_pi4 "1" d
              Microscope.FrNone (Microscope.FrFloat Microscope.fps_120_05)
              10%Z "/tmp/clip" eq_refl eq_refl eq_refl eq_refl eq_refl)
    as (Hr & He & Ha & _).
  cbn zeta. split; [exact Hr|]. split; [exact He|exact Ha].
Defined.

End Merge.

(** * Further properties of the code *)

Section Trimming.

Lemma lstrip_head s :
  PyStr.lstrip s = EmptyString \/
  exists c r, PyStr.lstrip s = String c r /\ PyStr.isspace c = false.
Proof.
  induction s as [|c s IH]; cbn; [now left|].
  destruct (PyStr.isspace c) eqn:E; [exact IH|].
  right. now exists c, s.
Qed.

Lemma rstrip_rstrip s : PyStr.rstrip (PyStr.rstrip s) = PyStr.rstrip s.
Proof.
  induction s as [|c s IH]; [reflexivity|].
  cbn [PyStr.rstrip]. destruct (PyStr.rstrip s) as [|d r] eqn:E.
  - destruct (PyStr.isspace c) eqn:Ec; [reflexivity|].
    cbn. now rewrite Ec.
  - cbn [PyStr.rstrip] in *. now rewrite IH.
Qed.

Lemma lstrip_rstrip c r :
  PyStr.isspace c = false ->
  PyStr.lstrip (PyStr.rstrip (String c r)) = PyStr.rstrip (String c r).
Proof.
  intros Hc. cbn [PyStr.rstrip].
  destruct (PyStr.rstrip r); rewrite ?Hc; cbn; now rewrite Hc.
Qed.

(** [strip] leaves no white space at either end. *)
Lemma strip_trimmed s :
  PyStr.lstrip (PyStr.strip s) = PyStr.strip s /\
  PyStr.rstrip (PyStr.strip s) = PyStr.strip s.
Proof.
  unfold PyStr.strip. split; [|apply rstrip_rstrip].
  destruct (lstrip_head s) as [->|(c & r & -> & Hc)]; [reflexivity|].
  now apply lstrip_rstrip.
Qed.

End Trimming.

Section Detection.

(** The three outcomes of [get_pi_model]. *)
Lemma get_pi_model_run {St : Type} os (s : St) :
  Microscope.get_pi_model os s
  = match device_tree_model os with
    | ReadOk text => MkOut (Ret (PyStr.strip text)) os s []
    | ReadError e =>
        if isinstance e "FileNotFoundError"
        then MkOut (Ret "Unknown") os s
               [Print "Failed to detect Raspberry Pi model."]
        else MkOut (Raise e) os s []
    end.
Proof.
  destruct (device_tree_model os) as [text|e] eqn:H.
  - now apply get_pi_model_read.
  - destruct (isinstance e "FileNotFoundError") eqn:Hi.
    + unfold Microscope.get_pi_model, Microscope.read_model_file.
      unfold try_except, bind, get_os, raise, ret, find_clause.
      rewrite H. cbn. rewrite Hi. reflexivity.
    + now apply get_pi_model_other_error.
Qed.

(** X1: [get_pi_model] returns the content of the model file without
    white space at its ends; a missing file gives ["Unknown"] and a
    console line; any other failure of the read is raised to the
    caller. *)
Theorem get_pi_model_outcomes {St : Type} os (s : St) :
  match device_tree_model os with
  | ReadOk text =>
      Microscope.get_pi_model os s = MkOut (Ret (PyStr.strip text)) os s [] /\
      PyStr.lstrip (PyStr.strip text) = PyStr.strip text /\
      PyStr.rstrip (PyStr.strip text) = PyStr.strip text
  | ReadError e =>
      if isinstance e "FileNotFoundError"
      then Microscope.get_pi_model os s
           = MkOut (Ret "Unknown") os s
               [Print "Failed to detect Raspberry Pi model."]
      else Microscope.get_pi_model os s = MkOut (Raise e) os s []
  end.
Proof.
  destruct (device_tree_model os) as [text|e] eqn:H.
  - split; [now apply get_pi_model_read|apply strip_trimmed].
  - destruct (isinstance e "FileNotFoundError") eqn:Hi.
    + unfold Microscope.get_pi_model, Microscope.read_model_file.
      unfold try_except, bind, get_os, raise, ret, find_clause.
      rewrite H. cbn. rewrite Hi. reflexivity.
    + now apply get_pi_model_other_error.
Qed.

(** X2: building a [Microscope] starts no child and gives an idle object
    whose desktop path lies under the home directory; it fails only when
    the read of the model file fails otherwise than by a missing file. *)
Theorem init_outcomes os :
  let o := Microscope.init os tt in
  launches (events o) = [] /\ os_after o = os /\
  match device_tree_model os with
  | ReadError e =>
      if isinstance e "FileNotFoundError"
      then exists m,
             result o = Ret m /\ Microscope.pi_model m = "Unknown" /\
             Microscope.preview_process m = None /\
             Microscope.desktop_path m = PyStr.path_join (home os) "Desktop"
      else o = MkOut (Raise e) os tt []
  | ReadOk text =>
      exists m,
        result o = Ret m /\ Microscope.pi_model m = PyStr.strip text /\
        Microscope.preview_process m = None /\
        Microscope.desktop_path m = PyStr.path_join (home os) "Desktop"
  end.
Proof.
  cbn zeta. unfold Microscope.init.
  pose proof (get_pi_model_run os tt) as H.
  unfold bind, print, emit, get_os, ret. cbv beta.
  destruct (device_tree_model os) as [text|e].
  - rewrite H. cbn.
    repeat split. eexists. repeat split.
  - destruct (isinstance e "FileNotFoundError"); rewrite H; cbn.
    + repeat split. eexists. repeat split.
    + repeat split.
Qed.

End Detection.

Section FramerateBound.

Lemma gt_irrefl f : PyNum.gt f f = false.
Proof.
  unfold PyNum.gt, SFltb.
  destruct f as [s|s| |s m e]; cbn; try reflexivity;
    destruct s; try reflexivity;
    rewrite Z.compare_refl, Pos.compare_cont_refl; reflexivity.
Qed.

(** X3: the framerate that [record_video] settles on never compares
    greater than [max_fps], and settling once more changes nothing. *)
Theorem clamp_framerate_bounded fr max fr' :
  Microscope.clamp_framerate fr max = Ret fr' ->
  (forall f, Microscope.to_float fr' = Ret f -> PyNum.gt f max = false) /\
  Microscope.clamp_framerate fr' max = Ret fr'.
Proof.
  assert (Hmax : (forall f, Microscope.to_float (Microscope.FrFloat max)
                            = Ret f -> PyNum.gt f max = false) /\
                 Microscope.clamp_framerate (Microscope.FrFloat max) max
                 = Ret (Microscope.FrFloat max)).
  { split.
    - intros f [= <-]. apply gt_irrefl.
    - unfold Microscope.clamp_framerate. cbn. now rewrite gt_irrefl. }
  assert (Hsome : forall fr0 f,
            Microscope.to_float fr0 = Ret f ->
            Microscope.clamp_framerate fr0 max
            = if PyNum.gt f max then Ret (Microscope.FrFloat max)
              else Ret fr0).
  { intros fr0 f Hf. unfold Microscope.clamp_framerate.
    destruct fr0; [discriminate Hf| |]; now rewrite Hf. }
  destruct (Microscope.to_float fr) as [f|e] eqn:Hf.
  - rewrite (Hsome fr f Hf).
    destruct (PyNum.gt f max) eqn:Hgt; intros [= <-]; [exact Hmax|].
    split.
    + intros f' Hf'. rewrite Hf in Hf'. injection Hf' as <-. exact Hgt.
    + now rewrite (Hsome fr f Hf), Hgt.
  - unfold Microscope.clamp_framerate at 1.
    destruct fr; [intros [= <-]; exact Hmax| |]; rewrite Hf; discriminate.
Qed.

(** A request of 200 frames per second with the selector ["1"]. *)
Lemma clamp_framerate_bounded_witness :
  (forall f,
     Microscope.to_float (Microscope.FrFloat Microscope.fps_120_05) = Ret f ->
     PyNum.gt f Microscope.fps_120_05 = false) /\
  Microscope.clamp_framerate (Microscope.FrFloat Microscope.fps_120_05)
    Microscope.fps_120_05
  = Ret (Microscope.FrFloat Microscope.fps_120_05).
Proof.
  apply (clamp_framerate_bounded (Microscope.FrStr "200")).
  vm_compute. reflexivity.
Defined.

Variables (os : OS) (m : Microscope.t).

Lemma record_video_bad_framerate key d text dur fn :
  Microscope.dict_get Microscope.valid_resolutions key = Some d ->
  PyNum.float_of_str text = None ->
  Microscope.record_video key (Microscope.FrStr text) dur fn os m
  = MkOut (Raise (ValueError ("could not convert string to float: '"
                              ++ text ++ "'")))
      os m [].
Proof.
  intros Hd Hf. unfold Microscope.record_video.
  assert (Hc : Microscope.clamp_framerate (Microscope.FrStr text)
                 (Microscope.max_fps d)
               = Raise (ValueError ("could not convert string to float: '"
                                    ++ text ++ "'"))).
  { unfold Microscope.clamp_framerate, Microscope.to_float.
    now rewrite Hf. }
  run. reflexivity.
Qed.

(** X4: with a configured selector, a framerate text that [float] does not
    accept makes [record_video] raise [ValueError] at once: nothing is
    printed, no child is started, the object is unchanged.  The message
    is given for a text of printable characters without quote and
    backslash, which [repr] shows as it is.  The text ['default'], which
    the docstring of [record_video] names, is such a text. *)
Theorem record_video_rejects_framerate key d text dur fn :
  Microscope.dict_get Microscope.valid_resolutions key = Some d ->
  PyStr.all_chars shown_as_is text = true ->
  PyNum.float_of_str text = None ->
  Microscope.record_video key (Microscope.FrStr text) dur fn os m
  = MkOut (Raise (ValueError ("could not convert string to float: '"
                              ++ text ++ "'")))
      os m [].
Proof. intros Hd _. exact (record_video_bad_framerate key d text dur fn Hd). Qed.

End FramerateBound.

(** The text ['default'] with the selector ["1"]. *)
Lemma record_video_rejects_framerate_witness :
  Microscope.record_video "1" (Microscope.FrStr "default") 10 "/tmp/clip"
    host_pi4 scope_pi4
  = MkOut (Raise (ValueError
                    "could not convert string to float: 'default'"))
      host_pi4 scope_pi4 [].
Proof.
  exact (record_video_rejects_framerate host_pi4 scope_pi4 "1"
           {| Microscope.resolution := "1332x990";
              Microscope.max_fps := Microscope.fps_120_05;
              Microscope.aspect := "4:3" |}
           "default" 10%Z "/tmp/clip" eq_refl eq_refl eq_refl).
Defined.

Section ToolFailures.

Variables (os : OS) (m : Microscope.t).

(** X5: when [rpicam-vid] cannot be started on a model with a marker,
    [record_video] raises [FileNotFoundError] after its console line:
    no child is started and no merge is tried.  When, on a Pi 4, the
    capture ran but [mkvmerge] cannot be started, [record_video] raises
    after the capture and prints no success line. *)
Theorem record_video_tool_missing key d fr fr' dur fn :
  Microscope.dict_get Microscope.valid_resolutions key = Some d ->
  Microscope.clamp_framerate fr (Microscope.max_fps d) = Ret fr' ->
  let o := Microscope.record_video key fr dur fn os m in
  (has_marker m = true ->
   executable os "rpicam-vid" = false ->
   exists line,
     o = MkOut (Raise (no_such_file "rpicam-vid")) os m [Print line]) /\
  (PyStr.contains "Raspberry Pi 4" (Microscope.pi_model m) = true ->
   executable os "rpicam-vid" = true ->
   executable os "mkvmerge" = false ->
   exists line capture,
     o = MkOut (Raise (no_such_file "mkvmerge")) os m
           [Print line; Run ("rpicam-vid" :: capture)]).
Proof.
  intros Hd Hc o. subst o.
  destruct (preset_lookup key (lookup_preset _ _ Hd))
    as (d' & w & h & Hd' & Hs).
  rewrite Hd in Hd'. injection Hd' as <-.
  unfold Microscope.record_video, Microscope.get_video_command,
    Microscope.get_video_extension, Microscope.convert_to_mkv, has_marker.
  split.
  - intros Hm Hv.
    destruct (PyStr.contains "Raspberry Pi 4" (Microscope.pi_model m)) eqn:P4;
    destruct (PyStr.contains "Raspberry Pi 5" (Microscope.pi_model m)) eqn:P5;
      try discriminate Hm; run; eexists; reflexivity.
  - intros P4 Hv Hm.
    destruct (PyStr.contains "Raspberry Pi 5" (Microscope.pi_model m)) eqn:P5;
      run; eexists _, _; reflexivity.
Qed.

End ToolFailures.

(** A Pi 4 on a host without any tool. *)
Lemma record_video_tool_missing_witness :
  exists line,
    Microscope.record_video "1" Microscope.FrNone 10 "/tmp/clip"
      host_without_tools scope_pi4
    = MkOut (Raise (no_such_file "rpicam-vid")) host_without_tools scope_pi4
        [Print line].
Proof.
  exact (proj1 (record_video_tool_missing host_without_tools scope_pi4 "1"
                  {| Microscope.resolution := "1332x990";
                     Microscope.max_fps := Microscope.fps_120_05;
                     Microscope.aspect := "4:3" |}
                  Microscope.FrNone
                  (Microscope.FrFloat Microscope.fps_120_05)
                  10%Z "/tmp/clip" eq_refl eq_refl) eq_refl eq_refl).
Defined.

Section MergePaths.

Lemma prefix_h264_through c s rest :
  prefix ".h264" (String c s) = false ->
  prefix ".h264" (String c (s ++ ".h264" ++ rest)) = false.
Proof.
  destruct s as [|c1 [|c2 [|c3 [|c4 r]]]];
    unfold append; fold append; cbn [prefix];
    repeat match goal with
      | |- context [ascii_dec ?a ?b] =>
          destruct (ascii_dec a b); subst; try discriminate;
          try reflexivity; try tauto
      end.
  destruct r; cbn; discriminate.
Qed.

Lemma replace_from_hit old new c s :
  prefix old (String c s) = true ->
  PyStr.replace_from old new 0 (String c s)
  = new ++ PyStr.replace_from old new (String.length old - 1) s.
Proof. intros H. cbn [PyStr.replace_from]. now rewrite H. Qed.

(** The first occurrence of [.h264], after a part that holds none. *)
Lemma replace_from_through a rest :
  PyStr.contains ".h264" a = false ->
  PyStr.replace_from ".h264" ".mkv" 0 (a ++ ".h264" ++ rest)
  = a ++ ".mkv" ++ PyStr.replace_from ".h264" ".mkv" 0 rest.
Proof.
  induction a as [|c a IH].
  - intros _.
    change ("" ++ ".h264" ++ rest)
      with (String "." (String "h" (String "2" (String "6"
              (String "4" rest))))).
    rewrite replace_from_hit.
    + reflexivity.
    + cbn [prefix].
      repeat match goal with
        | |- context [ascii_dec ?x ?y] =>
            destruct (ascii_dec x y) as [_|N]; [|now contradiction N]
        end.
      now destruct rest.
  - unfold PyStr.contains; fold PyStr.contains.
    rewrite orb_false_iff. intros [Hp Hc].
    change (String c a ++ ".h264" ++ rest)
      with (String c (a ++ ".h264" ++ rest)).
    cbn [PyStr.replace_from].
    rewrite (prefix_h264_through _ _ rest Hp), (IH Hc). reflexivity.
Qed.

Lemma string_app_assoc a b c : (a ++ b) ++ c = a ++ b ++ c.
Proof.
  induction a as [|x a IH]; [reflexivity|].
  change ((String x a ++ b) ++ c) with (String x ((a ++ b) ++ c)).
  now rewrite IH.
Qed.

Lemma append_cancel a x y : a ++ x = a ++ y -> x = y.
Proof.
  induction a as [|c a IH]; [trivial|].
  change (String c a ++ x) with (String c (a ++ x)).
  change (String c a ++ y) with (String c (a ++ y)).
  intros [= H]. auto.
Qed.

(** A base path that holds [.h264] itself. *)
Lemma replace_h264_inner a b :
  PyStr.contains ".h264" a = false ->
  PyStr.contains ".h264" b = false ->
  PyStr.replace ".h264" ".mkv" ((a ++ ".h264" ++ b) ++ ".h264")
  = a ++ ".mkv" ++ b ++ ".mkv" /\
  a ++ ".mkv" ++ b ++ ".mkv" <> (a ++ ".h264" ++ b) ++ ".mkv".
Proof.
  intros Ha Hb. split.
  - rewrite !string_app_assoc.
    change (PyStr.replace ".h264" ".mkv" (a ++ ".h264" ++ b ++ ".h264"))
      with (PyStr.replace_from ".h264" ".mkv" 0
              (a ++ ".h264" ++ b ++ ".h264")).
    rewrite (replace_from_through a _ Ha).
    change (PyStr.replace_from ".h264" ".mkv" 0 (b ++ ".h264"))
      with (PyStr.replace ".h264" ".mkv" (b ++ ".h264")).
    now rewrite (replace_h264_suffix b Hb).
  - rewrite !string_app_assoc. intros H. apply append_cancel in H.
    discriminate H.
Qed.

Variables (os : OS) (m : Microscope.t).

(** X6: on a Pi 4 the merge reads what the capture wrote: its input is
    the [-o] file of the capture and its timecodes are the [--save-pts]
    file of the capture.  That file is [timestamps.txt] in the desktop
    folder whatever the file name of the video is. *)
Theorem merge_reads_what_capture_writes key d fr fr' dur fn :
  PyStr.contains "Raspberry Pi 4" (Microscope.pi_model m) = true ->
  Microscope.dict_get Microscope.valid_resolutions key = Some d ->
  Microscope.clamp_framerate fr (Microscope.max_fps d) = Ret fr' ->
  executable os "rpicam-vid" = true ->
  executable os "mkvmerge" = true ->
  let ts := PyStr.path_join (Microscope.desktop_path m) "timestamps.txt" in
  exists video line rate width height time pid mkv line',
    events (Microscope.record_video key fr dur fn os m)
    = [Print line;
       Run ["rpicam-vid"; "--framerate"; rate; "--width"; width;
            "--height"; height; "--save-pts"; ts; "-o"; video; "-t"; time];
       Popen pid ["mkvmerge"; "-o"; mkv; "--timecodes"; "0:" ++ ts; video];
       Print line'].
Proof.
  intros P4 Hd Hc Hv Hm ts. subst ts.
  destruct (preset_lookup key (lookup_preset _ _ Hd))
    as (d' & w & h & Hd' & Hs).
  rewrite Hd in Hd'. injection Hd' as <-.
  rewrite (record_video_pi4 os m key d w h fr fr' dur fn P4 Hd Hs Hc Hv Hm).
  cbn [events]. eexists _, _, _, _, _, _, _, _, _. reflexivity.
Qed.

(** X7: on a Pi 4 every [.h264] in the path is replaced, not only the
    extension: for a base path [a.h264b] the merged file is
    [a.mkvb.mkv], which is not the base path with [.mkv]. *)
Theorem merged_path_rewrites_every_h264 key d fr fr' dur a b :
  PyStr.contains "Raspberry Pi 4" (Microscope.pi_model m) = true ->
  PyStr.contains "Raspberry Pi 5" (Microscope.pi_model m) = false ->
  Microscope.dict_get Microscope.valid_resolutions key = Some d ->
  Microscope.clamp_framerate fr (Microscope.max_fps d) = Ret fr' ->
  executable os "rpicam-vid" = true ->
  executable os "mkvmerge" = true ->
  PyStr.contains ".h264" a = false ->
  PyStr.contains ".h264" b = false ->
  let fn := a ++ ".h264" ++ b in
  let mkv := a ++ ".mkv" ++ b ++ ".mkv" in
  mkv <> fn ++ ".mkv" /\
  exists line capture ts,
    events (Microscope.record_video key fr dur fn os m)
    = [Print line; Run ("rpicam-vid" :: capture);
       Popen (next_pid os)
         ["mkvmerge"; "-o"; mkv; "--timecodes"; ts; fn ++ ".h264"];
       Print ("Converted to MKV and saved to " ++ mkv)].
Proof.
  intros P4 P5 Hd Hc Hv Hm Ha Hb fn mkv. subst fn mkv.
  destruct (replace_h264_inner a b Ha Hb) as [Hr Hne].
  split; [exact Hne|].
  destruct (preset_lookup key (lookup_preset _ _ Hd))
    as (d' & w & h & Hd' & Hs).
  rewrite Hd in Hd'. injection Hd' as <-.
  rewrite (record_video_pi4 os m key d w h fr fr' dur _ P4 Hd Hs Hc Hv Hm).
  unfold extension_of. rewrite P5, Hr. cbn [events].
  eexists _, _, _. reflexivity.
Qed.

End MergePaths.

(** Selector ["1"] on a Pi 4. *)
Lemma merge_reads_what_capture_writes_witness :
  exists video line rate width height time pid mkv line',
    events (Microscope.record_video "1" Microscope.FrNone 10 "/tmp/clip"
              host_pi4 scope_pi4)
    = [Print line;
       Run ["rpicam-vid"; "--framerate"; rate; "--width"; width;
            "--height"; height; "--save-pts";
            "/home/pi/Desktop/timestamps.txt"; "-o"; video; "-t"; time];
       Popen pid ["mkvmerge"; "-o"; mkv; "--timecodes";
                  "0:" ++ "/home/pi/Desktop/timestamps.txt"; video];
       Print line'].
Proof.
  exact (merge_reads_what_capture_writes host_pi4 scope_pi4 "1"
           {| Microscope.resolution := "1332x990";
              Microscope.max_fps := Microscope.fps_120_05;
              Microscope.aspect := "4:3" |}
           Microscope.FrNone (Microscope.FrFloat Microscope.fps_120_05)
           10%Z "/tmp/clip" eq_refl eq_refl eq_refl eq_refl eq_refl).
Defined.

(** The folder [/data/run.h264/] and the name [a]. *)
Lemma merged_path_rewrites_every_h264_witness :
  exists line capture ts,
    events (Microscope.record_video "1" Microscope.FrNone 10
              ("/data/run" ++ ".h264" ++ "/a") host_pi4 scope_pi4)
    = [Print line; Run ("rpicam-vid" :: capture);
       Popen 100
         ["mkvmerge"; "-o"; "/data/run" ++ ".mkv" ++ "/a" ++ ".mkv";
          "--timecodes"; ts; ("/data/run" ++ ".h264" ++ "/a") ++ ".h264"];
       Print ("Converted to MKV and saved to "
              ++ "/data/run" ++ ".mkv" ++ "/a" ++ ".mkv")].
Proof.
  exact (proj2 (merged_path_rewrites_every_h264 host_pi4 scope_pi4 "1"
           {| Microscope.resolution := "1332x990";
              Microscope.max_fps := Microscope.fps_120_05;
              Microscope.aspect := "4:3" |}
           Microscope.FrNone (Microscope.FrFloat Microscope.fps_120_05)
           10%Z "/data/run" "/a" eq_refl eq_refl eq_refl eq_refl eq_refl
           eq_refl eq_refl eq_refl)).
Defined.

Section DirectCalls.

Variables (os : OS) (m : Microscope.t).

Lemma capture_image_run key d w h filename :
  Microscope.dict_get Microscope.valid_resolutions key = Some d ->
  PyStr.split "x" (Microscope.resolution d) = [w; h] ->
  Microscope.capture_image key filename os m
  = if executable os "rpicam-still"
    then MkOut (Ret tt) os m
           [Run ["rpicam-still"; "-o"; filename ++ ".jpg";
                 "--width"; w; "--height"; h];
            Print ("Image captured and saved to " ++ filename ++ ".jpg")]
    else MkOut (Raise (no_such_file "rpicam-still")) os m [].
Proof.
  intros Hd Hs. unfold Microscope.capture_image.
  destruct (executable os "rpicam-still") eqn:Hx; run; reflexivity.
Qed.

(** Either the preview is started and its handle recorded, or
    [start_preview] raises and nothing has happened. *)
Lemma start_preview_cases key :
  let o := Microscope.start_preview key os m in
  (exists command,
     o = MkOut (Ret tt) (with_next_pid os (S (next_pid os)))
           (Microscope.set_preview_process m (Some (next_pid os)))
           [Popen (next_pid os) ("rpicam-hello" :: command);
            Print "Starting indefinite camera preview..."]) \/
  (exists e, o = MkOut (Raise e) os m []).
Proof.
  cbn zeta.
  destruct (in_dec string_dec key presets) as [Hk|Hk].
  - destruct (preset_lookup key Hk) as (d & w & h & Hd & Hs).
    destruct (executable os "rpicam-hello") eqn:Hx.
    + left. rewrite (start_preview_run os m key d w h Hd Hs Hx).
      eexists. reflexivity.
    + right. unfold Microscope.start_preview. run. eexists. reflexivity.
  - right. apply not_preset_lookup in Hk.
    unfold Microscope.start_preview. run. eexists. reflexivity.
Qed.

(** X8: the three capture methods never change the object and never
    start, terminate or await a preview, on any path: a handle that is
    held stays held. *)
Theorem capture_methods_keep_state key framerate interval duration filename :
  let video :=
    Microscope.record_video key framerate duration filename os m in
  let still := Microscope.capture_image key filename os m in
  let lapse :=
    Microscope.capture_timelapse key interval duration filename os m in
  (self_after video = m /\ forallb capture_event (events video) = true) /\
  (self_after still = m /\ forallb capture_event (events still) = true) /\
  (self_after lapse = m /\ forallb capture_event (events lapse) = true).
Proof.
  cbn zeta. split; [|split].
  - apply record_video_frame.
  - apply capture_image_frame.
  - apply capture_timelapse_frame.
Qed.

(** X9: [capture_image] called on the microscope while a preview is
    held runs the still-capture tool beside the preview: the preview is
    neither terminated nor awaited, and its handle is still held
    afterwards.  Only the [capture] of the form stops the preview. *)
Theorem capture_image_beside_preview pid key filename :
  Microscope.preview_process m = Some pid ->
  In key presets ->
  executable os "rpicam-still" = true ->
  let o := Microscope.capture_image key filename os m in
  result o = Ret tt /\
  Microscope.preview_process (self_after o) = Some pid /\
  terminated pid (events o) = false /\
  awaits pid (events o) = false /\
  no_overlap [pid] (events o) = false.
Proof.
  intros Hp Hk Hx.
  destruct (preset_lookup key Hk) as (d & w & h & Hd & Hs).
  cbn zeta. rewrite (capture_image_run key d w h filename Hd Hs), Hx.
  cbn. auto.
Qed.

(** X10: an image capture with a configured selector runs
    [rpicam-still -o <filename>.jpg --width W --height H] and nothing
    else; when the tool cannot be started it raises
    [FileNotFoundError] and nothing has happened. *)
Theorem capture_image_outcomes key filename :
  In key presets ->
  exists width height,
    Microscope.capture_image key filename os m
    = if executable os "rpicam-still"
      then MkOut (Ret tt) os m
             [Run ["rpicam-still"; "-o"; filename ++ ".jpg";
                   "--width"; width; "--height"; height];
              Print ("Image captured and saved to " ++ filename ++ ".jpg")]
      else MkOut (Raise (no_such_file "rpicam-still")) os m [].
Proof.
  intros Hk. destruct (preset_lookup key Hk) as (d & w & h & Hd & Hs).
  exists w, h. exact (capture_image_run key d w h filename Hd Hs).
Qed.

(** X11: a second [start_preview] replaces the handle of the first
    preview without stopping it: [stop_preview] then stops the second
    child only, the first is never sent a termination signal, and no
    handle of it is left to stop it with. *)
Theorem second_start_preview_leaks_first key1 key2 :
  In key1 presets -> In key2 presets ->
  executable os "rpicam-hello" = true ->
  let first := Microscope.start_preview key1 os m in
  let second :=
    Microscope.start_preview key2 (os_after first) (self_after first) in
  let stop :=
    Microscope.stop_preview (os_after second) (self_after second) in
  let trace := (events first ++ events second ++ events stop)%list in
  Microscope.preview_process (self_after first) = Some (next_pid os) /\
  Microscope.preview_process (self_after second) = Some (S (next_pid os)) /\
  events stop = [Terminate (S (next_pid os)); Wait (S (next_pid os));
                 Print "Camera preview stopped."] /\
  Microscope.preview_process (self_after stop) = None /\
  terminated (next_pid os) trace = false /\
  awaits (next_pid os) trace = false.
Proof.
  intros Hk1 Hk2 Hx.
  destruct (preset_lookup key1 Hk1) as (d1 & w1 & h1 & Hd1 & Hs1).
  destruct (preset_lookup key2 Hk2) as (d2 & w2 & h2 & Hd2 & Hs2).
  cbn zeta.
  rewrite (start_preview_run os m key1 d1 w1 h1 Hd1 Hs1 Hx).
  cbn [os_after self_after events].
  rewrite (start_preview_run (with_next_pid os (S (next_pid os)))
             (Microscope.set_preview_process m (Some (next_pid os)))
             key2 d2 w2 h2 Hd2 Hs2 Hx).
  cbn [os_after self_after events with_next_pid next_pid].
  rewrite (stop_preview_running
             (with_next_pid (with_next_pid os (S (next_pid os)))
                (S (S (next_pid os))))
             (Microscope.set_preview_process
                (Microscope.set_preview_process m (Some (next_pid os)))
                (Some (S (next_pid os))))
             (S (next_pid os)) eq_refl).
  cbn [os_after self_after events].
  assert (Hne : Nat.eqb (S (next_pid os)) (next_pid os) = false)
    by (apply Nat.eqb_neq; lia).
  repeat split; cbn -[Nat.eqb]; rewrite ?Hne; reflexivity.
Qed.

End DirectCalls.

(** A preview 42 is held while selector ["2"] captures [/tmp/shot]. *)
Lemma capture_image_beside_preview_witness :
  let o := Microscope.capture_image "2" "/tmp/shot" host_pi4
             (scope_of "Raspberry Pi 4 Model B Rev 1.4" (Some 42)) in
  result o = Ret tt /\
  Microscope.preview_process (self_after o) = Some 42 /\
  terminated 42 (events o) = false /\
  awaits 42 (events o) = false /\
  no_overlap [42] (events o) = false.
Proof.
  apply (capture_image_beside_preview host_pi4
           (scope_of "Raspberry Pi 4 Model B Rev 1.4" (Some 42)) 42 "2"
           "/tmp/shot").
  - reflexivity.
  - cbn. tauto.
  - reflexivity.
Defined.

(** Selector ["2"] into [/tmp/shot], with and without the tool. *)
Lemma capture_image_outcomes_witness :
  (exists width height,
     Microscope.capture_image "2" "/tmp/shot" host_pi4 scope_pi4
     = MkOut (Ret tt) host_pi4 scope_pi4
         [Run ["rpicam-still"; "-o"; "/tmp/shot" ++ ".jpg";
               "--width"; width; "--height"; height];
          Print ("Image captured and saved to " ++ "/tmp/shot" ++ ".jpg")]) /\
  (exists width height : string,
     Microscope.capture_image "2" "/tmp/shot" host_without_tools scope_pi4
     = MkOut (Raise (no_such_file "rpicam-still")) host_without_tools
         scope_pi4 []).
Proof.
  split.
  - apply (capture_image_outcomes host_pi4 scope_pi4 "2" "/tmp/shot").
    cbn. tauto.
  - apply (capture_image_outcomes host_without_tools scope_pi4 "2"
             "/tmp/shot").
    cbn. tauto.
Defined.

(** Selector ["1"], then selector ["2"], from the idle state. *)
Lemma second_start_preview_leaks_first_witness :
  let first := Microscope.start_preview "1" host_pi4 scope_pi4 in
  let second :=
    Microscope.start_preview "2" (os_after first) (self_after first) in
  let stop :=
    Microscope.stop_preview (os_after second) (self_after second) in
  let trace := (events first ++ events second ++ events stop)%list in
  Microscope.preview_process (self_after first) = Some 100 /\
  Microscope.preview_process (self_after second) = Some 101 /\
  events stop = [Terminate 101; Wait 101; Print "Camera preview stopped."] /\
  Microscope.preview_process (self_after stop) = None /\
  terminated 100 trace = false /\
  awaits 100 trace = false.
Proof.
  apply (second_start_preview_leaks_first host_pi4 scope_pi4 "1" "2").
  - cbn. tauto.
  - cbn. tauto.
  - reflexivity.
Defined.

Section FormPreview.

Lemma set_microscope_same g :
  ControlGUI.set_microscope g (ControlGUI.microscope g) = g.
Proof. now destruct g. Qed.

Lemma selector_index os g :
  index (PyStr.split ":" (ControlGUI.resolution_combo g)) 0 os g
  = MkOut (Ret (selector g)) os g [].
Proof.
  unfold selector, index.
  destruct (split_cons ":" (ControlGUI.resolution_combo g))
    as (key & tl & ->).
  reflexivity.
Qed.

(** [set_preview] either starts the preview of the selector and sets the
    flag, or raises and leaves the form as it was. *)
Lemma set_preview_cases os g :
  let m := ControlGUI.microscope g in
  (In (selector g) presets ->
   executable os "rpicam-hello" = true ->
   exists command,
     ControlGUI.set_preview os g
     = MkOut (Ret tt) (with_next_pid os (S (next_pid os)))
         (ControlGUI.set_preview_state
            (ControlGUI.set_microscope g
               (Microscope.set_preview_process m (Some (next_pid os))))
            true "Stop Preview [P]")
         [Popen (next_pid os) ("rpicam-hello" :: command);
          Print "Starting indefinite camera preview..."]) /\
  (~ In (selector g) presets \/ executable os "rpicam-hello" = false ->
   exists e, ControlGUI.set_preview os g = MkOut (Raise e) os g []).
Proof.
  cbn zeta.
  destruct (split_cons ":" (ControlGUI.resolution_combo g))
    as (key & tl & Hsplit).
  assert (Hsel : selector g = key) by (unfold selector; now rewrite Hsplit).
  rewrite Hsel.
  unfold ControlGUI.set_preview, ControlGUI.on_microscope.
  split.
  - intros Hk Hx.
    destruct (preset_lookup _ Hk) as (d & w & h & Hd & Hs).
    pose proof (start_preview_run os (ControlGUI.microscope g) _ d w h
                  Hd Hs Hx) as Hstart.
    run. eexists. reflexivity.
  - intros Hfail.
    assert (Hstart : exists e,
              Microscope.start_preview key os (ControlGUI.microscope g)
              = MkOut (Raise e) os (ControlGUI.microscope g) []).
    { destruct (start_preview_cases os (ControlGUI.microscope g) key)
        as [(c & Hc)|He]; [|exact He].
      exfalso. destruct Hfail as [Hk|Hx].
      - apply Hk. destruct (in_dec string_dec key presets)
          as [I|I]; [exact I|].
        apply not_preset_lookup in I.
        unfold Microscope.start_preview in Hc. revert Hc. run.
        discriminate.
      - destruct (in_dec string_dec key presets) as [I|I].
        + destruct (preset_lookup _ I) as (d & w & h & Hd & Hs).
          unfold Microscope.start_preview in Hc. revert Hc. run.
          discriminate.
        + apply not_preset_lookup in I.
          unfold Microscope.start_preview in Hc. revert Hc. run.
          discriminate. }
    destruct Hstart as (e & Hstart). exists e.
    run. now rewrite set_microscope_same.
Qed.

End FormPreview.

Arguments ControlGUI.set_preview : simpl never.

Section FormHandlerRuns.

Variables (os : OS) (g : ControlGUI.t).

Let m := ControlGUI.microscope g.

Lemma toggle_preview_off :
  ControlGUI.preview_running g = true ->
  ControlGUI.toggle_preview os g
  = MkOut (Ret tt) os (stopped g) (stop_events m).
Proof.
  intros Hr. pose proof (stop_preview_total os m) as Hstop. subst m.
  unfold ControlGUI.toggle_preview, ControlGUI.on_microscope, stopped.
  run. now rewrite app_nil_r.
Qed.

Lemma toggle_preview_on :
  ControlGUI.preview_running g = false ->
  ControlGUI.toggle_preview os g = ControlGUI.set_preview os g.
Proof.
  intros Hr. unfold ControlGUI.toggle_preview. run.
  destruct (ControlGUI.set_preview os g) as [[[]|e] o s ev]; reflexivity.
Qed.

Lemma resolution_changed_idle :
  ControlGUI.preview_running g = false ->
  ControlGUI.resolution_changed os g = MkOut (Ret tt) os g [].
Proof.
  intros Hr. unfold ControlGUI.resolution_changed. run. reflexivity.
Qed.

Lemma resolution_changed_running :
  ControlGUI.preview_running g = true ->
  let g0 :=
    ControlGUI.set_microscope g (Microscope.set_preview_process m None) in
  let o := ControlGUI.set_preview os g0 in
  ControlGUI.resolution_changed os g
  = MkOut (result o) (os_after o) (self_after o)
      (stop_events m ++ events o)%list.
Proof.
  intros Hr. pose proof (stop_preview_total os m) as Hstop. subst m.
  cbn zeta.
  unfold ControlGUI.resolution_changed, ControlGUI.on_microscope.
  run.
  destruct (ControlGUI.set_preview os _) as [[[]|e] o s ev]; reflexivity.
Qed.

End FormHandlerRuns.

Section FormHandlers.

Variables (os : OS) (g : ControlGUI.t).

Let m := ControlGUI.microscope g.

(** X12: pressing the preview button twice starts a preview and stops
    it again: the second press terminates and awaits the very child the
    first one started, and the form is back to the stopped state. *)
Theorem toggle_preview_twice :
  ControlGUI.preview_running g = false ->
  In (selector g) presets ->
  executable os "rpicam-hello" = true ->
  let first := ControlGUI.toggle_preview os g in
  let second :=
    ControlGUI.toggle_preview (os_after first) (self_after first) in
  result first = Ret tt /\
  ControlGUI.preview_running (self_after first) = true /\
  Microscope.preview_process (ControlGUI.microscope (self_after first))
  = Some (next_pid os) /\
  result second = Ret tt /\
  self_after second = stopped g /\
  exists command,
    (events first ++ events second)%list
    = [Popen (next_pid os) ("rpicam-hello" :: command);
       Print "Starting indefinite camera preview...";
       Terminate (next_pid os); Wait (next_pid os);
       Print "Camera preview stopped."].
Proof.
  intros Hr Hk Hx first second. subst second first.
  destruct (proj1 (set_preview_cases os g) Hk Hx) as (command & Hset).
  rewrite (toggle_preview_on os g Hr), Hset.
  cbn [result self_after os_after events].
  rewrite toggle_preview_off by reflexivity.
  cbn [result self_after events ControlGUI.microscope].
  repeat split. exists command. reflexivity.
Qed.

(** X13: when the preview cannot be started (selector not configured, or
    [rpicam-hello] cannot be started), the press of the preview button
    raises and leaves the form exactly as it was: the flag stays unset
    and nothing is emitted. *)
Theorem toggle_preview_failure :
  ControlGUI.preview_running g = false ->
  ~ In (selector g) presets \/ executable os "rpicam-hello" = false ->
  exists e, ControlGUI.toggle_preview os g = MkOut (Raise e) os g [].
Proof.
  intros Hr Hfail. rewrite (toggle_preview_on os g Hr).
  exact (proj2 (set_preview_cases os g) Hfail).
Qed.

(** X14: a change of the resolution does nothing while no preview runs;
    while one runs it stops that preview, awaits its exit, and only then
    starts the preview of the new selector, whose handle it records. *)
Theorem resolution_changed_restarts pid :
  (ControlGUI.preview_running g = false ->
   ControlGUI.resolution_changed os g = MkOut (Ret tt) os g []) /\
  (ControlGUI.preview_running g = true ->
   Microscope.preview_process m = Some pid ->
   In (selector g) presets ->
   executable os "rpicam-hello" = true ->
   let o := ControlGUI.resolution_changed os g in
   result o = Ret tt /\
   ControlGUI.preview_running (self_after o) = true /\
   Microscope.preview_process (ControlGUI.microscope (self_after o))
   = Some (next_pid os) /\
   single_preview (Some pid) (events o) = true /\
   exists command,
     events o
     = [Terminate pid; Wait pid; Print "Camera preview stopped.";
        Popen (next_pid os) ("rpicam-hello" :: command);
        Print "Starting indefinite camera preview..."]).
Proof.
  split; [apply resolution_changed_idle|].
  intros Hr Hp Hk Hx o. subst o.
  rewrite (resolution_changed_running os g Hr). fold m.
  destruct (proj1 (set_preview_cases os
                     (ControlGUI.set_microscope g
                        (Microscope.set_preview_process m None))) Hk Hx)
    as (command & Hset).
  rewrite Hset. cbn [result self_after os_after events].
  unfold stop_events. rewrite Hp.
  split; [reflexivity|]. split; [reflexivity|]. split; [reflexivity|].
  split.
  - cbn -[Nat.eqb]. now rewrite Nat.eqb_refl.
  - exists command. reflexivity.
Qed.

(** X15: when the restart fails after a change of the resolution, the
    old preview is stopped and the handler raises with the flag
    [preview_running] still set although no preview is held; the next
    press of the preview button only clears the flag. *)
Theorem resolution_changed_failure :
  ControlGUI.preview_running g = true ->
  ~ In (selector g) presets \/ executable os "rpicam-hello" = false ->
  let o := ControlGUI.resolution_changed os g in
  (exists e, result o = Raise e) /\
  events o = stop_events m /\
  os_after o = os /\
  ControlGUI.preview_running (self_after o) = true /\
  Microscope.preview_process (ControlGUI.microscope (self_after o)) = None /\
  ControlGUI.toggle_preview os (self_after o)
  = MkOut (Ret tt) os (stopped g) [].
Proof.
  intros Hr Hfail o. subst o.
  rewrite (resolution_changed_running os g Hr). fold m.
  destruct (proj2 (set_preview_cases os
                     (ControlGUI.set_microscope g
                        (Microscope.set_preview_process m None))) Hfail)
    as (e & Hset).
  rewrite Hset. cbn [result self_after os_after events].
  split; [now exists e|]. split; [apply app_nil_r|].
  split; [reflexivity|]. split; [exact Hr|]. split; [reflexivity|].
  rewrite toggle_preview_off by exact Hr. reflexivity.
Qed.

End FormHandlers.

(** The idle form on a Pi 4, selector ["2"]. *)
Lemma toggle_preview_twice_witness :
  let first := ControlGUI.toggle_preview host_pi4 form_idle in
  let second :=
    ControlGUI.toggle_preview (os_after first) (self_after first) in
  result first = Ret tt /\
  ControlGUI.preview_running (self_after first) = true /\
  Microscope.preview_process (ControlGUI.microscope (self_after first))
  = Some 100 /\
  result second = Ret tt /\
  self_after second = stopped form_idle /\
  exists command,
    (events first ++ events second)%list
    = [Popen 100 ("rpicam-hello" :: command);
       Print "Starting indefinite camera preview...";
       Terminate 100; Wait 100; Print "Camera preview stopped."].
Proof.
  apply (toggle_preview_twice host_pi4 form_idle).
  - reflexivity.
  - cbn. tauto.
  - reflexivity.
Defined.

(** The idle form on a host where no tool can be started. *)
Lemma toggle_preview_failure_witness :
  exists e,
    ControlGUI.toggle_preview host_without_tools form_idle
    = MkOut (Raise e) host_without_tools form_idle [].
Proof.
  apply (toggle_preview_failure host_without_tools form_idle).
  - reflexivity.
  - right. reflexivity.
Defined.

(** The form with preview 42, selector ["1"]. *)
Lemma resolution_changed_restarts_witness :
  let o := ControlGUI.resolution_changed host_pi4 form_previewing in
  result o = Ret tt /\
  ControlGUI.preview_running (self_after o) = true /\
  Microscope.preview_process (ControlGUI.microscope (self_after o))
  = Some 100 /\
  single_preview (Some 42) (events o) = true /\
  exists command,
    events o
    = [Terminate 42; Wait 42; Print "Camera preview stopped.";
       Popen 100 ("rpicam-hello" :: command);
       Print "Starting indefinite camera preview..."].
Proof.
  apply (resolution_changed_restarts host_pi4 form_previewing 42).
  - reflexivity.
  - reflexivity.
  - cbn. tauto.
  - reflexivity.
Defined.

(** The form with preview 42 on a host where no tool can be started. *)
Lemma resolution_changed_failure_witness :
  let o := ControlGUI.resolution_changed host_without_tools form_previewing in
  (exists e, result o = Raise e) /\
  events o = stop_events (ControlGUI.microscope form_previewing) /\
  os_after o = host_without_tools /\
  ControlGUI.preview_running (self_after o) = true /\
  Microscope.preview_process (ControlGUI.microscope (self_after o)) = None /\
  ControlGUI.toggle_preview host_without_tools (self_after o)
  = MkOut (Ret tt) host_without_tools (stopped form_previewing) [].
Proof.
  apply (resolution_changed_failure host_without_tools form_previewing).
  - reflexivity.
  - right. reflexivity.
Defined.

(** ** The preview over a session of the form *)

Section SinglePreview.

Lemma single_preview_app held a b :
  single_preview held (a ++ b)
  = single_preview held a && single_preview (held_after held a) b.
Proof.
  revert held. induction a as [|e a IH]; intros held; [reflexivity|].
  destruct e as [pid [|prog args]|cmd|pid|pid|line|kind title text];
    cbn [app single_preview held_after]; auto.
  - destruct (String.eqb prog "rpicam-hello"); [|apply IH].
    destruct held; [reflexivity|apply IH].
  - destruct held as [p|]; [|apply IH].
    destruct (Nat.eqb p pid); apply IH.
Qed.

Lemma held_after_app held a b :
  held_after held (a ++ b) = held_after (held_after held a) b.
Proof.
  revert held. induction a as [|e a IH]; intros held; [reflexivity|].
  destruct e as [pid [|prog args]|cmd|pid|pid|line|kind title text];
    cbn [app held_after]; auto.
  - destruct (String.eqb prog "rpicam-hello"); apply IH.
  - destruct held as [p|]; [|apply IH].
    destruct (Nat.eqb p pid); apply IH.
Qed.

(** The events of a capture start no preview and await none. *)
Lemma capture_events_hold held tr :
  forallb capture_event tr = true ->
  single_preview held tr = true /\ held_after held tr = held.
Proof.
  induction tr as [|e tr IH]; [now split|].
  cbn [forallb]. rewrite andb_true_iff. intros [He Htr].
  destruct e as [pid [|prog args]|cmd|pid|pid|line|kind title text];
    cbn in He; try discriminate; cbn [single_preview held_after]; auto.
  apply negb_true_iff in He. rewrite He. auto.
Qed.

Lemma stop_events_hold m :
  single_preview (Microscope.preview_process m) (stop_events m) = true /\
  held_after (Microscope.preview_process m) (stop_events m) = None.
Proof.
  unfold stop_events. destruct (Microscope.preview_process m) as [pid|].
  - cbn -[Nat.eqb]. now rewrite Nat.eqb_refl.
  - now split.
Qed.

Lemma capture_run os g :
  ControlGUI.capture os g
  = ControlGUI.capture_with (ControlGUI.duration_str g) os g.
Proof.
  unfold ControlGUI.capture, bind, get_self.
  destruct (ControlGUI.capture_with _ os g). reflexivity.
Qed.

(** Every handler keeps the preview single and the form informed. *)
Lemma handle_holds h os g :
  handle_known g ->
  let held := Microscope.preview_process (ControlGUI.microscope g) in
  let o := handle h os g in
  single_preview held (events o) = true /\
  held_after held (events o)
  = Microscope.preview_process (ControlGUI.microscope (self_after o)) /\
  handle_known (self_after o).
Proof.
  intros Hknown held o. subst held o.
  pose proof (stop_events_hold (ControlGUI.microscope g)) as [Hs1 Hs2].
  assert (Hstart : forall g0,
            Microscope.preview_process (ControlGUI.microscope g0) = None ->
            ControlGUI.preview_running g0 = true \/ g0 = g ->
            let o := ControlGUI.set_preview os g0 in
            single_preview None (events o) = true /\
            held_after None (events o)
            = Microscope.preview_process
                (ControlGUI.microscope (self_after o)) /\
            handle_known (self_after o)).
  { intros g0 Hnone Hflag.
    destruct (in_dec string_dec (selector g0) presets) as [Hk|Hk];
      [destruct (executable os "rpicam-hello") eqn:Hx|].
    - destruct (proj1 (set_preview_cases os g0) Hk Hx) as (c & ->).
      cbn. repeat split.
    - destruct (proj2 (set_preview_cases os g0) (or_intror Hx)) as (e & ->).
      cbn. rewrite Hnone. repeat split.
      destruct Hflag as [Hf| ->]; [now intros _|exact Hknown].
    - destruct (proj2 (set_preview_cases os g0) (or_introl Hk)) as (e & ->).
      cbn. rewrite Hnone. repeat split.
      destruct Hflag as [Hf| ->]; [now intros _|exact Hknown]. }
  destruct h; cbn [handle].
  - destruct (ControlGUI.preview_running g) eqn:Hr.
    + rewrite (toggle_preview_off os g Hr). cbn [events self_after].
      rewrite Hs1, Hs2. repeat split. intros H. now contradiction H.
    + rewrite (toggle_preview_on os g Hr).
      assert (Hnone : Microscope.preview_process (ControlGUI.microscope g)
                      = None).
      { destruct (Microscope.preview_process (ControlGUI.microscope g))
          eqn:E; [|reflexivity].
        unfold handle_known in Hknown. rewrite E, Hr in Hknown.
        now discriminate Hknown. }
      rewrite Hnone. apply Hstart; auto.
  - destruct (ControlGUI.preview_running g) eqn:Hr.
    + rewrite (resolution_changed_running os g Hr).
      cbn [events self_after].
      rewrite single_preview_app, held_after_app, Hs1, Hs2.
      apply Hstart; [reflexivity|now left].
    + rewrite (resolution_changed_idle os g Hr). cbn.
      repeat split. exact Hknown.
  - rewrite capture_run.
    destruct (capture_with_shape os g (ControlGUI.duration_str g))
      as (g' & os' & rest & -> & Hrest & Hrun & Hproc).
    cbn [events self_after].
    rewrite single_preview_app, held_after_app, Hs1, Hs2, Hproc.
    destruct (capture_events_hold None rest Hrest) as [-> ->].
    repeat split. intros H. now contradiction H.
Qed.

(** X16: each of the three handlers of the form, from a form that knows
    of the preview it holds, starts no preview while one is held, ends
    holding exactly the preview its microscope records, and leaves a
    form that knows of it: on every outcome, also when it raises. *)
Theorem handlers_keep_single_preview h os g :
  handle_known g ->
  let held := Microscope.preview_process (ControlGUI.microscope g) in
  let o := handle h os g in
  single_preview held (events o) = true /\
  held_after held (events o)
  = Microscope.preview_process (ControlGUI.microscope (self_after o)) /\
  handle_known (self_after o).
Proof. exact (handle_holds h os g). Qed.

(** X17: over a whole session of the form, whatever the user edits and
    presses and whether or not the session goes on after a handler
    raised, no preview is ever started while another one is held. *)
Theorem session_single_preview resume steps os g :
  Forall widget_edit steps ->
  handle_known g ->
  let held := Microscope.preview_process (ControlGUI.microscope g) in
  single_preview held (snd (session resume steps os g)) = true /\
  held_after held (snd (session resume steps os g))
  = Microscope.preview_process
      (ControlGUI.microscope (snd (fst (session resume steps os g)))) /\
  handle_known (snd (fst (session resume steps os g))).
Proof.
  intros Hsteps. revert os g.
  induction Hsteps as [|s steps Hs Hsteps IH]; intros os g Hknown;
    [cbn; auto|].
  destruct s as [change|h]; cbn [session].
  - destruct (Hs g) as [Hm Hr].
    assert (Hk : handle_known (change g)).
    { unfold handle_known. now rewrite Hm, Hr. }
    specialize (IH os (change g) Hk). cbn zeta in IH.
    rewrite Hm in IH. exact IH.
  - destruct (handle_holds h os g Hknown) as (H1 & H2 & H3).
    assert (Hgo : let o := handle h os g in
              let '(os', g', tr) :=
                session resume steps (os_after o) (self_after o) in
              single_preview
                (Microscope.preview_process (ControlGUI.microscope g))
                (events o ++ tr) = true /\
              held_after
                (Microscope.preview_process (ControlGUI.microscope g))
                (events o ++ tr)
              = Microscope.preview_process (ControlGUI.microscope g') /\
              handle_known g').
    { cbn zeta.
      specialize (IH (os_after (handle h os g))
                    (self_after (handle h os g)) H3).
      destruct (session resume steps _ _) as [[os' g'] tr].
      cbn [fst snd] in IH. cbn zeta in IH.
      rewrite single_preview_app, held_after_app, H1, H2. exact IH. }
    cbn zeta in Hgo |- *.
    destruct (result (handle h os g)); [|destruct resume];
      try (destruct (session resume steps _ _) as [[os' g'] tr];
           exact Hgo);
      try (destruct (session true steps _ _) as [[os' g'] tr];
           exact Hgo).
    cbn [fst snd]. auto.
Qed.

End SinglePreview.

(** The form with preview 42 in video mode. *)
Lemma handlers_keep_single_preview_witness :
  let o := handle ResolutionChanged host_pi4 form_previewing in
  single_preview (Some 42) (events o) = true /\
  held_after (Some 42) (events o)
  = Microscope.preview_process (ControlGUI.microscope (self_after o)) /\
  handle_known (self_after o).
Proof.
  apply (handlers_keep_single_preview ResolutionChanged host_pi4
           form_previewing).
  intros _. reflexivity.
Defined.

(** The preview is started, another folder chosen, the resolution
    changed, a capture made and the preview button pressed again. *)
Lemma session_single_preview_witness :
  let steps :=
    [Press Toggle; Edit (browse_folder "/media/usb");
     Press ResolutionChanged; Press Capture; Press Toggle] in
  single_preview None (snd (session true steps host_pi4 form_idle)) = true /\
  held_after None (snd (session true steps host_pi4 form_idle))
  = Microscope.preview_process
      (ControlGUI.microscope
         (snd (fst (session true steps host_pi4 form_idle)))) /\
  handle_known (snd (fst (session true steps host_pi4 form_idle))).
Proof.
  apply (session_single_preview true
           [Press Toggle; Edit (browse_folder "/media/usb");
            Press ResolutionChanged; Press Capture; Press Toggle]
           host_pi4 form_idle).
  - repeat constructor.
  - intros H. now contradiction H.
Defined.

(** ** The whole of [capture] *)

Lemma string_app_nil_r a : a ++ "" = a.
Proof.
  induction a as [|c a IH]; [reflexivity|].
  change (String c a ++ "") with (String c (a ++ "")). now rewrite IH.
Qed.

Section CaptureWhole.

Variables (os : OS) (g : ControlGUI.t).

Let m0 := Microscope.set_preview_process (ControlGUI.microscope g) None.

(** [capture] is the stop of the preview, the call for the mode, and the
    dialog for the result of that call; the duration it built is always
    read back. *)
Lemma capture_decomposed :
  let inner := capture_call g os m0 in
  ControlGUI.capture os g
  = MkOut (Ret tt) (os_after inner) (stopped g)
      (stop_events (ControlGUI.microscope g)
       ++ events inner ++ dialog_of (result inner))%list.
Proof.
  rewrite capture_run.
  pose proof (stop_preview_total os (ControlGUI.microscope g)) as Hstop.
  pose proof (capture_reads_duration g) as Hdur.
  destruct (split_cons ":" (ControlGUI.resolution_combo g))
    as (key & tl & Hk).
  assert (Hsel : selector g = key) by (unfold selector; now rewrite Hk).
  cbn zeta. subst m0. unfold capture_call, duration_of. rewrite Hsel.
  unfold ControlGUI.capture_with, ControlGUI.capture_try,
    ControlGUI.on_microscope, stopped.
  run.
  destruct (ControlGUI.mode_combo g =? "video");
    [|destruct (ControlGUI.mode_combo g =? "timelapse")]; run;
    match goal with
    | |- context [Microscope.record_video ?k ?f ?d ?n ?o ?mm] =>
        destruct (record_video_frame o mm k f d n) as [Hs He];
        destruct (Microscope.record_video k f d n o mm) as [r o' s' e']
    | |- context [Microscope.capture_timelapse ?k ?i ?d ?n ?o ?mm] =>
        destruct (capture_timelapse_frame o mm k i d n) as [Hs He];
        destruct (Microscope.capture_timelapse k i d n o mm) as [r o' s' e']
    | |- context [Microscope.capture_image ?k ?n ?o ?mm] =>
        destruct (capture_image_frame o mm k n) as [Hs He];
        destruct (Microscope.capture_image k n o mm) as [r o' s' e']
    end;
    cbn in Hs; subst s'; destruct r as [[]|e]; run;
    rewrite ?app_nil_r; try reflexivity;
    unfold find_clause, ControlGUI.capture_clauses;
    rewrite isinstance_Exception;
    destruct (isinstance e "ValueError"); run;
    rewrite <- ?app_assoc; reflexivity.
Qed.

Lemma tool_event_print line : tool_event (Print line) = true.
Proof. reflexivity. Qed.

Lemma tool_event_run cmd : tool_event (Run cmd) = true.
Proof. reflexivity. Qed.

(** The call for the mode shows no dialog and starts no child but the
    merge. *)
Lemma capture_call_tools m :
  forallb tool_event (events (capture_call g os m)) = true.
Proof.
  unfold capture_call.
  destruct (ControlGUI.mode_combo g =? "video");
    [|destruct (ControlGUI.mode_combo g =? "timelapse")].
  - match goal with
    | |- context [Microscope.record_video ?k ?f ?d ?n] =>
        destruct (record_video_quiet m tool_event tool_event_print
                    (fun _ => True) k f d n) with (os := os)
          as (_ & He & _); auto using tool_event_run
    end.
  - match goal with
    | |- context [Microscope.capture_timelapse ?k ?i ?d ?n] =>
        destruct (capture_timelapse_quiet m tool_event tool_event_run
                    k i d n os) as (_ & He & _); auto
    end.
  - match goal with
    | |- context [Microscope.capture_image ?k ?n] =>
        destruct (capture_image_quiet m tool_event tool_event_print
                    tool_event_run k n os) as (_ & He & _); auto
    end.
Qed.

(** X18: [capture] never raises, whatever the host and the content of
    the form: it returns with the form stopped and otherwise unchanged,
    after the stop of the preview, then the events of the capture tools,
    then at most one dialog, which comes last. *)
Theorem capture_always_returns :
  let o := ControlGUI.capture os g in
  result o = Ret tt /\
  self_after o = stopped g /\
  exists tools dialogs,
    events o
    = (stop_events (ControlGUI.microscope g) ++ tools ++ dialogs)%list /\
    forallb tool_event tools = true /\
    (dialogs = [] \/
     exists kind title text, dialogs = [MessageBox kind title text]).
Proof.
  cbn zeta. rewrite capture_decomposed. cbn [result self_after events].
  split; [reflexivity|]. split; [reflexivity|].
  eexists _, _. split; [reflexivity|]. split; [apply capture_call_tools|].
  destruct (result (capture_call g os m0)) as [a|e]; cbn [dialog_of].
  - now left.
  - right. destruct (isinstance e "ValueError"); eexists _, _, _; reflexivity.
Qed.

(** X19: in the image mode, with a configured selector and a tool that
    runs, [capture] stops the preview and runs
    [rpicam-still -o <path>.jpg --width W --height H], where [<path>] is
    the file name of the form joined to the save folder; no dialog is
    shown.  An absolute file name leaves the save folder out; an empty
    file name is not refused, the image is then written to [.jpg] in the
    save folder. *)
Theorem capture_image_mode :
  ControlGUI.mode_combo g <> "video" ->
  ControlGUI.mode_combo g <> "timelapse" ->
  In (selector g) presets ->
  executable os "rpicam-still" = true ->
  let path :=
    PyStr.path_join (ControlGUI.save_folder g) (ControlGUI.filename_edit g)
    ++ ".jpg" in
  (exists width height,
     ControlGUI.capture os g
     = MkOut (Ret tt) os (stopped g)
         (stop_events (ControlGUI.microscope g)
          ++ [Run ["rpicam-still"; "-o"; path;
                   "--width"; width; "--height"; height];
              Print ("Image captured and saved to " ++ path)])%list) /\
  (PyStr.startswith "/" (ControlGUI.filename_edit g) = true ->
   path = ControlGUI.filename_edit g ++ ".jpg") /\
  (ControlGUI.filename_edit g = "" ->
   path = ControlGUI.save_folder g ++ ".jpg" \/
   path = ControlGUI.save_folder g ++ "/.jpg").
Proof.
  intros Hv Ht Hk Hx path. subst path. split; [|split].
  - destruct (preset_lookup _ Hk) as (d & w & h & Hd & Hs).
    exists w, h. rewrite capture_decomposed. cbn zeta.
    unfold capture_call.
    apply String.eqb_neq in Hv, Ht. rewrite Hv, Ht.
    rewrite (capture_image_run os m0 _ d w h _ Hd Hs), Hx.
    reflexivity.
  - intros Hs. unfold PyStr.path_join. now rewrite Hs.
  - intros ->. unfold PyStr.path_join.
    change (PyStr.startswith "/" "") with false. cbv iota.
    destruct (_ || _)%bool; [left|right].
    + now rewrite string_app_nil_r.
    + now rewrite string_app_assoc.
Qed.

(** X20: in the video mode, a framerate text that [float] does not
    accept is reported in the warning dialog of the input errors, with
    the message of [float]; the preview is stopped, nothing is recorded
    and nothing is printed.  The text is one that [repr] shows as it
    is. *)
Theorem capture_video_bad_framerate text :
  ControlGUI.mode_combo g = "video" ->
  ControlGUI.framerate_edit g = text ->
  text <> "" ->
  PyStr.all_chars shown_as_is text = true ->
  PyNum.float_of_str text = None ->
  In (selector g) presets ->
  ControlGUI.capture os g
  = MkOut (Ret tt) os (stopped g)
      (stop_events (ControlGUI.microscope g)
       ++ [MessageBox "warning" "Input Error"
             ("could not convert string to float: '" ++ text ++ "'")])%list.
Proof.
  intros Hv Hf Hne _ Hfl Hk.
  destruct (preset_lookup _ Hk) as (d & w & h & Hd & Hs).
  rewrite capture_decomposed. cbn zeta. unfold capture_call.
  rewrite Hv, Hf. apply String.eqb_neq in Hne. rewrite Hne.
  change ("video" =? "video") with true. cbv iota.
  rewrite (record_video_bad_framerate os m0 _ d text _ _ Hd Hfl).
  reflexivity.
Qed.

(** X21: in the timelapse mode [capture] always ends with the dialog of
    the unexpected errors: for a selector that is not configured, for a
    tool that cannot be started, and also after the tool has run, with
    the message of the unbound name. *)
Theorem capture_timelapse_mode :
  ControlGUI.mode_combo g = "timelapse" ->
  let o := ControlGUI.capture os g in
  let report msg :=
    MessageBox "critical" "Error"
      ("An unexpected error occurred: " ++ ControlGUI.newline ++ " "
       ++ msg) in
  let stop := stop_events (ControlGUI.microscope g) in
  result o = Ret tt /\
  (~ In (selector g) presets ->
   events o
   = (stop ++ [report "'NoneType' object is not subscriptable"])%list) /\
  (In (selector g) presets ->
   executable os "rpicam-still" = false ->
   events o
   = (stop
      ++ [report "[Errno 2] No such file or directory: 'rpicam-still'"])%list)
  /\
  (In (selector g) presets ->
   executable os "rpicam-still" = true ->
   exists width height,
     events o
     = (stop
        ++ [Run ["rpicam-still";
                 "-t"; PyNum.str_int (duration_of g * 1000);
                 "--timelapse";
                 PyNum.str_int (ControlGUI.interval_spin g * 1000);
                 "-o";
                 (PyStr.path_join (ControlGUI.save_folder g)
                    (ControlGUI.filename_edit g) ++ "_%04d.jpg")%string;
                 "--width"; width; "--height"; height];
            report "name 'save_folder' is not defined"])%list).
Proof.
  intros Ht o report stop. subst o report stop.
  rewrite capture_decomposed. cbn zeta. cbn [result events].
  unfold capture_call. rewrite Ht.
  change ("timelapse" =? "video") with false.
  change ("timelapse" =? "timelapse") with true. cbv iota.
  split; [reflexivity|]. split; [|split].
  - intros Hk. apply not_preset_lookup in Hk.
    unfold Microscope.capture_timelapse. run. reflexivity.
  - intros Hk Hx. destruct (preset_lookup _ Hk) as (d & w & h & Hd & Hs).
    unfold Microscope.capture_timelapse. run. reflexivity.
  - intros Hk Hx. destruct (preset_lookup _ Hk) as (d & w & h & Hd & Hs).
    exists w, h.
    rewrite (capture_timelapse_run os m0 _ d w h _ _ _ Hd Hs Hx).
    reflexivity.
Qed.

End CaptureWhole.

(** The image mode with an absolute file name. *)
Lemma capture_image_mode_witness :
  let g := form_with "image" "/data/shot" "" in
  let path :=
    PyStr.path_join (ControlGUI.save_folder g) (ControlGUI.filename_edit g)
    ++ ".jpg" in
  (exists width height,
     ControlGUI.capture host_pi4 g
     = MkOut (Ret tt) host_pi4 (stopped g)
         (stop_events (ControlGUI.microscope g)
          ++ [Run ["rpicam-still"; "-o"; path;
                   "--width"; width; "--height"; height];
              Print ("Image captured and saved to " ++ path)])%list) /\
  (PyStr.startswith "/" (ControlGUI.filename_edit g) = true ->
   path = ControlGUI.filename_edit g ++ ".jpg") /\
  (ControlGUI.filename_edit g = "" ->
   path = ControlGUI.save_folder g ++ ".jpg" \/
   path = ControlGUI.save_folder g ++ "/.jpg").
Proof.
  apply (capture_image_mode host_pi4 (form_with "image" "/data/shot" "")).
  - discriminate.
  - discriminate.
  - vm_compute. tauto.
  - reflexivity.
Defined.

(** The video mode with the framerate text ["fast"]. *)
Lemma capture_video_bad_framerate_witness :
  let g := form_with "video" "clip" "fast" in
  ControlGUI.capture host_pi4 g
  = MkOut (Ret tt) host_pi4 (stopped g)
      (stop_events (ControlGUI.microscope g)
       ++ [MessageBox "warning" "Input Error"
             ("could not convert string to float: '" ++ "fast" ++ "'")])%list.
Proof.
  apply (capture_video_bad_framerate host_pi4
           (form_with "video" "clip" "fast") "fast").
  - reflexivity.
  - reflexivity.
  - discriminate.
  - reflexivity.
  - vm_compute. reflexivity.
  - vm_compute. tauto.
Defined.

(** The timelapse mode on a host where the tool runs. *)
Lemma capture_timelapse_mode_witness :
  let g := form_with "timelapse" "lapse" "" in
  exists width height,
    events (ControlGUI.capture host_pi4 g)
    = (stop_events (ControlGUI.microscope g)
       ++ [Run ["rpicam-still";
                "-t"; PyNum.str_int (duration_of g * 1000);
                "--timelapse";
                PyNum.str_int (ControlGUI.interval_spin g * 1000);
                "-o";
                (PyStr.path_join (ControlGUI.save_folder g)
                   (ControlGUI.filename_edit g) ++ "_%04d.jpg")%string;
                "--width"; width; "--height"; height];
           MessageBox "critical" "Error"
             ("An unexpected error occurred: " ++ ControlGUI.newline ++ " "
              ++ "name 'save_folder' is not defined")])%list.
Proof.
  destruct (capture_timelapse_mode host_pi4
              (form_with "timelapse" "lapse" "") eq_refl)
    as (_ & _ & _ & H).
  apply H.
  - vm_compute. tauto.
  - reflexivity.
Defined.

(** ** The exceptions of the capture methods *)

Section RaisesOnly.

Context {St : Type} (E : exn -> Prop).

Lemma raises_only_ret {A} (a : A) : raises_only (St := St) E (ret a).
Proof. intros os s e. discriminate. Qed.

Lemma raises_only_raise {A} e :
  E e -> raises_only (St := St) (A := A) E (raise e).
Proof. intros H os s e' [= <-]. exact H. Qed.

Lemma raises_only_bind {A B} (c : M St A) (k : A -> M St B) :
  raises_only E c -> (forall a, raises_only E (k a)) ->
  raises_only E (bind c k).
Proof.
  intros Hc Hk os s e. unfold bind.
  destruct (c os s) as [[a|e1] os1 s1 ev1] eqn:Hco.
  - destruct (k a os1 s1) as [r os2 s2 ev2] eqn:Hka. cbn. intros ->.
    apply (Hk a os1 s1). now rewrite Hka.
  - cbn. intros [= <-]. apply (Hc os s). now rewrite Hco.
Qed.

Lemma raises_only_of_res {A} (r : res A) :
  (forall e, r = Raise e -> E e) -> raises_only (St := St) E (of_res r).
Proof. intros H os s e. cbn. apply H. Qed.

Lemma raises_only_get_self : raises_only (St := St) E get_self.
Proof. intros os s e. discriminate. Qed.

Lemma raises_only_print line : raises_only (St := St) E (print line).
Proof. intros os s e. discriminate. Qed.

Lemma raises_only_getitem d :
  E Microscope.not_subscriptable ->
  raises_only (St := St) E (Microscope.getitem d).
Proof.
  intros H. unfold Microscope.getitem. destruct d.
  - apply raises_only_ret.
  - now apply raises_only_raise.
Qed.

Lemma raises_only_index l i :
  E (IndexError "list index out of range") ->
  raises_only (St := St) E (index l i).
Proof.
  intros H. unfold index. destruct (nth_error l i).
  - apply raises_only_ret.
  - now apply raises_only_raise.
Qed.

Lemma raises_only_subprocess_run command :
  E (TypeError "'NoneType' object is not iterable") ->
  E (IndexError "list index out of range") ->
  (forall prog, E (no_such_file prog)) ->
  raises_only (St := St) E (subprocess_run command).
Proof.
  intros Hn Hi Hf. unfold subprocess_run.
  destruct command as [[|prog args]|]; try now apply raises_only_raise.
  intros os s e. unfold bind, get_os, emit, raise.
  destruct (executable os prog); cbn; [discriminate|].
  intros [= <-]. apply Hf.
Qed.

Lemma raises_only_subprocess_Popen command :
  E (IndexError "list index out of range") ->
  (forall prog, E (no_such_file prog)) ->
  raises_only (St := St) E (subprocess_Popen command).
Proof.
  intros Hi Hf. unfold subprocess_Popen.
  destruct command as [|prog args]; [now apply raises_only_raise|].
  intros os s e. destruct (executable os prog); cbn; [discriminate|].
  intros [= <-]. apply Hf.
Qed.

End RaisesOnly.

Section CaptureExceptions.

Variable E : exn -> Prop.

Hypothesis E_subscript : E Microscope.not_subscriptable.
Hypothesis E_index : E (IndexError "list index out of range").
Hypothesis E_none : E (TypeError "'NoneType' object is not iterable").
Hypothesis E_file : forall prog, E (no_such_file prog).
Hypothesis E_name : E (NameError "name 'save_folder' is not defined").

Variable fr : Microscope.framerate_value.

Hypothesis E_float :
  forall text,
    fr = Microscope.FrStr text ->
    E (ValueError ("could not convert string to float: '" ++ text ++ "'")).

Lemma clamp_framerate_raises max e :
  Microscope.clamp_framerate fr max = Raise e -> E e.
Proof.
  unfold Microscope.clamp_framerate, Microscope.to_float.
  destruct fr as [|text|f]; [discriminate| |destruct (PyNum.gt f max);
                                            discriminate].
  destruct (PyNum.float_of_str text) as [f|].
  - destruct (PyNum.gt f max); discriminate.
  - intros [= <-]. now apply E_float.
Qed.

Lemma record_video_raises_only key dur fn :
  raises_only E (Microscope.record_video key fr dur fn).
Proof.
  unfold Microscope.record_video, Microscope.get_video_extension,
    Microscope.get_video_command, Microscope.convert_to_mkv.
  repeat first
    [ apply raises_only_bind; [|intros ?]
    | apply raises_only_getitem
    | apply raises_only_index
    | apply raises_only_get_self
    | apply raises_only_print
    | apply raises_only_ret
    | apply raises_only_subprocess_run
    | apply raises_only_subprocess_Popen
    | apply raises_only_of_res; intros ?; apply clamp_framerate_raises
    | match goal with
      | |- raises_only _ (if ?b then _ else _) => destruct b
      end
    | assumption ].
Qed.

Lemma capture_image_raises_only key fn :
  raises_only E (Microscope.capture_image key fn).
Proof.
  unfold Microscope.capture_image.
  repeat first
    [ apply raises_only_subprocess_run
    | apply raises_only_bind; [|intros ?]
    | apply raises_only_getitem
    | apply raises_only_index
    | apply raises_only_print
    | assumption ].
Qed.

Lemma capture_timelapse_raises_only key interval dur fn :
  raises_only E (Microscope.capture_timelapse key interval dur fn).
Proof.
  unfold Microscope.capture_timelapse.
  repeat first
    [ apply raises_only_subprocess_run
    | apply raises_only_bind; [|intros ?]
    | apply raises_only_getitem
    | apply raises_only_index
    | apply raises_only_raise
    | assumption ].
Qed.

End CaptureExceptions.

Section InputErrors.

Lemma isinstance_ValueError e :
  isinstance e "ValueError" = true -> exn_class e = "ValueError".
Proof.
  unfold isinstance.
  change ("ValueError" =? "Exception") with false.
  change ("ValueError" =? "OSError") with false.
  rewrite !orb_false_r. apply String.eqb_eq.
Qed.

Lemma capture_timelapse_no_ValueError key interval dur fn :
  raises_only (fun e => exn_class e <> "ValueError")
    (Microscope.capture_timelapse key interval dur fn).
Proof.
  apply capture_timelapse_raises_only; intros; intros H; discriminate H.
Qed.

Lemma capture_image_no_ValueError key fn :
  raises_only (fun e => exn_class e <> "ValueError")
    (Microscope.capture_image key fn).
Proof.
  apply capture_image_raises_only; intros; intros H; discriminate H.
Qed.

Lemma record_video_ValueError key text dur fn :
  raises_only
    (fun e => exn_class e = "ValueError" ->
              exn_msg e
              = "could not convert string to float: '" ++ text ++ "'")
    (Microscope.record_video key
       (if text =? "" then Microscope.FrNone else Microscope.FrStr text)
       dur fn).
Proof.
  apply record_video_raises_only; try (intros H; discriminate H).
  - intros prog H. discriminate H.
  - intros t Ht _. destruct (text =? ""); [discriminate Ht|].
    now injection Ht as <-.
Qed.

Lemma stop_events_no_dialog m e :
  In e (stop_events m) -> is_dialog e = false.
Proof.
  unfold stop_events. destruct (Microscope.preview_process m); cbn;
    intuition; subst; reflexivity.
Qed.

Lemma tool_events_no_dialog tr e :
  forallb tool_event tr = true -> In e tr -> is_dialog e = false.
Proof.
  intros H Hin. rewrite forallb_forall in H. specialize (H e Hin).
  destruct e; try reflexivity. discriminate H.
Qed.

(** X22: the text that [capture] builds from the three spin boxes is
    always read back as their total of seconds, whatever the values of
    the spin boxes; so no dialog of [capture] ever carries the message
    of an invalid duration. *)
Theorem capture_never_reports_duration os g kind title :
  ControlGUI.parse_duration (ControlGUI.duration_str g)
  = Some (duration_of g) /\
  ~ In (MessageBox kind title
          "Invalid duration format. Use hours:minutes:seconds.")
       (events (ControlGUI.capture os g)).
Proof.
  split; [apply capture_reads_duration|]. intros Hin.
  rewrite capture_decomposed in Hin. cbn [events] in Hin.
  apply in_app_or in Hin as [Hin|Hin];
    [apply stop_events_no_dialog in Hin; discriminate Hin|].
  apply in_app_or in Hin as [Hin|Hin];
    [apply (tool_events_no_dialog _ _ (capture_call_tools os g _)) in Hin;
     discriminate Hin|].
  set (m0 := Microscope.set_preview_process (ControlGUI.microscope g) None)
    in *.
  destruct (result (capture_call g os m0)) as [a|e] eqn:Hres;
    [destruct Hin|].
  cbn [dialog_of] in Hin.
  destruct (isinstance e "ValueError") eqn:Hi;
    destruct Hin as [[= _ _ Hmsg]|[]]; try discriminate Hmsg.
  apply isinstance_ValueError in Hi.
  unfold capture_call in Hres.
  destruct (ControlGUI.mode_combo g =? "video").
  - rewrite (record_video_ValueError _ _ _ _ os m0 e Hres Hi) in Hmsg.
    discriminate Hmsg.
  - destruct (ControlGUI.mode_combo g =? "timelapse").
    + exact (capture_timelapse_no_ValueError _ _ _ _ os m0 e Hres Hi).
    + exact (capture_image_no_ValueError _ _ os m0 e Hres Hi).
Qed.

End InputErrors.

(** ** Building the form *)

Section NewForm.

Variable os : OS.

(** What the handlers find in a form that was just built. *)
Let fresh (g : ControlGUI.t) : Prop :=
  ControlGUI.preview_running g = false /\
  Microscope.preview_process (ControlGUI.microscope g) = None /\
  handle_known g /\
  ControlGUI.save_folder g = PyStr.path_join (home os) "Desktop" /\
  ControlGUI.save_folder g = Microscope.desktop_path (ControlGUI.microscope g) /\
  In (selector g) presets /\
  duration_of g = 10%Z.

(** X23: building the form starts no child and leaves the host as it
    is.  When the model file is read, or is missing, the form is built
    idle: no preview held, the save folder the desktop folder of the
    microscope, a configured selector and a duration of ten seconds; the
    model file is read twice, so that a missing file is reported twice
    on the console.  Any other failure of the read leaves [__init__] as
    an exception. *)
Theorem ControlGUI_init_outcomes :
  let o := ControlGUI_init os tt in
  launches (events o) = [] /\ os_after o = os /\
  match device_tree_model os with
  | ReadOk text =>
      events o = [Print (PyStr.strip text)] /\
      exists g,
        result o = Ret g /\ fresh g /\
        Microscope.pi_model (ControlGUI.microscope g) = PyStr.strip text
  | ReadError e =>
      if isinstance e "FileNotFoundError" then
        events o = [Print "Failed to detect Raspberry Pi model.";
                    Print "Unknown";
                    Print "Failed to detect Raspberry Pi model."] /\
        exists g,
          result o = Ret g /\ fresh g /\
          Microscope.pi_model (ControlGUI.microscope g) = "Unknown"
      else o = MkOut (Raise e) os tt []
  end.
Proof.
  cbn zeta. unfold ControlGUI_init, Microscope.init.
  pose proof (get_pi_model_run os tt) as H.
  unfold bind, print, emit, get_os, ret. cbv beta.
  destruct (device_tree_model os) as [text|e].
  - repeat (rewrite H; cbn). repeat split.
    eexists. split; [reflexivity|]. subst fresh. cbn.
    repeat split; try tauto. intros Hn. now contradiction Hn.
  - destruct (isinstance e "FileNotFoundError"); repeat (rewrite H; cbn).
    + repeat split.
      eexists. split; [reflexivity|]. subst fresh. cbn.
      repeat split; try tauto. intros Hn. now contradiction Hn.
    + repeat split.
Qed.

End NewForm.

(** ** The earlier form of [gui_qt.py] *)

Section ReprFacts.








End ReprFacts.

Arguments PyRepr.repr : simpl never.
Arguments substring : simpl never.

Section EarlierForm.

Context {Scope : Type} `{GuiQt.MicroscopeClass Scope}.

Variables (os : OS) (g : GuiQt.t Scope).


End EarlierForm.

Arguments GuiQt.stop_preview : simpl never.
Arguments GuiQt.record_video : simpl never.
Arguments GuiQt.capture_image : simpl never.

Section EarlierFormOnMicroscope.

Variables (os : OS) (g : GuiQt.t Microscope.t).

Let m0 := Microscope.set_preview_process (GuiQt.microscope g) None.

Let key := hd EmptyString (PyStr.split ":" (GuiQt.resolution_combo g)).

Let stopped_form :=
  GuiQt.set_preview_state (GuiQt.set_microscope g m0) false
    "Start Preview [P]".

(** X25: run with the class [Microscope] of
    [microscope/microscope_control.py], the earlier form cannot record a
    video while its framerate field is empty: it passes the text
    ['default'], which [float] rejects, so that [capture] stops the
    preview and raises [ValueError] without a recording. *)
Theorem qt_capture_default_framerate :
  GuiQt.mode_combo g = "video" ->
  GuiQt.framerate_edit g = "" ->
  In key presets ->
  GuiQt.duration_edit g = "" \/ PyNum.int (GuiQt.duration_edit g) <> None ->
  GuiQt.capture os g
  = MkOut (Raise (ValueError "could not convert string to float: 'default'"))
      os stopped_form (stop_events (GuiQt.microscope g)).
Proof.
  intros Hv Hf Hk Hd. subst stopped_form m0.
  pose proof (stop_preview_total os (GuiQt.microscope g)) as Hstop.
  destruct (split_cons ":" (GuiQt.resolution_combo g)) as (k & tl & Hs).
  assert (Hkey : key = k) by (subst key; now rewrite Hs).
  rewrite Hkey in Hk.
  destruct (preset_lookup _ Hk) as (d & w & h & Hdict & Hsplit).
  pose proof (fun dur fn =>
                record_video_bad_framerate os
                  (Microscope.set_preview_process (GuiQt.microscope g) None)
                  k d "default" dur fn Hdict eq_refl) as Hvideo.
  unfold GuiQt.capture, GuiQt.on_microscope, GuiQt.to_int.
  unfold GuiQt.stop_preview, GuiQt.record_video, Microscope_class.
  destruct Hd as [Hd|Hd].
  - run. rewrite Hvideo. run. now rewrite !app_nil_r.
  - destruct (PyNum.int (GuiQt.duration_edit g)) as [z|] eqn:Hint;
      [|now contradiction Hd].
    destruct (GuiQt.duration_edit g =? "") eqn:He; run; rewrite Hvideo;
      run; now rewrite !app_nil_r.
Qed.

(** X26: run with the class [Microscope] of
    [microscope/microscope_control.py], an image capture of the earlier
    form stops the preview and runs [rpicam-still] on the file name as
    it is in the field, without a folder before it; the second
    [stop_preview] at the end of [capture] finds no preview and does
    nothing. *)
Theorem qt_capture_image :
  GuiQt.mode_combo g <> "video" ->
  In key presets ->
  GuiQt.duration_edit g = "" \/ PyNum.int (GuiQt.duration_edit g) <> None ->
  executable os "rpicam-still" = true ->
  exists width height,
    GuiQt.capture os g
    = MkOut (Ret tt) os stopped_form
        (stop_events (GuiQt.microscope g)
         ++ [Run ["rpicam-still"; "-o";
                  (GuiQt.filename_edit g ++ ".jpg")%string;
                  "--width"; width; "--height"; height];
             Print ("Image captured and saved to "
                    ++ GuiQt.filename_edit g ++ ".jpg")%string])%list.
Proof.
  intros Hv Hk Hd Hx. subst stopped_form m0.
  pose proof (stop_preview_total os (GuiQt.microscope g)) as Hstop.
  destruct (split_cons ":" (GuiQt.resolution_combo g)) as (k & tl & Hs).
  assert (Hkey : key = k) by (subst key; now rewrite Hs).
  rewrite Hkey in Hk.
  destruct (preset_lookup _ Hk) as (d & w & h & Hdict & Hsplit).
  pose proof (capture_image_run os
                (Microscope.set_preview_process (GuiQt.microscope g) None)
                k d w h (GuiQt.filename_edit g) Hdict Hsplit) as Himage.
  rewrite Hx in Himage.
  pose proof (stop_preview_idle os
                (Microscope.set_preview_process (GuiQt.microscope g) None)
                eq_refl) as Hidle.
  apply String.eqb_neq in Hv.
  exists w, h.
  unfold GuiQt.capture, GuiQt.on_microscope, GuiQt.to_int.
  unfold GuiQt.stop_preview, GuiQt.capture_image, Microscope_class.
  destruct Hd as [Hd|Hd].
  - run. now rewrite ?app_nil_r.
  - destruct (PyNum.int (GuiQt.duration_edit g)) as [z|] eqn:Hint;
      [|now contradiction Hd].
    destruct (GuiQt.duration_edit g =? "") eqn:He; run;
      now rewrite ?app_nil_r.
Qed.

End EarlierFormOnMicroscope.


(** The video mode with all fields empty. *)
Lemma qt_capture_default_framerate_witness :
  let g := qt_form_with "video" "" "" in
  GuiQt.capture host_pi4 g
  = MkOut (Raise (ValueError "could not convert string to float: 'default'"))
      host_pi4
      (GuiQt.set_preview_state
         (GuiQt.set_microscope g
            (Microscope.set_preview_process (GuiQt.microscope g) None))
         false "Start Preview [P]")
      (stop_events (GuiQt.microscope g)).
Proof.
  apply (qt_capture_default_framerate host_pi4 (qt_form_with "video" "" "")).
  - reflexivity.
  - reflexivity.
  - vm_compute. tauto.
  - left. reflexivity.
Defined.

(** The image mode with a duration of 5. *)
Lemma qt_capture_image_witness :
  let g := qt_form_with "image" "" "5" in
  exists width height,
    GuiQt.capture host_pi4 g
    = MkOut (Ret tt) host_pi4
        (GuiQt.set_preview_state
           (GuiQt.set_microscope g
              (Microscope.set_preview_process (GuiQt.microscope g) None))
           false "Start Preview [P]")
        (stop_events (GuiQt.microscope g)
         ++ [Run ["rpicam-still"; "-o";
                  (GuiQt.filename_edit g ++ ".jpg")%string;
                  "--width"; width; "--height"; height];
             Print ("Image captured and saved to "
                    ++ GuiQt.filename_edit g ++ ".jpg")%string])%list.
Proof.
  apply (qt_capture_image host_pi4 (qt_form_with "image" "" "5")).
  - discriminate.
  - vm_compute. tauto.
  - right. vm_compute. discriminate.
  - reflexivity.
Defined.
